(** * Facility booking: admission control and slot generation

    A shallow embedding of the booking core of the leisure-club backend:

    - [Booking.create], [Booking.cancel], [Booking.updateStatus]
      (backend/src/models/Booking.js) and the controller entry points
      [BookingController.cancelBooking], [BookingController.updateBookingStatus]
      (backend/src/controllers/bookingController.js);
    - [Facility.getAvailableSlots] (backend/src/models/Facility.js) and
      [FacilityController.getAvailableSlots]
      (backend/src/controllers/facilityController.js).

    Modelling conventions.

    - An instant (a JavaScript [Date], a [moment], a [timestamptz] column, an
      ISO-8601 string denoting one) is the integer number of milliseconds since
      the epoch.  [toISOString] is an injective rendering of that number, so a
      slot carries the number itself.
    - The server and the database session share one fixed-offset time zone,
      [tz] minutes east of UTC (no daylight-saving transitions).
    - A calendar date (the [date] query parameter in its [YYYY-MM-DD] form, a
      [DATE] column, [CURRENT_DATE]) is a day number since the epoch.
    - A table with a primary key is a finite map from the key to the row;
      [uuid] keys are natural numbers.  [created_at]/[updated_at] of bookings
      and [total_cost] are not read by the modelled code and are left out;
      so is [updated_at] of facilities.  An [UPDATE] that also sets
      [updated_at = NOW()] is the map update of the columns a row carries, and
      statements about the row it writes speak of those columns only.
    - The [while] loop of the slot generator is run with fuel.
    - The operations are the statements the JavaScript issues; triggers and
      constraints that a migration script may or may not have installed on
      the database are outside the model. *)

From stdpp Require Import gmap strings list fin_maps sorting.
From Stdlib Require Import ZArith Lia Ascii.

Open Scope Z_scope.

(** ** Local time *)

Module LocalTime.

Definition MS_PER_SECOND : Z := 1000.
Definition MS_PER_MINUTE : Z := 60 * 1000.
Definition MS_PER_HOUR : Z := 60 * 60 * 1000.
Definition MS_PER_DAY : Z := 864 * 100000.

Section Zone.

(** Offset of local time from UTC, in minutes. *)
Variable tz : Z.

Definition localMs (t : Z) : Z := t + tz * MS_PER_MINUTE.

(** [DATE(ts)] and [format('YYYY-MM-DD')]: the local calendar day of [t]. *)
Definition dayOf (t : Z) : Z := localMs t / MS_PER_DAY.

(** Milliseconds elapsed since local midnight. *)
Definition msOfDay (t : Z) : Z := localMs t mod MS_PER_DAY.

(** [moment(t).startOf('day')]: local midnight of the day of [t]. *)
Definition startOfDay (t : Z) : Z := t - msOfDay t.

(** [d.setHours(h, m, 0, 0)]: keep the local date of [d], replace the time. *)
Definition setHours (d h m : Z) : Z :=
  startOfDay d + h * MS_PER_HOUR + m * MS_PER_MINUTE.

Definition digit (n : Z) : ascii := ascii_of_N (Z.to_N (48 + n)).

Definition pad2 (n : Z) : string :=
  String (digit (n / 10 mod 10)) (String (digit (n mod 10)) EmptyString).

(** [format('HH:mm:ss')] over a time of day given in milliseconds. *)
Definition render_HHmmss (ms : Z) : string :=
  let s := ms / MS_PER_SECOND in
  (pad2 (s / 3600) +:+ ":" +:+ pad2 (s / 60 mod 60) +:+ ":" +:+ pad2 (s mod 60))%string.

(** [moment(t).format('HH:mm:ss')]. *)
Definition format_HHmmss (t : Z) : string := render_HHmmss (msOfDay t).

End Zone.

(** [new Date('YYYY-MM-DD')]: midnight UTC of that day. *)
Definition newDate (date : Z) : Z := date * MS_PER_DAY.

(** [a.diff(b, 'minutes')] and [a.diff(b, 'days')] of moment.js: the
    difference divided by the unit, truncated towards zero. *)
Definition diff_minutes (a b : Z) : Z := (a - b) ÷ MS_PER_MINUTE.
Definition diff_days (a b : Z) : Z := (a - b) ÷ MS_PER_DAY.

End LocalTime.

(** ** The fragment of JavaScript the slot generator relies on *)

Module JS.

Inductive value : Type :=
| undefined
| number (n : Z)
| date (t : Z).

(** [ToNumber]; [None] stands for [NaN]. *)
Definition ToNumber (v : value) : option Z :=
  match v with
  | undefined => None
  | number n => Some n
  | date t => Some t
  end.

(** [a < b]: false as soon as one side is [NaN]. *)
Definition lt (a b : value) : bool :=
  match ToNumber a, ToNumber b with
  | Some x, Some y => bool_decide (x < y)
  | _, _ => false
  end.

(** [a > b] is [b < a], again false on [NaN]. *)
Definition gt (a b : value) : bool := lt b a.

(** Property read [o.k]: [undefined] when the object has no such key. *)
Definition get (o : gmap string value) (k : string) : value :=
  default undefined (o !! k).

(** [Number(s)] on the decimal strings a [TIME] column is rendered with:
    digits only ([Number('')] is [0]); anything else is [NaN]. *)
Definition digit_value (c : ascii) : option Z :=
  let n := Z.of_N (N_of_ascii c) in
  if bool_decide (48 ≤ n ≤ 57) then Some (n - 48) else None.

Fixpoint digits_value (acc : Z) (s : string) : option Z :=
  match s with
  | EmptyString => Some acc
  | String c r =>
      match digit_value c with
      | Some d => digits_value (10 * acc + d) r
      | None => None
      end
  end.

Definition Number (s : string) : option Z := digits_value 0 s.

(** [s.split(':')]. *)
Fixpoint split_colon (s : string) : list string :=
  match s with
  | EmptyString => [EmptyString]
  | String c r =>
      if bool_decide (c = ":"%char) then EmptyString :: split_colon r
      else match split_colon r with
           | h :: t => String c h :: t
           | [] => [String c EmptyString]
           end
  end.

(** [const [h, m] = s.split(':').map(Number)]; [None] when one of the two
    is [undefined] or [NaN], which makes [setHours] yield an invalid date. *)
Definition hours_minutes (s : string) : option (Z * Z) :=
  match Number <$> split_colon s with
  | Some h :: Some m :: _ => Some (h, m)
  | _ => None
  end.

End JS.

(** ** Tables *)

Inductive BookingStatus : Type :=
| confirmed | pending | cancelled | completed | no_show.

Global Instance BookingStatus_eq_dec : EqDecision BookingStatus.
Proof. solve_decision. Defined.

Module FacilityStatus.
Inductive t : Type :=
| available | maintenance | closed.
End FacilityStatus.

Global Instance FacilityStatus_eq_dec : EqDecision FacilityStatus.t.
Proof. solve_decision. Defined.

Module MembershipStatus.
Inductive t : Type :=
| active | expired | cancelled | pending | suspended.
End MembershipStatus.

Global Instance MembershipStatus_eq_dec : EqDecision MembershipStatus.t.
Proof. solve_decision. Defined.

Record BookingRow : Type := mkBooking {
  user_id : nat;
  facility_id : nat;
  start_time : Z;
  end_time : Z;
  status : BookingStatus;
  notes : option string
}.

Record FacilityRow : Type := mkFacility {
  name : string;
  type : string;
  operating_hours_start : string;
  operating_hours_end : string;
  booking_duration_minutes : Z;
  booking_buffer_minutes : Z;
  facility_status : FacilityStatus.t
}.

Record MembershipRow : Type := mkMembership {
  member_id : nat;
  membership_type_id : nat;
  end_date : Z;
  membership_status : MembershipStatus.t;
  created_at : Z
}.

Record MembershipTypeRow : Type := mkMembershipType {
  max_bookings_per_day : Z;
  max_booking_days_ahead : Z;
  facilities_access : list string
}.

Record DB : Type := mkDB {
  facilities : gmap nat FacilityRow;
  membership_types : gmap nat MembershipTypeRow;
  memberships : gmap nat MembershipRow;
  bookings : gmap nat BookingRow
}.

Definition set_bookings (db : DB) (bs : gmap nat BookingRow) : DB :=
  mkDB (facilities db) (membership_types db) (memberships db) bs.

Definition set_status (s : BookingStatus) (b : BookingRow) : BookingRow :=
  mkBooking (user_id b) (facility_id b) (start_time b) (end_time b) s (notes b).

(** [status IN ('confirmed', 'pending')]. *)
Definition active_statuses : list BookingStatus := [confirmed; pending].

(** ** models/Booking.js *)

Module Booking.

(** The argument of [Booking.create]. *)
Record BookingData : Type := mkData {
  userId : nat;
  facilityId : nat;
  startTime : Z;
  endTime : Z;
  dataNotes : option string
}.

(** The [Error]s thrown inside the transaction of [create], by message. *)
Inductive Error : Type :=
| AlreadyBooked               (* 'Facility is already booked for this time slot.' *)
| FacilityNotAvailable        (* 'Facility not available or does not exist.' *)
| DurationMismatch (required : Z)  (* 'Booking duration must be exactly N minutes.' *)
| OutsideOperatingHours       (* 'Booking time is outside facility operating hours.' *)
| MembershipRequired          (* 'Active membership required to make bookings.' *)
| NoFacilityAccess            (* 'Your membership does not include access ...' *)
| DailyLimitExceeded (limit : Z)   (* 'Daily booking limit of N exceeded.' *)
| AdvanceLimitExceeded (limit : Z). (* 'Bookings can only be made N days in advance.' *)

Global Instance Error_eq_dec : EqDecision Error.
Proof. solve_decision. Defined.

(** The time condition of [availabilityQuery], with [$2 = s] and [$3 = e]. *)
Definition conflicting (s e : Z) (b : BookingRow) : Prop :=
  (start_time b ≤ s ∧ end_time b > s) ∨
  (start_time b < e ∧ end_time b >= e) ∨
  (start_time b >= s ∧ end_time b ≤ e).

Global Instance conflicting_dec s e b : Decision (conflicting s e b).
Proof. unfold conflicting. apply _. Defined.

(** [availabilityQuery]: the locked rows that stand in the way. *)
Definition availabilityQuery (db : DB) (fid : nat) (s e : Z) : gmap nat BookingRow :=
  filter (λ kb, facility_id kb.2 = fid ∧ status kb.2 ∈ active_statuses ∧
                conflicting s e kb.2) (bookings db).

(** [facilityQuery]: [WHERE id = $1 AND status = 'available']. *)
Definition facilityQuery (db : DB) (fid : nat) : option FacilityRow :=
  match facilities db !! fid with
  | Some f => if decide (facility_status f = FacilityStatus.available) then Some f else None
  | None => None
  end.

(** [facilityTypeQuery]: the [type] column of the row with that key. *)
Definition facilityTypeQuery (db : DB) (fid : nat) : option string :=
  type <$> facilities db !! fid.

Section Zone.

Variable tz : Z.

(** The join and the [WHERE] clause of [membershipQuery]. *)
Definition membershipRows (now : Z) (db : DB) (uid : nat)
  : list (MembershipRow * MembershipTypeRow) :=
  omap (λ km : nat * MembershipRow,
          match membership_types db !! membership_type_id km.2 with
          | Some mt =>
              if decide (member_id km.2 = uid ∧ membership_status km.2 = MembershipStatus.active ∧
                         end_date km.2 >= LocalTime.dayOf tz now)
              then Some (km.2, mt) else None
          | None => None
          end)
       (map_to_list (memberships db)).

(** [ORDER BY m.created_at DESC LIMIT 1]. *)
Definition newer (best r : MembershipRow * MembershipTypeRow)
  : MembershipRow * MembershipTypeRow :=
  if decide (created_at best.1 < created_at r.1) then r else best.

Definition membershipQuery (now : Z) (db : DB) (uid : nat)
  : option (MembershipRow * MembershipTypeRow) :=
  match membershipRows now db uid with
  | [] => None
  | r :: rest => Some (foldl newer r rest)
  end.

(** [dailyBookingsQuery]: [COUNT( * )] of the user's active bookings that
    start on [bookingDate]. *)
Definition dailyBookingsQuery (db : DB) (uid : nat) (bookingDate : Z) : nat :=
  size (filter (λ kb : nat * BookingRow,
                  user_id kb.2 = uid ∧
                  LocalTime.dayOf tz (start_time kb.2) = bookingDate ∧
                  status kb.2 ∈ active_statuses) (bookings db)).

(** [insertQuery]: the new row, keyed by a generated identifier. *)
Definition insertQuery (db : DB) (data : BookingData) : (nat * BookingRow) * DB :=
  let id := fresh (dom (bookings db)) in
  let row := mkBooking (userId data) (facilityId data) (startTime data)
                       (endTime data) confirmed (dataNotes data) in
  ((id, row), set_bookings db (<[id := row]> (bookings db))).

(** [Booking.create], at server time [now].  A thrown error rolls the
    transaction back, so only the success case carries a new database.
    [facilityTypeResult.rows[0]] is read after [facilityQuery] has found the
    row, so the default of [facilityType] is never used. *)
Definition create (now : Z) (data : BookingData) (db : DB)
  : Error + ((nat * BookingRow) * DB) :=
  let conflictingBookings :=
    availabilityQuery db (facilityId data) (startTime data) (endTime data) in
  if decide (Z.of_nat (size conflictingBookings) > 0) then inl AlreadyBooked else
  match facilityQuery db (facilityId data) with
  | None => inl FacilityNotAvailable
  | Some facility =>
    let bookingDuration := LocalTime.diff_minutes (endTime data) (startTime data) in
    if decide (bookingDuration ≠ booking_duration_minutes facility)
    then inl (DurationMismatch (booking_duration_minutes facility)) else
    let bookingTime := LocalTime.format_HHmmss tz (startTime data) in
    if String.ltb bookingTime (operating_hours_start facility)
       || String.ltb (operating_hours_end facility) bookingTime
    then inl OutsideOperatingHours else
    match membershipQuery now db (userId data) with
    | None => inl MembershipRequired
    | Some (_, membership) =>
      let facilityType := default EmptyString (facilityTypeQuery db (facilityId data)) in
      if decide (facilityType ∉ facilities_access membership)
      then inl NoFacilityAccess else
      let bookingDate := LocalTime.dayOf tz (startTime data) in
      let dailyBookingsCount := Z.of_nat (dailyBookingsQuery db (userId data) bookingDate) in
      if decide (dailyBookingsCount >= max_bookings_per_day membership)
      then inl (DailyLimitExceeded (max_bookings_per_day membership)) else
      let daysAhead :=
        LocalTime.diff_days (startTime data) (LocalTime.startOfDay tz now) in
      if decide (daysAhead > max_booking_days_ahead membership)
      then inl (AdvanceLimitExceeded (max_booking_days_ahead membership)) else
      inr (insertQuery db data)
    end
  end.

End Zone.

(** [Booking.cancel(id, userId)]: the [UPDATE ... RETURNING *] touches the row
    with that key when it belongs to [uid] and is still active. *)
Definition cancel (id uid : nat) (db : DB) : option (nat * BookingRow) * DB :=
  match bookings db !! id with
  | Some b =>
      if decide (user_id b = uid ∧ status b ∈ active_statuses)
      then let b' := set_status cancelled b in
           (Some (id, b'), set_bookings db (<[id := b']> (bookings db)))
      else (None, db)
  | None => (None, db)
  end.

(** [Booking.findById(id)]. *)
Definition findById (id : nat) (db : DB) : option (nat * BookingRow) :=
  (λ b, (id, b)) <$> bookings db !! id.

(** [Booking.updateStatus(id, status)]: no condition but the key.  Of
    [SET status = $1, updated_at = NOW()] the row carries [status]. *)
Definition updateStatus (id : nat) (s : BookingStatus) (db : DB)
  : option (nat * BookingRow) * DB :=
  match bookings db !! id with
  | Some b =>
      let b' := set_status s b in
      (Some (id, b'), set_bookings db (<[id := b']> (bookings db)))
  | None => (None, db)
  end.

End Booking.

(** ** controllers/bookingController.js *)

Inductive Role : Type :=
| admin | staff | member | guest.

Global Instance Role_eq_dec : EqDecision Role.
Proof. solve_decision. Defined.

(** The HTTP answers of the controllers, by status code. *)
Inductive Response (A : Type) : Type :=
| ok (body : A)       (* 200 *)
| bad_request         (* 400 *)
| forbidden           (* 403 *)
| not_found           (* 404 *)
| server_error.       (* 500 *)

Arguments ok {A} body.
Arguments bad_request {A}.
Arguments forbidden {A}.
Arguments not_found {A}.
Arguments server_error {A}.

Module BookingController.

(** [cancelBooking]: [req.params.id] and [req.user.id] go to [Booking.cancel];
    no row back is answered 404 'Booking not found or cannot be cancelled.' *)
Definition cancelBooking (id uid : nat) (db : DB)
  : Response (nat * BookingRow) * DB :=
  match Booking.cancel id uid db with
  | (Some booking, db') => (ok booking, db')
  | (None, db') => (not_found, db')
  end.

(** [updateBookingSchema]: [status] is one of the four listed values when
    present, [notes] a non-empty string of at most 500 characters. *)
Definition updateBookingSchema (s : option BookingStatus) (n : option string) : Prop :=
  match s with
  | Some v => v ∈ [confirmed; cancelled; completed; no_show]
  | None => True
  end ∧
  match n with
  | Some v => (0 < String.length v ≤ 500)%nat
  | None => True
  end.

Global Instance updateBookingSchema_dec s n : Decision (updateBookingSchema s n).
Proof. unfold updateBookingSchema. destruct s, n; apply _. Defined.

(** [updateBookingStatus].  A missing [status] reaches the [UPDATE] as [NULL]
    and is refused by the [NOT NULL] column; [Booking.updateNotes] does not
    exist, so a request with notes fails after the status has been written. *)
Definition updateBookingStatus (role : Role) (id : nat)
    (s : option BookingStatus) (n : option string) (db : DB)
  : Response (option (nat * BookingRow)) * DB :=
  if decide (role ≠ admin ∧ role ≠ staff) then (forbidden, db) else
  if decide (updateBookingSchema s n) then
    match Booking.findById id db with
    | None => (not_found, db)
    | Some _ =>
        match s with
        | None => (server_error, db)
        | Some s' =>
            let '(updatedBooking, db') := Booking.updateStatus id s' db in
            match n with
            | Some _ => (server_error, db')
            | None => (ok updatedBooking, db')
            end
        end
    end
  else (bad_request, db).

End BookingController.

(** ** models/Facility.js (class [Facility]) *)

(** A loop run with fuel either returns or is still running when the fuel
    is spent. *)
Inductive Outcome (A : Type) : Type :=
| Returned (a : A)
| OutOfFuel.

Arguments Returned {A} a.
Arguments OutOfFuel {A}.

Module Facility.

(** A row of the [LEFT JOIN]: the facility columns, and the booking columns
    ([start_time], [end_time]) or [NULL]s when no booking matches. *)
Definition JoinRow : Type := FacilityRow * option (Z * Z).

Record Slot : Type := mkSlot {
  slotStartTime : Z;
  slotEndTime : Z;
  available : bool
}.

Record FacilityInfo : Type := mkInfo {
  bookingDurationMinutes : Z;
  operatingHoursStart : string;
  operatingHoursEnd : string
}.

Record Availability : Type := mkAvailability {
  facility : FacilityInfo;
  availableSlots : list Slot
}.

(** The test inside [bookings.some(...)], as written: the objects built by
    [.map] carry [startTime] and [endTime], the test reads [end_time] and
    [start_time]. *)
Definition conflictsWith (slotStart slotEnd : Z) (booking : gmap string JS.value) : bool :=
  JS.lt (JS.date slotStart) (JS.get booking "end_time")
  && JS.gt (JS.date slotEnd) (JS.get booking "start_time").

(** The [while] loop that fills [availableSlots]. *)
Fixpoint slotLoop (fuel : nat) (bookings : list (gmap string JS.value))
    (slotDuration bufferTime dayEnd : Z) (currentTime : Z)
    (availableSlots : list Slot) : Outcome (list Slot) :=
  match fuel with
  | O => OutOfFuel
  | S fuel' =>
      if decide (currentTime + slotDuration * 60 * 1000 ≤ dayEnd) then
        let slotStart := currentTime in
        let slotEnd := currentTime + slotDuration * 60 * 1000 in
        let isConflicting := existsb (conflictsWith slotStart slotEnd) bookings in
        let availableSlots' :=
          if negb isConflicting
          then availableSlots ++ [mkSlot slotStart slotEnd true]
          else availableSlots ++ [mkSlot slotStart slotEnd false] in
        slotLoop fuel' bookings slotDuration bufferTime dayEnd
                 (slotEnd + bufferTime * 60 * 1000) availableSlots'
      else Returned availableSlots
  end.

Section Zone.

Variable tz : Z.

(** The query: one row per active booking of the facility that starts on
    [date]; a single row without booking columns when there is none; no
    row when the facility does not exist. *)
Definition query (db : DB) (facilityId : nat) (date : Z) : list JoinRow :=
  match facilities db !! facilityId with
  | None => []
  | Some f =>
      let joined :=
        filter (λ kb : nat * BookingRow,
                  facility_id kb.2 = facilityId ∧
                  LocalTime.dayOf tz (start_time kb.2) = date ∧
                  status kb.2 ∈ active_statuses) (bookings db) in
      match map_to_list joined with
      | [] => [(f, None)]
      | rows => (λ kb : nat * BookingRow,
                   (f, Some (start_time kb.2, end_time kb.2))) <$> rows
      end
  end.

(** [result.rows.filter(row => row.start_time).map(row => ({...}))]. *)
Definition bookingObjects (rows : list JoinRow) : list (gmap string JS.value) :=
  omap (λ row : JoinRow,
          match row.2 with
          | Some (s, e) =>
              Some ({[ "startTime" := JS.date s; "endTime" := JS.date e ]}
                      : gmap string JS.value)
          | None => None
          end) rows.

(** [Facility.getAvailableSlots(facilityId, date)]; [Returned None] is the
    [null] of an unknown facility.  Operating hours that do not parse give
    invalid dates, on which the loop test is false at once. *)
Definition getAvailableSlots (fuel : nat) (db : DB) (facilityId : nat) (date : Z)
  : Outcome (option Availability) :=
  match query db facilityId date with
  | [] => Returned None
  | ((facility, _) :: _) as rows =>
      let bookings := bookingObjects rows in
      let info := mkInfo (booking_duration_minutes facility)
                         (operating_hours_start facility)
                         (operating_hours_end facility) in
      match JS.hours_minutes (operating_hours_start facility),
            JS.hours_minutes (operating_hours_end facility) with
      | Some (startHour, startMinute), Some (endHour, endMinute) =>
          let dayStart := LocalTime.setHours tz (LocalTime.newDate date) startHour startMinute in
          let dayEnd := LocalTime.setHours tz (LocalTime.newDate date) endHour endMinute in
          let slotDuration := booking_duration_minutes facility in
          let bufferTime := booking_buffer_minutes facility in
          match slotLoop fuel bookings slotDuration bufferTime dayEnd dayStart [] with
          | Returned availableSlots => Returned (Some (mkAvailability info availableSlots))
          | OutOfFuel => OutOfFuel
          end
      | _, _ => Returned (Some (mkAvailability info []))
      end
  end.

End Zone.

End Facility.

(** ** controllers/facilityController.js *)

Module FacilityController.

(** The bounds [facilitySchema] puts on the two numbers of a facility. *)
Definition facilitySchema_minutes (f : FacilityRow) : Prop :=
  15 ≤ booking_duration_minutes f ≤ 480 ∧ 0 ≤ booking_buffer_minutes f ≤ 60.

(** [getAvailableSlots]: 400 without a [date], 404 'Facility not found.' on
    [null], the availability otherwise. *)
Definition getAvailableSlots (tz : Z) (fuel : nat) (db : DB) (id : nat)
    (date : option Z) : Outcome (Response Facility.Availability) :=
  match date with
  | None => Returned bad_request
  | Some d =>
      match Facility.getAvailableSlots tz fuel db id d with
      | Returned None => Returned not_found
      | Returned (Some slots) => Returned (ok slots)
      | OutOfFuel => OutOfFuel
      end
  end.

End FacilityController.

(** ** The booking table as a state machine *)

(** The three requests that write to the booking table.  [CreateBooking] is
    [Booking.create] at server time [now]: the controller validates the
    request body and forwards it. *)
Inductive Op : Type :=
| CreateBooking (now : Z) (data : Booking.BookingData)
| CancelBooking (id uid : nat)
| UpdateBookingStatus (role : Role) (id : nat)
                      (s : option BookingStatus) (n : option string).

(** The database after one request; a failed request leaves it as it was. *)
Definition step (tz : Z) (db : DB) (op : Op) : DB :=
  match op with
  | CreateBooking now data =>
      match Booking.create tz now data db with
      | inr (_, db') => db'
      | inl _ => db
      end
  | CancelBooking id uid => (BookingController.cancelBooking id uid db).2
  | UpdateBookingStatus role id s n =>
      (BookingController.updateBookingStatus role id s n db).2
  end.

Definition run (tz : Z) (ops : list Op) (db : DB) : DB := foldl (step tz) db ops.

(** ** The overlap primitive of the specification *)

Record Interval : Type := mkInterval { lo : Z; hi : Z }.

(** [overlaps(a, b) = a.start < b.end && b.start < a.end]. *)
Definition overlaps (a b : Interval) : Prop := lo a < hi b ∧ lo b < hi a.

Global Instance overlaps_dec a b : Decision (overlaps a b).
Proof. unfold overlaps. apply _. Defined.

Definition interval (b : BookingRow) : Interval :=
  mkInterval (start_time b) (end_time b).

(** No two distinct bookings of one facility whose statuses are in [S]
    overlap. *)
Definition no_overlap (S : list BookingStatus) (db : DB) : Prop :=
  ∀ i j a b,
    i ≠ j →
    bookings db !! i = Some a → bookings db !! j = Some b →
    facility_id a = facility_id b →
    status a ∈ S → status b ∈ S →
    ¬ overlaps (interval a) (interval b).

(** A status update that writes [confirmed]. *)
Definition sets_confirmed (op : Op) : Prop :=
  match op with
  | UpdateBookingStatus _ _ (Some confirmed) _ => True
  | _ => False
  end.

(** ** A club with one court, used to run the code on concrete requests *)

Module Club.

Definition hour (h : Z) : Z := h * LocalTime.MS_PER_HOUR.
Definition minute (m : Z) : Z := m * LocalTime.MS_PER_MINUTE.

(** Day 20000 after the epoch, seen from UTC. *)
Definition today : Z := 20000.
Definition at_ (day ms : Z) : Z := day * LocalTime.MS_PER_DAY + ms.
Definition now : Z := at_ today (hour 6).

Definition court (d b : Z) (st : FacilityStatus.t) : FacilityRow :=
  mkFacility "Tennis Court 1" "tennis_court" "08:00:00" "10:00:00" d b st.

Definition standard : MembershipTypeRow :=
  mkMembershipType 5 7 ["tennis_court"; "gym"].

Definition db_with (f : FacilityRow) (bs : gmap nat BookingRow) : DB :=
  mkDB {[ 1%nat := f ]}
       {[ 1%nat := standard ]}
       {[ 1%nat := mkMembership 1 1 (today + 365) MembershipStatus.active 0;
          2%nat := mkMembership 2 1 (today + 365) MembershipStatus.active 0 ]}
       bs.

(** One court open 08:00-10:00, hourly slots without buffer, two members. *)
Definition empty_db : DB := db_with (court 60 0 FacilityStatus.available) ∅.

Definition request (uid : nat) (day from to : Z) : Booking.BookingData :=
  Booking.mkData uid 1 (at_ day from) (at_ day to) None.

(** Today's 09:00-10:00 slot, asked for by member [uid]. *)
Definition nine_to_ten (uid : nat) : Booking.BookingData :=
  request uid today (hour 9) (hour 10).

(** The row that request leaves in the table. *)
Definition nine_to_ten_row (uid : nat) (st : BookingStatus) : BookingRow :=
  mkBooking uid 1 (at_ today (hour 9)) (at_ today (hour 10)) st None.

(** The same club once member 1 holds today's 09:00-10:00 booking. *)
Definition booked_db : DB :=
  db_with (court 60 0 FacilityStatus.available)
          {[ 0%nat := nine_to_ten_row 1 confirmed ]}.


(** A request for 09:30-10:30, which ends after the court has closed. *)
Definition past_closing (uid : nat) : Booking.BookingData :=
  request uid today (hour 9 + minute 30) (hour 10 + minute 30).

(** The two hourly slots of the court's day. *)
Definition eight_to_nine (a : bool) : Facility.Slot :=
  Facility.mkSlot (at_ today (hour 8)) (at_ today (hour 9)) a.
Definition nine_to_ten_slot (a : bool) : Facility.Slot :=
  Facility.mkSlot (at_ today (hour 9)) (at_ today (hour 10)) a.

End Club.

(** ** Vocabulary of the statements *)

(** A fuelled computation returns [r]: some amount of fuel is enough, and
    more fuel does not change the result. *)
Definition returns {A : Type} (run : nat → Outcome A) (r : A) : Prop :=
  ∃ fuel, ∀ fuel', (fuel ≤ fuel')%nat → run fuel' = Returned r.

(** Every check of [Booking.create] but the advance-booking one lets the
    request through, for a user whose membership has entitlements [mt]. *)
Definition other_checks_pass (tz : Z) (data : Booking.BookingData) (db : DB)
    (mt : MembershipTypeRow) : Prop :=
  size (Booking.availabilityQuery db (Booking.facilityId data)
          (Booking.startTime data) (Booking.endTime data)) = 0%nat ∧
  (∃ f, facilities db !! Booking.facilityId data = Some f ∧
        facility_status f = FacilityStatus.available ∧
        LocalTime.diff_minutes (Booking.endTime data) (Booking.startTime data)
          = booking_duration_minutes f ∧
        String.ltb (LocalTime.format_HHmmss tz (Booking.startTime data))
                   (operating_hours_start f) = false ∧
        String.ltb (operating_hours_end f)
                   (LocalTime.format_HHmmss tz (Booking.startTime data)) = false ∧
        type f ∈ facilities_access mt) ∧
  Z.of_nat (Booking.dailyBookingsQuery tz db (Booking.userId data)
              (LocalTime.dayOf tz (Booking.startTime data)))
    < max_bookings_per_day mt.

(** A facility row with another status, and the database in which the
    row [fid] has been given that status. *)
Definition set_facility_status (st : FacilityStatus.t) (f : FacilityRow) : FacilityRow :=
  mkFacility (name f) (type f) (operating_hours_start f) (operating_hours_end f)
             (booking_duration_minutes f) (booking_buffer_minutes f) st.

Definition with_facility_status (st : FacilityStatus.t) (fid : nat) (db : DB) : DB :=
  mkDB (alter (set_facility_status st) fid (facilities db))
       (membership_types db) (memberships db) (bookings db).

(** * Further operations of the cited files *)

(** ** models/Booking.js: the read queries *)

Module BookingReads.

(** The text a status is stored as in the [status] column. *)
Definition status_name (s : BookingStatus) : string :=
  match s with
  | confirmed => "confirmed"
  | pending => "pending"
  | cancelled => "cancelled"
  | completed => "completed"
  | no_show => "no_show"
  end.

(** [ORDER BY b.start_time ASC] and [ORDER BY b.start_time DESC]. *)
Definition start_asc (a b : nat * BookingRow) : Prop :=
  start_time a.2 ≤ start_time b.2.
Definition start_desc (a b : nat * BookingRow) : Prop :=
  start_time b.2 ≤ start_time a.2.

Global Instance start_asc_dec a b : Decision (start_asc a b).
Proof. unfold start_asc. apply _. Defined.
Global Instance start_desc_dec a b : Decision (start_desc a b).
Proof. unfold start_desc. apply _. Defined.

(** A row of [getAvailability]: the facility columns, and [start_time],
    [end_time], [status] of a joined booking or [NULL]s. *)
Definition AvailabilityRow : Type := FacilityRow * option (Z * Z * BookingStatus).

(** [Booking.getAvailability(facilityId, date)]. *)
Definition getAvailability (tz : Z) (db : DB) (facilityId : nat) (date : Z)
  : list AvailabilityRow :=
  match facilities db !! facilityId with
  | None => []
  | Some f =>
      let joined :=
        filter (λ kb : nat * BookingRow,
                  facility_id kb.2 = facilityId ∧
                  LocalTime.dayOf tz (start_time kb.2) = date ∧
                  status kb.2 ∈ active_statuses) (bookings db) in
      match merge_sort start_asc (map_to_list joined) with
      | [] => [(f, None)]
      | rows => (λ kb : nat * BookingRow,
                   (f, Some (start_time kb.2, end_time kb.2, status kb.2))) <$> rows
      end
  end.

(** The [filters] argument of [findByUserId].  A number that is [NaN] or
    missing is [None]; so is a missing string or date. *)
Record Filters : Type := mkFilters {
  statusFilter : option string;
  startDate : option Z;
  endDate : option Z;
  limit : option Z;
  offset : option Z
}.

(** [if (x)] on a string and on a number. *)
Definition truthy_string (s : option string) : Prop :=
  match s with Some v => v ≠ EmptyString | None => False end.
Definition truthy_number (n : option Z) : Prop :=
  match n with Some v => v ≠ 0 | None => False end.

Global Instance truthy_string_dec s : Decision (truthy_string s).
Proof. destruct s; apply _. Defined.
Global Instance truthy_number_dec n : Decision (truthy_number n).
Proof. destruct n; apply _. Defined.

(** The [WHERE] clause [findByUserId] assembles from the filters. *)
Definition selected (userId : nat) (filters : Filters) (b : BookingRow) : Prop :=
  user_id b = userId ∧
  (if decide (truthy_string (statusFilter filters))
   then Some (status_name (status b)) = statusFilter filters else True) ∧
  match startDate filters with Some s => start_time b >= s | None => True end ∧
  match endDate filters with Some e => start_time b ≤ e | None => True end.

Global Instance selected_dec userId filters b : Decision (selected userId filters b).
Proof.
  unfold selected.
  destruct (decide (truthy_string (statusFilter filters))),
    (startDate filters), (endDate filters); apply _.
Defined.

(** A row of [findByUserId]: the booking, with [facility_name] and
    [facility_type] of the joined facility. *)
Definition UserBookingRow : Type := (nat * BookingRow) * (string * string).

(** The inner join with [facilities], the [WHERE] clause and the
    [ORDER BY b.start_time DESC]. *)
Definition userBookings (db : DB) (userId : nat) (filters : Filters)
  : list UserBookingRow :=
  omap (λ kb : nat * BookingRow,
          match facilities db !! facility_id kb.2 with
          | Some f => Some (kb, (name f, type f))
          | None => None
          end)
       (merge_sort start_desc
          (map_to_list (filter (λ kb : nat * BookingRow, selected userId filters kb.2)
                               (bookings db)))).

(** [Booking.findByUserId(userId, filters)].  [LIMIT] is added when
    [filters.limit] is truthy and [OFFSET], inside that branch, when
    [filters.offset] is; the database refuses a negative [LIMIT] or
    [OFFSET], which is the [None] here. *)
Definition findByUserId (db : DB) (userId : nat) (filters : Filters)
  : option (list UserBookingRow) :=
  let rows := userBookings db userId filters in
  if decide (truthy_number (limit filters)) then
    let n := default 0 (limit filters) in
    if decide (n < 0) then None else
    if decide (truthy_number (offset filters)) then
      let k := default 0 (offset filters) in
      if decide (k < 0) then None
      else Some (take (Z.to_nat n) (drop (Z.to_nat k) rows))
    else Some (take (Z.to_nat n) rows)
  else Some rows.

End BookingReads.

(** ** middleware/auth.js *)

Module Auth.

(** What a middleware does with a request: hand it on, or answer 401 or
    403. *)
Inductive Verdict : Type :=
| next
| unauthorized
| insufficient_permissions.

(** [roleMiddleware(allowedRoles)], on [req.user] reduced to its role. *)
Definition roleMiddleware (allowedRoles : list Role) (user : option Role) : Verdict :=
  match user with
  | None => unauthorized
  | Some role =>
      if decide (role ∉ allowedRoles) then insufficient_permissions else next
  end.

Definition adminMiddleware : option Role → Verdict := roleMiddleware [admin].
Definition staffMiddleware : option Role → Verdict := roleMiddleware [admin; staff].
Definition memberMiddleware : option Role → Verdict :=
  roleMiddleware [admin; staff; member].

End Auth.

(** ** controllers/bookingController.js: the other handlers *)

Module BookingHandlers.

(** The body of a booking request whose fields are present and well
    formed (a UUID, two ISO dates). *)
Record BookingBody : Type := mkBody {
  facilityId : nat;
  startTime : Z;
  endTime : Z;
  notes : option string
}.

(** [bookingSchema], at validation time [now]: [startTime] is not before
    now, [endTime] not before [startTime], [notes] a non-empty string of at
    most 500 characters when present. *)
Definition bookingSchema (now : Z) (body : BookingBody) : Prop :=
  now ≤ startTime body ∧
  startTime body ≤ endTime body ∧
  match notes body with
  | Some v => (0 < String.length v ≤ 500)%nat
  | None => True
  end.

Global Instance bookingSchema_dec now body : Decision (bookingSchema now body).
Proof. unfold bookingSchema. destruct (notes body); apply _. Defined.

(** The answers of [createBooking]: 201 with the booking, 400 with the
    validation message, 400 with the message of the error thrown by
    [Booking.create]. *)
Inductive CreateResponse : Type :=
| created (booking : nat * BookingRow)
| invalid_body
| refused (e : Booking.Error).

(** [createBooking], for [req.user.id = uid]; [now] is the clock at
    validation and [txnow] the clock inside the transaction. *)
Definition createBooking (tz now txnow : Z) (uid : nat) (body : BookingBody) (db : DB)
  : CreateResponse * DB :=
  if decide (bookingSchema now body) then
    match Booking.create tz txnow
            (Booking.mkData uid (facilityId body) (startTime body) (endTime body)
                            (notes body)) db with
    | inr (booking, db') => (created booking, db')
    | inl e => (refused e, db)
    end
  else (invalid_body, db).

(** [getBooking]: staff and admins read any booking, other users their own;
    somebody else's booking is answered 403, an unknown id 404.  The joins
    of [findById] drop no row, [user_id] and [facility_id] being foreign
    keys of the bookings table. *)
Definition getBooking (role : Role) (uid id : nat) (db : DB)
  : Response (nat * BookingRow) :=
  if decide (role = admin ∨ role = staff) then
    match Booking.findById id db with
    | Some booking => ok booking
    | None => not_found
    end
  else
    match Booking.findById id db with
    | Some booking =>
        if decide (user_id booking.2 ≠ uid) then forbidden else ok booking
    | None => not_found
    end.

(** A query parameter that goes through [parseInt]: missing (the default
    applies), or the parsed number, [None] for [NaN]. *)
Definition parsed (default_ : Z) (p : option (option Z)) : option Z :=
  match p with
  | None => Some default_
  | Some v => v
  end.

(** [moment(t).endOf('day')]. *)
Definition endOfDay (tz t : Z) : Z :=
  LocalTime.startOfDay tz t + LocalTime.MS_PER_DAY - 1.

Record Pagination : Type := mkPagination {
  page : option Z;
  pageLimit : option Z;
  total : nat
}.

(** [getBookings]: the caller's bookings, filtered and paged. *)
Definition getBookings (tz : Z) (uid : nat) (status : option string)
    (startDate endDate : option Z) (page limit : option (option Z)) (db : DB)
  : Response (list BookingReads.UserBookingRow * Pagination) :=
  let page' := parsed 1 page in
  let limit' := parsed 20 limit in
  let filters :=
    BookingReads.mkFilters status
      (LocalTime.startOfDay tz <$> startDate)
      (endOfDay tz <$> endDate)
      limit'
      (match page', limit' with
       | Some p, Some l => Some ((p - 1) * l)
       | _, _ => None
       end) in
  match BookingReads.findByUserId db uid filters with
  | Some bookings => ok (bookings, mkPagination page' limit' (length bookings))
  | None => server_error
  end.

Record BookedSlot : Type := mkBookedSlot {
  bookedStart : Z;
  bookedEnd : Z;
  bookedStatus : BookingStatus
}.

Record FacilityBookings : Type := mkFacilityBookings {
  facilityInfo : Z * string * string;
  bookedSlots : list BookedSlot;
  requestedDate : Z
}.

(** [getFacilityAvailability]: the booked slots of a facility on a date. *)
Definition getFacilityAvailability (tz : Z) (facilityId : nat) (date : option Z) (db : DB)
  : Response FacilityBookings :=
  match date with
  | None => bad_request
  | Some d =>
      match BookingReads.getAvailability tz db facilityId d with
      | [] => not_found
      | ((facility, _) :: _) as availability =>
          let bookedSlots :=
            omap (λ row : BookingReads.AvailabilityRow,
                    match row.2 with
                    | Some (s, e, st) => Some (mkBookedSlot s e st)
                    | None => None
                    end) availability in
          ok (mkFacilityBookings
                (booking_duration_minutes facility,
                 operating_hours_start facility,
                 operating_hours_end facility)
                bookedSlots d)
      end
  end.

(** The route [PUT /:id/status]: [staffMiddleware], then the handler. *)
Definition putStatus (user : option Role) (id : nat)
    (s : option BookingStatus) (n : option string) (db : DB)
  : Auth.Verdict + Response (option (nat * BookingRow)) * DB :=
  match Auth.staffMiddleware user, user with
  | Auth.next, Some role => inr (BookingController.updateBookingStatus role id s n db)
  | v, _ => inl v
  end.

End BookingHandlers.

(** ** models/Facility.js and controllers/facilityController.js: the status *)

Module FacilityAdmin.

(** [Facility.updateStatus(id, status)].  Of
    [SET status = $1, updated_at = NOW()] the row carries [status]; what is
    said below of a facility after an update is said of its columns [name],
    [type], operating hours, duration, buffer and [status]. *)
Definition updateStatus (id : nat) (st : FacilityStatus.t) (db : DB)
  : option FacilityRow * DB :=
  match facilities db !! id with
  | Some f => (Some (set_facility_status st f), with_facility_status st id db)
  | None => (None, db)
  end.

(** [updateFacilityStatus]: a status outside the three listed values
    ([None] here) is answered 400, an unknown facility 404. *)
Definition updateFacilityStatus (id : nat) (status : option FacilityStatus.t) (db : DB)
  : Response FacilityRow * DB :=
  match status with
  | None => (bad_request, db)
  | Some st =>
      match updateStatus id st db with
      | (Some facility, db') => (ok facility, db')
      | (None, db') => (not_found, db')
      end
  end.

End FacilityAdmin.

(** ** models/Facility.js: the columns of an update *)

Module FacilityFields.

(** A key is a string of code units below 256.  [/[A-Z]/] on one of
    them. *)
Definition is_upper (c : ascii) : bool :=
  (65 <=? N_of_ascii c)%N && (N_of_ascii c <=? 90)%N.

(** [toLowerCase] on one code unit: the letters A-Z, and the Latin-1
    capitals from U+00C0 to U+00DE but the multiplication sign, move up
    by 32. *)
Definition toLowerCase_unit (c : ascii) : ascii :=
  let n := N_of_ascii c in
  if is_upper c || ((192 <=? n)%N && (n <=? 222)%N && negb (n =? 215)%N)
  then ascii_of_N (n + 32) else c.

Fixpoint toLowerCase (s : string) : string :=
  match s with
  | EmptyString => EmptyString
  | String c rest => String (toLowerCase_unit c) (toLowerCase rest)
  end.

(** [key.replace(/([A-Z])/g, '_$1')]. *)
Fixpoint replace_upper (key : string) : string :=
  match key with
  | EmptyString => EmptyString
  | String c rest =>
      if is_upper c then String "_" (String c (replace_upper rest))
      else String c (replace_upper rest)
  end.

(** [const dbField = key.replace(/([A-Z])/g, '_$1').toLowerCase()]. *)
Definition dbField (key : string) : string := toLowerCase (replace_upper key).

Definition allowedFields : list string :=
  [ "name"; "type"; "description"; "capacity"; "location";
    "operating_hours_start"; "operating_hours_end";
    "booking_duration_minutes"; "booking_buffer_minutes";
    "requires_supervision"; "status" ].

(** The loop of [Facility.update] over [Object.entries(updateData)]: the
    columns assigned by the [SET] clause, in order, each with the value
    bound to its parameter.  Entries whose column is not allowed are
    skipped. *)
Definition assignments {V : Type} (updateData : list (string * V)) : list (string * V) :=
  omap (λ kv : string * V,
          if decide (dbField kv.1 ∈ allowedFields) then Some (dbField kv.1, kv.2)
          else None)
       updateData.

(** A key made of ASCII letters and digits only, as the keys of
    [facilitySchema] are. *)
Definition identifier_unit (c : ascii) : bool :=
  let n := N_of_ascii c in
  is_upper c || ((97 <=? n)%N && (n <=? 122)%N) || ((48 <=? n)%N && (n <=? 57)%N).

Fixpoint identifier (key : string) : bool :=
  match key with
  | EmptyString => true
  | String c rest => identifier_unit c && identifier rest
  end.

End FacilityFields.

(** ** Vocabulary of the further statements *)

(** The bookings [GET /bookings] shows a user when paging is off: the
    user's own, with a facility, the asked status and a start within the
    asked local days. *)
Definition shown (tz : Z) (uid : nat) (st : option string) (sd ed : option Z) (db : DB)
    (id : nat) (b : BookingRow) : Prop :=
  bookings db !! id = Some b ∧
  user_id b = uid ∧
  is_Some (facilities db !! facility_id b) ∧
  (∀ v, st = Some v → v ≠ EmptyString → BookingReads.status_name (status b) = v) ∧
  (∀ s, sd = Some s → LocalTime.dayOf tz s ≤ LocalTime.dayOf tz (start_time b)) ∧
  (∀ e, ed = Some e → LocalTime.dayOf tz (start_time b) ≤ LocalTime.dayOf tz e).

(** What a caller of [Booking.create] gets back: the error thrown, or the
    row inserted. *)
Definition answer (r : Booking.Error + ((nat * BookingRow) * DB))
  : Booking.Error + (nat * BookingRow) :=
  match r with
  | inl e => inl e
  | inr (booking, _) => inr booking
  end.

(** The integers JavaScript numbers hold exactly. *)
Definition safe_integer (n : Z) : Prop := - 2 ^ 53 < n < 2 ^ 53.

(** * Properties *)

(** Closed decidable facts, such as membership of a status in a literal
    list, are settled by evaluation. *)
Ltac by_decide := apply (bool_decide_unpack _); vm_compute; exact I.

(** ** The helpers on concrete values *)

Example format_half_past_nine :
  LocalTime.format_HHmmss 0 (Club.at_ Club.today (Club.hour 9 + Club.minute 30))
  = "09:30:00".
Proof. vm_compute. reflexivity. Qed.

Example format_east_of_utc :
  LocalTime.format_HHmmss 120 (Club.at_ Club.today (Club.hour 23)) = "01:00:00".
Proof. vm_compute. reflexivity. Qed.

Example dayOf_east_of_utc :
  LocalTime.dayOf 120 (Club.at_ Club.today (Club.hour 23)) = Club.today + 1.
Proof. vm_compute. reflexivity. Qed.

Example diff_minutes_truncates :
  LocalTime.diff_minutes (Club.minute 60 + 59999) 0 = 60 ∧
  LocalTime.diff_minutes 0 (Club.minute 60 + 59999) = -60.
Proof. split; vm_compute; reflexivity. Qed.

Example hours_minutes_of_time_column :
  JS.hours_minutes "08:00:00" = Some (8, 0) ∧
  JS.hours_minutes "21:30:00" = Some (21, 30) ∧
  JS.hours_minutes "closed" = None.
Proof. repeat split; vm_compute; reflexivity. Qed.

Example compare_with_undefined :
  JS.lt (JS.date 5) JS.undefined = false ∧
  JS.gt (JS.date 5) JS.undefined = false ∧
  JS.lt (JS.date 5) (JS.date 7) = true.
Proof. repeat split; vm_compute; reflexivity. Qed.

Example string_order_is_time_order :
  String.ltb "07:59:59" "08:00:00" = true ∧
  String.ltb "10:00:00" "10:00:00" = false ∧
  String.ltb "10:00:00" "10:00:01" = true.
Proof. repeat split; vm_compute; reflexivity. Qed.

(** ** Overlap arithmetic *)

Lemma overlaps_sym a b : overlaps a b ↔ overlaps b a.
Proof. unfold overlaps. lia. Qed.

Lemma touching_do_not_overlap a b : hi a = lo b → ¬ overlaps a b.
Proof. unfold overlaps. lia. Qed.

(** An overlap with the requested interval is always caught by the
    [WHERE] clause, whatever the intervals. *)
Lemma overlaps_conflicting (e : BookingRow) (s en : Z) :
  overlaps (interval e) (mkInterval s en) → Booking.conflicting s en e.
Proof. unfold overlaps, Booking.conflicting. simpl. lia. Qed.

(** The admission controller.  For an existing booking and a requested
    interval that both have their start before their end, the three-case
    time condition of [availabilityQuery] in [Booking.create] holds exactly
    when the two intervals overlap under the half-open primitive
    [a.start < b.end && b.start < a.end]. *)
Lemma conflicting_iff_overlaps (e : BookingRow) (s en : Z) :
  start_time e < end_time e → s < en →
  Booking.conflicting s en e ↔ overlaps (interval e) (mkInterval s en).
Proof. unfold overlaps, Booking.conflicting. simpl. lia. Qed.

Lemma conflicting_iff_overlaps_witness :
  Booking.conflicting 5 15 (mkBooking 1 1 0 10 confirmed None)
  ↔ overlaps (interval (mkBooking 1 1 0 10 confirmed None)) (mkInterval 5 15).
Proof. apply conflicting_iff_overlaps; simpl; lia. Defined.

(** ** What a successful [create] has checked and written *)

Lemma create_inr tz now data db r :
  Booking.create tz now data db = inr r →
  size (Booking.availabilityQuery db (Booking.facilityId data)
          (Booking.startTime data) (Booking.endTime data)) = 0%nat ∧
  r = Booking.insertQuery db data.
Proof.
  unfold Booking.create. intros H.
  repeat (case_decide || case_match); simplify_eq.
  split; [lia | reflexivity].
Qed.

Lemma fresh_booking_id (db : DB) : bookings db !! fresh (dom (bookings db)) = None.
Proof. apply not_elem_of_dom, is_fresh. Qed.

(** Nothing active on the facility stands in the way of an admitted
    interval. *)
Lemma no_conflict_no_overlap db fid s e j b :
  size (Booking.availabilityQuery db fid s e) = 0%nat →
  bookings db !! j = Some b → facility_id b = fid →
  status b ∈ active_statuses →
  ¬ overlaps (interval b) (mkInterval s e).
Proof.
  intros Hsize Hj Hfid Hst Hov.
  apply map_size_empty_iff in Hsize.
  unfold Booking.availabilityQuery in Hsize.
  eapply map_filter_empty_not_lookup in Hsize; [exact (Hsize Hj) |].
  simpl. auto using overlaps_conflicting.
Qed.

(** ** The invariant of the admission controller *)

Section Invariant.

Variable S : list BookingStatus.

Lemma no_overlap_set_status db id b s :
  bookings db !! id = Some b → s ∉ S →
  no_overlap S db →
  no_overlap S (set_bookings db (<[id := set_status s b]> (bookings db))).
Proof.
  intros Hid Hs Hinv i j x y Hij Hi Hj Hfac Hx Hy. simpl in Hi, Hj.
  apply lookup_insert_Some in Hi as [[<- <-] | [Hni Hi]];
    [ simpl in Hx; contradiction |].
  apply lookup_insert_Some in Hj as [[<- <-] | [Hnj Hj]];
    [ simpl in Hy; contradiction |].
  eauto.
Qed.

End Invariant.

Lemma create_preserves_no_overlap tz now data db b db' :
  Booking.create tz now data db = inr (b, db') →
  no_overlap active_statuses db → no_overlap active_statuses db'.
Proof.
  intros Hc Hinv. apply create_inr in Hc as [Hfree Heq].
  unfold Booking.insertQuery in Heq. simplify_eq.
  intros i j x y Hij Hi Hj Hfac Hx Hy. simpl in Hi, Hj.
  apply lookup_insert_Some in Hi as [[<- <-] | [Hni Hi]];
    apply lookup_insert_Some in Hj as [[<- <-] | [Hnj Hj]].
  - congruence.
  - simpl in Hfac. rewrite overlaps_sym.
    eapply no_conflict_no_overlap; eauto.
  - simpl in Hfac. eapply no_conflict_no_overlap; eauto.
  - eauto.
Qed.

Lemma cancel_preserves_no_overlap id uid db :
  no_overlap active_statuses db →
  no_overlap active_statuses (BookingController.cancelBooking id uid db).2.
Proof.
  intros Hinv. unfold BookingController.cancelBooking, Booking.cancel.
  destruct (bookings db !! id) as [b|] eqn:Hb; [| exact Hinv].
  case_decide; [| exact Hinv]. simpl.
  apply no_overlap_set_status; [exact Hb | | exact Hinv].
  by_decide.
Qed.

Lemma update_preserves_no_overlap role id s n db :
  ¬ sets_confirmed (UpdateBookingStatus role id s n) →
  no_overlap active_statuses db →
  no_overlap active_statuses (BookingController.updateBookingStatus role id s n db).2.
Proof.
  intros Hs Hinv. unfold BookingController.updateBookingStatus.
  case_decide; [exact Hinv |].
  case_decide as Hschema; [| exact Hinv].
  unfold Booking.findById, Booking.updateStatus.
  destruct (bookings db !! id) as [b|] eqn:Hb; simpl; [| exact Hinv].
  destruct s as [s'|]; [| exact Hinv].
  assert (s' ∉ active_statuses) as Hout.
  { destruct Hschema as [Hv _].
    destruct s'; simpl in Hs; try contradiction; try by_decide.
    exfalso. revert Hv. by_decide. }
  destruct n; simpl; apply no_overlap_set_status; auto.
Qed.

Lemma step_preserves_no_overlap tz db op :
  ¬ sets_confirmed op →
  no_overlap active_statuses db → no_overlap active_statuses (step tz db op).
Proof.
  intros Hop Hinv. destruct op as [now data | id uid | role id s n]; simpl.
  - destruct (Booking.create tz now data db) as [e | [b db']] eqn:Hc;
      eauto using create_preserves_no_overlap.
  - by apply cancel_preserves_no_overlap.
  - by apply update_preserves_no_overlap.
Qed.

Lemma run_preserves_no_overlap tz ops : ∀ db,
  Forall (λ op, ¬ sets_confirmed op) ops →
  no_overlap active_statuses db → no_overlap active_statuses (run tz ops db).
Proof.
  unfold run. induction ops as [| op ops IH]; intros db Hops Hinv; simpl.
  - exact Hinv.
  - inversion Hops; subst. apply IH; [assumption |].
    by apply step_preserves_no_overlap.
Qed.

Lemma touching_not_conflicting (e : BookingRow) (s en : Z) :
  start_time e < end_time e → s < en →
  end_time e = s ∨ en = start_time e →
  ¬ Booking.conflicting s en e.
Proof. unfold Booking.conflicting. lia. Qed.

Lemma no_overlap_empty S db : bookings db = ∅ → no_overlap S db.
Proof. intros He i j a b _ Hi. rewrite He in Hi. by rewrite lookup_empty in Hi. Qed.

(** What the requests do keep.  After any sequence of createBooking,
    cancelBooking and updateBookingStatus requests none of which writes the
    status [confirmed], starting from a state that satisfies it, no two
    distinct bookings of a facility with status in {confirmed, pending}
    overlap under the half-open test; and a booking that merely touches the
    requested interval at an endpoint is not a conflict for createBooking. *)
Lemma no_overlap_preserved :
  (∀ tz ops db,
     Forall (λ op, ¬ sets_confirmed op) ops →
     no_overlap active_statuses db →
     no_overlap active_statuses (run tz ops db)) ∧
  (∀ (e : BookingRow) (s en : Z),
     start_time e < end_time e → s < en →
     end_time e = s ∨ en = start_time e →
     ¬ Booking.conflicting s en e).
Proof.
  split.
  - intros tz ops db. apply run_preserves_no_overlap.
  - apply touching_not_conflicting.
Qed.

Lemma no_overlap_preserved_witness :
  no_overlap active_statuses
    (run 0 [CreateBooking Club.now (Club.nine_to_ten 1);
            CancelBooking 0 1;
            CreateBooking Club.now (Club.nine_to_ten 2);
            UpdateBookingStatus staff 0 (Some completed) None] Club.empty_db) ∧
  ¬ Booking.conflicting 10 20 (mkBooking 1 1 0 10 confirmed None).
Proof.
  split.
  - apply (proj1 no_overlap_preserved).
    + repeat constructor; simpl; tauto.
    + apply no_overlap_empty. reflexivity.
  - apply (proj2 no_overlap_preserved); simpl; [lia | lia | left; reflexivity].
Defined.

(** C1 (the code at the failing input).  Starting from the club without
    bookings, where the invariant holds, two sequences of accepted requests
    end in a double booking of the court's 09:00-10:00: member 1 books it
    and cancels, member 2 books it, and staff sets the first booking back to
    [confirmed] (two confirmed bookings of the same hour); or member 1
    books it, staff marks the booking [completed], and member 2 books the
    same hour (a confirmed booking over a completed one).  [Booking.create]
    looks at confirmed and pending bookings only, and [Booking.updateStatus]
    checks nothing. *)
Lemma confirmed_completed_overlap_reachable :
  no_overlap [confirmed; completed] Club.empty_db ∧
  ¬ no_overlap [confirmed; completed]
      (run 0 [CreateBooking Club.now (Club.nine_to_ten 1);
              CancelBooking 0 1;
              CreateBooking Club.now (Club.nine_to_ten 2);
              UpdateBookingStatus staff 0 (Some confirmed) None] Club.empty_db) ∧
  ¬ no_overlap [confirmed; completed]
      (run 0 [CreateBooking Club.now (Club.nine_to_ten 1);
              UpdateBookingStatus staff 0 (Some completed) None;
              CreateBooking Club.now (Club.nine_to_ten 2)] Club.empty_db).
Proof.
  split; [by apply no_overlap_empty | split].
  - intros H.
    apply (H 0%nat 1%nat (Club.nine_to_ten_row 1 confirmed)
             (Club.nine_to_ten_row 2 confirmed));
      [ lia | vm_compute; reflexivity | vm_compute; reflexivity
      | reflexivity | by_decide | by_decide | ].
    unfold overlaps. vm_compute. split; reflexivity.
  - intros H.
    apply (H 0%nat 1%nat (Club.nine_to_ten_row 1 completed)
             (Club.nine_to_ten_row 2 confirmed));
      [ lia | vm_compute; reflexivity | vm_compute; reflexivity
      | reflexivity | by_decide | by_decide | ].
    unfold overlaps. vm_compute. split; reflexivity.
Qed.

(** ** Cancellation *)

Lemma cancel_refused id uid db :
  ¬ (∃ b, bookings db !! id = Some b ∧ user_id b = uid ∧ status b ∈ active_statuses) →
  BookingController.cancelBooking id uid db = (not_found, db).
Proof.
  intros Hno. unfold BookingController.cancelBooking, Booking.cancel.
  destruct (bookings db !! id) as [b|] eqn:Hb; [| reflexivity].
  case_decide as Hok; [| reflexivity].
  exfalso. apply Hno. exists b. tauto.
Qed.

Lemma cancel_accepted id uid db b :
  bookings db !! id = Some b → user_id b = uid → status b ∈ active_statuses →
  BookingController.cancelBooking id uid db
  = (ok (id, set_status cancelled b),
     set_bookings db (<[id := set_status cancelled b]> (bookings db))).
Proof.
  intros Hb Hu Hs. unfold BookingController.cancelBooking, Booking.cancel.
  rewrite Hb. case_decide as Hok; [reflexivity | tauto].
Qed.

(** C9. cancelBooking by the owner of a booking whose status is confirmed
    or pending succeeds, sets that booking (and no other) to cancelled, and
    every later cancel of the same id, by anyone, is answered with the one
    not-found-or-not-cancellable outcome; so is the cancel of an id that does
    not exist, of a booking that is no longer confirmed or pending (already
    cancelled in particular), and of a booking owned by another user, each
    leaving the table as it was. *)
Theorem cancel_once_only_by_owner (id uid : nat) (db : DB) :
  (∀ b, bookings db !! id = Some b → user_id b = uid →
        status b ∈ active_statuses →
        ∃ db',
          BookingController.cancelBooking id uid db
            = (ok (id, set_status cancelled b), db') ∧
          bookings db' !! id = Some (set_status cancelled b) ∧
          status (set_status cancelled b) = cancelled ∧
          (∀ j, j ≠ id → bookings db' !! j = bookings db !! j) ∧
          (∀ uid', BookingController.cancelBooking id uid' db' = (not_found, db'))) ∧
  (bookings db !! id = None →
   BookingController.cancelBooking id uid db = (not_found, db)) ∧
  (∀ b, bookings db !! id = Some b → status b ∉ active_statuses →
        BookingController.cancelBooking id uid db = (not_found, db)) ∧
  (∀ b, bookings db !! id = Some b → user_id b ≠ uid →
        BookingController.cancelBooking id uid db = (not_found, db)).
Proof.
  repeat split.
  - intros b Hb Hu Hs. eexists. split; [by apply cancel_accepted |].
    simpl. split; [by rewrite lookup_insert_eq |]. split; [reflexivity |].
    split; [intros j Hj; by rewrite lookup_insert_ne |].
    intros uid'. apply cancel_refused. simpl.
    intros (b' & Hb' & _ & Hs'). rewrite lookup_insert_eq in Hb'.
    simplify_eq. revert Hs'. simpl. by_decide.
  - intros Hb. apply cancel_refused. intros (b & Hb' & _). congruence.
  - intros b Hb Hs. apply cancel_refused. intros (b' & Hb' & _ & Hs').
    congruence.
  - intros b Hb Hu. apply cancel_refused. intros (b' & Hb' & Hu' & _).
    congruence.
Qed.

Lemma cancel_once_only_by_owner_witness :
  (∃ db',
     BookingController.cancelBooking 0 1 Club.booked_db
       = (ok (0%nat, set_status cancelled (Club.nine_to_ten_row 1 confirmed)), db') ∧
     bookings db' !! 0%nat = Some (set_status cancelled (Club.nine_to_ten_row 1 confirmed)) ∧
     status (set_status cancelled (Club.nine_to_ten_row 1 confirmed)) = cancelled ∧
     (∀ j, j ≠ 0%nat → bookings db' !! j = bookings Club.booked_db !! j) ∧
     (∀ uid', BookingController.cancelBooking 0 uid' db' = (not_found, db'))) ∧
  BookingController.cancelBooking 7 1 Club.booked_db = (not_found, Club.booked_db) ∧
  BookingController.cancelBooking 0 2 Club.booked_db = (not_found, Club.booked_db).
Proof.
  split; [| split].
  - apply (proj1 (cancel_once_only_by_owner 0 1 Club.booked_db)
                 (Club.nine_to_ten_row 1 confirmed)).
    + vm_compute. reflexivity.
    + reflexivity.
    + by_decide.
  - apply (proj1 (proj2 (cancel_once_only_by_owner 7 1 Club.booked_db))).
    vm_compute. reflexivity.
  - apply (proj2 (proj2 (proj2 (cancel_once_only_by_owner 0 2 Club.booked_db)))
                 (Club.nine_to_ten_row 1 confirmed)).
    + vm_compute. reflexivity.
    + vm_compute. discriminate.
Defined.

(** ** The duration check *)




(** ** The operating-hours check *)

(** What the check does enforce: an admitted request starts within the
    closed interval of the operating hours. *)
Lemma create_start_within_hours tz now data db r :
  Booking.create tz now data db = inr r →
  ∃ f, facilities db !! Booking.facilityId data = Some f ∧
       String.ltb (LocalTime.format_HHmmss tz (Booking.startTime data))
                  (operating_hours_start f) = false ∧
       String.ltb (operating_hours_end f)
                  (LocalTime.format_HHmmss tz (Booking.startTime data)) = false.
Proof.
  unfold Booking.create, Booking.facilityQuery. intros H.
  destruct (facilities db !! Booking.facilityId data) as [f |];
    [| by case_decide].
  exists f. split; [reflexivity |].
  repeat (case_decide; try discriminate).
  destruct (String.ltb _ (operating_hours_start f)); [discriminate |].
  destruct (String.ltb (operating_hours_end f) _); [discriminate |].
  split; reflexivity.
Qed.

(** C5 (the code at the failing input). A court open 08:00-10:00 with
    60-minute bookings: the request 09:30-10:30, whose end time of day
    10:30:00 is after the closing time 10:00:00, is admitted and written as
    a confirmed booking. *)
Theorem booking_past_closing_admitted :
  operating_hours_end (Club.court 60 0 FacilityStatus.available) = "10:00:00" ∧
  LocalTime.format_HHmmss 0 (Booking.startTime (Club.past_closing 1)) = "09:30:00" ∧
  LocalTime.format_HHmmss 0 (Booking.endTime (Club.past_closing 1)) = "10:30:00" ∧
  String.ltb "10:00:00" "10:30:00" = true ∧
  ∃ id db',
    Booking.create 0 Club.now (Club.past_closing 1) Club.empty_db
      = inr ((id, mkBooking 1 1 (Club.at_ Club.today (Club.hour 9 + Club.minute 30))
                            (Club.at_ Club.today (Club.hour 10 + Club.minute 30))
                            confirmed None), db').
Proof.
  repeat split; try (vm_compute; reflexivity).
  eexists _, _. vm_compute. reflexivity.
Qed.

(** ** The slot generator's conflict test *)

(** The objects handed to the test have no [end_time] or [start_time]
    property, both reads are [undefined], and the test is never true. *)
Lemma conflictsWith_booking_object slotStart slotEnd s e :
  Facility.conflictsWith slotStart slotEnd
    ({[ "startTime" := JS.date s; "endTime" := JS.date e ]} : gmap string JS.value)
  = false.
Proof. reflexivity. Qed.

Lemma bookingObjects_cons f s e (rows : list Facility.JoinRow) :
  Facility.bookingObjects ((f, Some (s, e)) :: rows)
  = ({[ "startTime" := JS.date s; "endTime" := JS.date e ]} : gmap string JS.value)
      :: Facility.bookingObjects rows.
Proof. reflexivity. Qed.

Lemma isConflicting_false slotStart slotEnd (rows : list Facility.JoinRow) :
  existsb (Facility.conflictsWith slotStart slotEnd) (Facility.bookingObjects rows)
  = false.
Proof.
  induction rows as [| [f [[s e]|]] rows IH]; [reflexivity | | exact IH].
  rewrite bookingObjects_cons.
  cbn [existsb]. by rewrite conflictsWith_booking_object, IH.
Qed.

(** C3 (the code at the failing input).  The admission controller and the
    slot generator do not apply the same overlap semantics.  On the club
    where member 1 holds today's 09:00-10:00, that booking and the interval
    09:00-10:00 overlap under the half-open primitive, the three-case
    condition of the admission controller holds and a second request for the
    hour is refused as already booked; the slot generator's query returns the
    booking, but its test on the object built from that row is false for the
    slot 09:00-10:00.  The test is false for every slot and every list of
    rows: it reads [end_time] and [start_time] on objects that carry
    [startTime] and [endTime]. *)
Theorem generator_misses_overlap :
  overlaps (interval (Club.nine_to_ten_row 1 confirmed))
           (mkInterval (Club.at_ Club.today (Club.hour 9))
                       (Club.at_ Club.today (Club.hour 10))) ∧
  Booking.conflicting (Club.at_ Club.today (Club.hour 9))
                      (Club.at_ Club.today (Club.hour 10))
                      (Club.nine_to_ten_row 1 confirmed) ∧
  Booking.create 0 Club.now (Club.nine_to_ten 2) Club.booked_db
    = inl Booking.AlreadyBooked ∧
  Facility.query 0 Club.booked_db 1 Club.today
    = [(Club.court 60 0 FacilityStatus.available,
        Some (Club.at_ Club.today (Club.hour 9), Club.at_ Club.today (Club.hour 10)))] ∧
  existsb (Facility.conflictsWith (Club.at_ Club.today (Club.hour 9))
                                  (Club.at_ Club.today (Club.hour 10)))
          (Facility.bookingObjects (Facility.query 0 Club.booked_db 1 Club.today))
    = false ∧
  (∀ slotStart slotEnd (rows : list Facility.JoinRow),
     existsb (Facility.conflictsWith slotStart slotEnd) (Facility.bookingObjects rows)
     = false).
Proof.
  split; [unfold overlaps; vm_compute; split; reflexivity |].
  split; [apply overlaps_conflicting; unfold overlaps; vm_compute; split; reflexivity |].
  split; [vm_compute; reflexivity |].
  split; [vm_compute; reflexivity |].
  split; [apply isConflicting_false |].
  intros slotStart slotEnd rows. apply isConflicting_false.
Qed.

(** Hence every slot the generator emits is marked available, whatever the
    bookings of the day. *)
Lemma slotLoop_all_available (rows : list Facility.JoinRow) d b dayEnd :
  ∀ fuel cur acc r,
    Forall (λ s, Facility.available s = true) acc →
    Facility.slotLoop fuel (Facility.bookingObjects rows) d b dayEnd cur acc
      = Returned r →
    Forall (λ s, Facility.available s = true) r.
Proof.
  induction fuel as [| fuel IH]; intros cur acc r Hacc Hr; [discriminate |].
  cbn [Facility.slotLoop] in Hr. case_decide; [| by simplify_eq].
  rewrite isConflicting_false in Hr. cbn [negb] in Hr.
  eapply IH; [| exact Hr]. apply Forall_app. split; [exact Hacc |].
  by repeat constructor.
Qed.

Lemma getAvailableSlots_all_available tz fuel db fid date a :
  Facility.getAvailableSlots tz fuel db fid date = Returned (Some a) →
  Forall (λ s, Facility.available s = true) (Facility.availableSlots a).
Proof.
  unfold Facility.getAvailableSlots. intros H.
  destruct (Facility.query tz db fid date) as [| [f bk] rows]; [discriminate |].
  destruct (JS.hours_minutes (operating_hours_start f)) as [[sh sm] |];
    [| simplify_eq; constructor].
  destruct (JS.hours_minutes (operating_hours_end f)) as [[eh em] |];
    [| simplify_eq; constructor].
  destruct (Facility.slotLoop _ _ _ _ _ _ _) as [r |] eqn:Hloop; [| discriminate].
  simplify_eq. simpl. eapply slotLoop_all_available; [| exact Hloop].
  constructor.
Qed.

(** C2 (the code at the failing input). After createBooking has booked
    today's 09:00-10:00 on the court (open 08:00-10:00, 60-minute slots, no
    buffer, no other booking), getAvailableSlots for that day lists the
    09:00-10:00 slot with [available = true], like the 08:00-09:00 one. *)
Theorem booked_slot_reported_available :
  ∃ id db',
    Booking.create 0 Club.now (Club.nine_to_ten 1) Club.empty_db
      = inr ((id, Club.nine_to_ten_row 1 confirmed), db') ∧
    bookings db' !! id = Some (Club.nine_to_ten_row 1 confirmed) ∧
    ∀ fuel, (3 ≤ fuel)%nat →
      Facility.getAvailableSlots 0 fuel db' 1 Club.today
      = Returned (Some (Facility.mkAvailability
                          (Facility.mkInfo 60 "08:00:00" "10:00:00")
                          [Club.eight_to_nine true; Club.nine_to_ten_slot true])).
Proof.
  eexists _, _. split; [vm_compute; reflexivity |].
  split; [vm_compute; reflexivity |].
  intros [| [| [| fuel]]] Hfuel; try lia.
  vm_compute. reflexivity.
Qed.

(** ** The advance-booking window *)

(** Days ahead, counted from the start of today, is the difference of the
    calendar days when the request is not in the past. *)
Lemma diff_days_startOfDay tz now t k :
  0 ≤ k →
  LocalTime.dayOf tz t = LocalTime.dayOf tz now + k →
  LocalTime.diff_days t (LocalTime.startOfDay tz now) = k.
Proof.
  unfold LocalTime.diff_days, LocalTime.startOfDay, LocalTime.msOfDay,
    LocalTime.dayOf, LocalTime.localMs, LocalTime.MS_PER_DAY,
    LocalTime.MS_PER_MINUTE.
  change (864 * 100000) with 86400000. change (60 * 1000) with 60000.
  intros Hk Hday.
  set (a := t + tz * 60000) in *. set (b := now + tz * 60000) in *.
  pose proof (Z.div_mod a 86400000 ltac:(lia)) as Ha.
  pose proof (Z.div_mod b 86400000 ltac:(lia)) as Hb.
  pose proof (Z.mod_pos_bound a 86400000 ltac:(lia)) as Hma.
  replace (t - (now - b mod 86400000)) with (a - b + b mod 86400000)
    by (unfold a, b; lia).
  rewrite Z.quot_div_nonneg by lia.
  symmetry. apply (Z.div_unique _ _ _ (a mod 86400000)); lia.
Qed.

(** With every other check out of the way, [create] is decided by the
    advance-booking test alone. *)
Lemma create_after_other_checks tz now data db m mt :
  Booking.membershipQuery tz now db (Booking.userId data) = Some (m, mt) →
  other_checks_pass tz data db mt →
  Booking.create tz now data db
  = if decide (LocalTime.diff_days (Booking.startTime data)
                 (LocalTime.startOfDay tz now) > max_booking_days_ahead mt)
    then inl (Booking.AdvanceLimitExceeded (max_booking_days_ahead mt))
    else inr (Booking.insertQuery db data).
Proof.
  intros Hm (Hfree & (f & Hf & Hav & Hdur & Hopen & Hclose & Hty) & Hcount).
  unfold Booking.create, Booking.facilityQuery, Booking.facilityTypeQuery.
  rewrite Hfree, Hf. cbv zeta.
  case_decide; [lia |]. case_decide; [| contradiction].
  case_decide; [contradiction |].
  rewrite Hopen, Hclose, Hm. cbn [orb fmap option_fmap option_map default].
  case_decide; [contradiction |]. case_decide; [lia |]. reflexivity.
Qed.

(** C8. For a user whose membership allows booking 7 days ahead and a
    request that passes every other check of createBooking: when the request
    starts on the calendar day exactly 7 days after today it succeeds and is
    written as a confirmed booking; when it starts on the day 8 days after
    today it fails with the advance-booking error.  Days ahead are counted
    from the start of the current day. *)
Theorem advance_window_boundary tz now data db m mt :
  Booking.membershipQuery tz now db (Booking.userId data) = Some (m, mt) →
  max_booking_days_ahead mt = 7 →
  other_checks_pass tz data db mt →
  (LocalTime.dayOf tz (Booking.startTime data) = LocalTime.dayOf tz now + 7 →
   ∃ id db',
     Booking.create tz now data db
       = inr ((id, mkBooking (Booking.userId data) (Booking.facilityId data)
                             (Booking.startTime data) (Booking.endTime data)
                             confirmed (Booking.dataNotes data)), db') ∧
     bookings db !! id = None ∧
     bookings db' = <[id := mkBooking (Booking.userId data) (Booking.facilityId data)
                             (Booking.startTime data) (Booking.endTime data)
                             confirmed (Booking.dataNotes data)]> (bookings db)) ∧
  (LocalTime.dayOf tz (Booking.startTime data) = LocalTime.dayOf tz now + 8 →
   Booking.create tz now data db = inl (Booking.AdvanceLimitExceeded 7)).
Proof.
  intros Hm Hmax Hother.
  rewrite (create_after_other_checks _ _ _ _ _ _ Hm Hother), Hmax.
  split; intros Hday.
  - rewrite (diff_days_startOfDay _ _ _ 7) by (lia || assumption).
    case_decide; [lia |].
    eexists _, _. split; [reflexivity |].
    split; [apply fresh_booking_id | reflexivity].
  - rewrite (diff_days_startOfDay _ _ _ 8) by (lia || assumption).
    case_decide; [reflexivity | lia].
Qed.

Lemma advance_window_boundary_witness :
  (∃ id db',
     Booking.create 0 Club.now (Club.request 1 (Club.today + 7) (Club.hour 9) (Club.hour 10))
                    Club.empty_db
       = inr ((id, mkBooking 1 1 (Club.at_ (Club.today + 7) (Club.hour 9))
                             (Club.at_ (Club.today + 7) (Club.hour 10))
                             confirmed None), db') ∧
     bookings Club.empty_db !! id = None ∧
     bookings db' = <[id := mkBooking 1 1 (Club.at_ (Club.today + 7) (Club.hour 9))
                             (Club.at_ (Club.today + 7) (Club.hour 10))
                             confirmed None]> (bookings Club.empty_db)) ∧
  Booking.create 0 Club.now (Club.request 1 (Club.today + 8) (Club.hour 9) (Club.hour 10))
                 Club.empty_db
    = inl (Booking.AdvanceLimitExceeded 7).
Proof.
  split.
  - apply (proj1 (advance_window_boundary 0 Club.now
             (Club.request 1 (Club.today + 7) (Club.hour 9) (Club.hour 10))
             Club.empty_db
             (mkMembership 1 1 (Club.today + 365) MembershipStatus.active 0)
             Club.standard
             ltac:(vm_compute; reflexivity) ltac:(reflexivity)
             ltac:(split; [vm_compute; reflexivity |]; split;
                   [exists (Club.court 60 0 FacilityStatus.available);
                    repeat split; try (vm_compute; reflexivity); by_decide
                   | vm_compute; reflexivity]))).
    vm_compute. reflexivity.
  - apply (proj2 (advance_window_boundary 0 Club.now
             (Club.request 1 (Club.today + 8) (Club.hour 9) (Club.hour 10))
             Club.empty_db
             (mkMembership 1 1 (Club.today + 365) MembershipStatus.active 0)
             Club.standard
             ltac:(vm_compute; reflexivity) ltac:(reflexivity)
             ltac:(split; [vm_compute; reflexivity |]; split;
                   [exists (Club.court 60 0 FacilityStatus.available);
                    repeat split; try (vm_compute; reflexivity); by_decide
                   | vm_compute; reflexivity]))).
    vm_compute. reflexivity.
Defined.

(** ** The rows the slot generator starts from *)

Lemma query_unknown tz db fid date :
  facilities db !! fid = None → Facility.query tz db fid date = [].
Proof. intros H. unfold Facility.query. by rewrite H. Qed.

Lemma query_known tz db fid date f :
  facilities db !! fid = Some f →
  ∃ bk rest, Facility.query tz db fid date = (f, bk) :: rest.
Proof.
  intros H. unfold Facility.query. rewrite H.
  destruct (map_to_list _) as [| kb rows]; simpl; eauto.
Qed.

(** ** Termination of the slot loop *)

Lemma slotLoop_returns bookings d b dayEnd :
  0 < d + b →
  ∀ (n : nat) cur acc,
    dayEnd - (cur + d * 60 * 1000) < Z.of_nat n * ((d + b) * 60000) →
    ∃ r, ∀ fuel, (S n ≤ fuel)%nat →
      Facility.slotLoop fuel bookings d b dayEnd cur acc = Returned r.
Proof.
  intros Hstep. induction n as [| n IH]; intros cur acc Hn.
  - exists acc. intros [| fuel] Hf; [lia |].
    cbn [Facility.slotLoop]. case_decide; [lia | reflexivity].
  - destruct (decide (cur + d * 60 * 1000 ≤ dayEnd)) as [Hle | Hgt].
    + destruct (IH (cur + d * 60 * 1000 + b * 60 * 1000)
                  (if negb (existsb (Facility.conflictsWith cur (cur + d * 60 * 1000)) bookings)
                   then acc ++ [Facility.mkSlot cur (cur + d * 60 * 1000) true]
                   else acc ++ [Facility.mkSlot cur (cur + d * 60 * 1000) false]))
        as [r Hr]; [lia |].
      exists r. intros [| fuel] Hf; [lia |].
      cbn [Facility.slotLoop]. rewrite decide_True by exact Hle.
      apply Hr. lia.
    + exists acc. intros [| fuel] Hf; [lia |].
      cbn [Facility.slotLoop]. by rewrite decide_False.
Qed.

Lemma slotLoop_terminates bookings d b dayEnd cur acc :
  0 < d + b →
  ∃ r, returns (λ fuel, Facility.slotLoop fuel bookings d b dayEnd cur acc) r.
Proof.
  intros Hstep.
  destruct (slotLoop_returns bookings d b dayEnd Hstep
              (Z.to_nat (Z.max 0 (dayEnd - (cur + d * 60 * 1000) + 1))) cur acc)
    as [r Hr]; [nia |].
  exists r. eexists. exact Hr.
Qed.

(** A loop that does not advance never leaves a non-empty window. *)
Lemma slotLoop_zero_step bookings dayEnd cur :
  cur ≤ dayEnd →
  ∀ fuel acc, Facility.slotLoop fuel bookings 0 0 dayEnd cur acc = OutOfFuel.
Proof.
  intros Hle. induction fuel as [| fuel IH]; intros acc; [reflexivity |].
  cbn [Facility.slotLoop]. rewrite decide_True by lia.
  replace (cur + 0 * 60 * 1000 + 0 * 60 * 1000) with cur by lia.
  apply IH.
Qed.

Lemma getAvailableSlots_returns tz db fid date :
  (∀ f, facilities db !! fid = Some f →
        0 < booking_duration_minutes f + booking_buffer_minutes f) →
  ∃ r, returns (λ fuel, Facility.getAvailableSlots tz fuel db fid date) r.
Proof.
  intros Hstep. unfold Facility.getAvailableSlots.
  destruct (facilities db !! fid) as [f |] eqn:Hf.
  - destruct (query_known tz db fid date f Hf) as (bk & rest & ->).
    destruct (JS.hours_minutes (operating_hours_start f)) as [[sh sm] |];
      [| eexists; exists 0%nat; reflexivity].
    destruct (JS.hours_minutes (operating_hours_end f)) as [[eh em] |];
      [| eexists; exists 0%nat; reflexivity].
    edestruct slotLoop_terminates as (r & n & Hr); [exact (Hstep f eq_refl) |].
    eexists. exists n. intros fuel Hfuel. by rewrite Hr.
  - rewrite (query_unknown _ _ _ _ Hf). eexists. exists 0%nat. reflexivity.
Qed.

Lemma getAvailableSlots_zero_step tz db fid date f sh sm eh em :
  facilities db !! fid = Some f →
  booking_duration_minutes f = 0 → booking_buffer_minutes f = 0 →
  JS.hours_minutes (operating_hours_start f) = Some (sh, sm) →
  JS.hours_minutes (operating_hours_end f) = Some (eh, em) →
  LocalTime.setHours tz (LocalTime.newDate date) sh sm
    ≤ LocalTime.setHours tz (LocalTime.newDate date) eh em →
  ∀ fuel, Facility.getAvailableSlots tz fuel db fid date = OutOfFuel.
Proof.
  intros Hf Hd Hb Hs He Hle fuel. unfold Facility.getAvailableSlots.
  destruct (query_known tz db fid date f Hf) as (bk & rest & ->).
  rewrite Hs, He, Hd, Hb. by rewrite slotLoop_zero_step.
Qed.

Lemma facilitySchema_positive_step f :
  FacilityController.facilitySchema_minutes f →
  0 < booking_duration_minutes f + booking_buffer_minutes f.
Proof. unfold FacilityController.facilitySchema_minutes. lia. Qed.

(** C6 (amended). getAvailableSlots terminates for every date and every
    facility id whose facility, if there is one, has
    bookingDurationMinutes + bookingBufferMinutes > 0; the bounds of
    facilitySchema (duration 15..480, buffer 0..60) guarantee that. *)
Theorem getAvailableSlots_terminates tz db fid date :
  ((∀ f, facilities db !! fid = Some f →
         0 < booking_duration_minutes f + booking_buffer_minutes f) →
   ∃ r, returns (λ fuel, Facility.getAvailableSlots tz fuel db fid date) r) ∧
  ((∀ f, facilities db !! fid = Some f →
         FacilityController.facilitySchema_minutes f) →
   ∃ r, returns (λ fuel, Facility.getAvailableSlots tz fuel db fid date) r).
Proof.
  split; intros H; apply getAvailableSlots_returns;
    auto using facilitySchema_positive_step.
Qed.

Lemma getAvailableSlots_terminates_witness :
  ∃ r, returns (λ fuel, Facility.getAvailableSlots 0 fuel Club.empty_db 1 Club.today) r.
Proof.
  apply (proj1 (getAvailableSlots_terminates 0 Club.empty_db 1 Club.today)).
  intros f Hf. vm_compute in Hf. injection Hf as <-. vm_compute. reflexivity.
Defined.

(** C6 as stated fails: with duration 0 and buffer 0 the generator neither
    returns nor reports an error, whatever the fuel; with duration 0 and a
    15-minute buffer it returns a list of empty slots, not an error. *)
Lemma zero_duration_not_refused :
  (∀ fuel,
     FacilityController.getAvailableSlots 0 fuel
       (Club.db_with (Club.court 0 0 FacilityStatus.available) ∅) 1 (Some Club.today)
     = OutOfFuel) ∧
  (∃ a,
     FacilityController.getAvailableSlots 0 10
       (Club.db_with (Club.court 0 15 FacilityStatus.available) ∅) 1 (Some Club.today)
     = Returned (ok a)).
Proof.
  split.
  - intros fuel. unfold FacilityController.getAvailableSlots.
    rewrite (getAvailableSlots_zero_step 0 _ 1 Club.today
               (Club.court 0 0 FacilityStatus.available) 8 0 10 0);
      try reflexivity.
    vm_compute. discriminate.
  - eexists. vm_compute. reflexivity.
Qed.

(** ** The slots of a two-hour day *)

Lemma msOfDay_startOfDay tz t k :
  0 ≤ k < LocalTime.MS_PER_DAY →
  LocalTime.msOfDay tz (LocalTime.startOfDay tz t + k) = k.
Proof.
  unfold LocalTime.startOfDay, LocalTime.msOfDay, LocalTime.localMs,
    LocalTime.MS_PER_DAY, LocalTime.MS_PER_MINUTE.
  change (864 * 100000) with 86400000. change (60 * 1000) with 60000.
  intros Hk. set (a := t + tz * 60000).
  pose proof (Z.div_mod a 86400000 ltac:(lia)) as Ha.
  replace (t - a mod 86400000 + k + tz * 60000)
    with (k + a / 86400000 * 86400000) by (unfold a in *; lia).
  rewrite Z.mod_add by lia. apply Z.mod_small. lia.
Qed.

Lemma format_setHours tz d h m :
  0 ≤ h * LocalTime.MS_PER_HOUR + m * LocalTime.MS_PER_MINUTE < LocalTime.MS_PER_DAY →
  LocalTime.format_HHmmss tz (LocalTime.setHours tz d h m)
  = LocalTime.render_HHmmss (h * LocalTime.MS_PER_HOUR + m * LocalTime.MS_PER_MINUTE).
Proof.
  intros Hk. unfold LocalTime.format_HHmmss, LocalTime.setHours.
  rewrite <- Z.add_assoc. by rewrite msOfDay_startOfDay.
Qed.

(** East of Greenwich, [new Date(date)] followed by [setHours] stays on the
    calendar day [date]. *)
Lemma dayOf_setHours tz date h m :
  0 ≤ tz * LocalTime.MS_PER_MINUTE < LocalTime.MS_PER_DAY →
  0 ≤ h * LocalTime.MS_PER_HOUR + m * LocalTime.MS_PER_MINUTE < LocalTime.MS_PER_DAY →
  LocalTime.dayOf tz (LocalTime.setHours tz (LocalTime.newDate date) h m) = date.
Proof.
  unfold LocalTime.setHours, LocalTime.startOfDay, LocalTime.msOfDay,
    LocalTime.dayOf, LocalTime.localMs, LocalTime.newDate,
    LocalTime.MS_PER_DAY, LocalTime.MS_PER_MINUTE, LocalTime.MS_PER_HOUR.
  change (864 * 100000) with 86400000. change (60 * 1000) with 60000.
  change (60 * 60 * 1000) with 3600000.
  intros Htz Hk.
  replace (date * 86400000 + tz * 60000) with (tz * 60000 + date * 86400000) by lia.
  rewrite Z.mod_add by lia. rewrite (Z.mod_small (tz * 60000)) by lia.
  symmetry. apply (Z.div_unique _ _ _ (h * 3600000 + m * 60000)); lia.
Qed.

Lemma query_no_booking tz db fid date f :
  facilities db !! fid = Some f →
  (∀ i b, bookings db !! i = Some b → facility_id b = fid →
          LocalTime.dayOf tz (start_time b) ≠ date) →
  Facility.query tz db fid date = [(f, None)].
Proof.
  intros Hf Hnone. unfold Facility.query. rewrite Hf.
  rewrite map_empty_filter_2; [by rewrite map_to_list_empty |].
  intros i b Hb (Hfac & Hday & _). simpl in *. by eapply Hnone.
Qed.

Lemma slotLoop_two_hours dayStart fuel :
  (3 ≤ fuel)%nat →
  Facility.slotLoop fuel [] 60 0 (dayStart + 2 * LocalTime.MS_PER_HOUR) dayStart []
  = Returned [Facility.mkSlot dayStart (dayStart + LocalTime.MS_PER_HOUR) true;
              Facility.mkSlot (dayStart + LocalTime.MS_PER_HOUR)
                              (dayStart + 2 * LocalTime.MS_PER_HOUR) true].
Proof.
  unfold LocalTime.MS_PER_HOUR. change (60 * 60 * 1000) with 3600000.
  destruct fuel as [| [| [| fuel]]]; intros Hfuel; try lia.
  cbn [Facility.slotLoop existsb negb app].
  repeat case_decide; try lia.
  repeat (f_equal; try lia).
Qed.

Lemma setHours_plus_hours tz d h k :
  LocalTime.setHours tz d h 0 + k * LocalTime.MS_PER_HOUR
  = LocalTime.setHours tz d (h + k) 0.
Proof. unfold LocalTime.setHours. lia. Qed.

(** C7. For a facility with operating hours 08:00-10:00, 60-minute
    bookings and no buffer, on a date on which no booking of the facility
    starts, getAvailableSlots returns exactly two slots, in ascending order
    and both available: the one from 08:00 to 09:00 and the one from 09:00 to
    10:00 local time, the latter ending exactly at the closing time. *)
Theorem slot_partition_two_hours tz db fid date f :
  facilities db !! fid = Some f →
  operating_hours_start f = "08:00:00" →
  operating_hours_end f = "10:00:00" →
  booking_duration_minutes f = 60 →
  booking_buffer_minutes f = 0 →
  (∀ i b, bookings db !! i = Some b → facility_id b = fid →
          LocalTime.dayOf tz (start_time b) ≠ date) →
  let t8 := LocalTime.setHours tz (LocalTime.newDate date) 8 0 in
  let t9 := t8 + LocalTime.MS_PER_HOUR in
  let t10 := t8 + 2 * LocalTime.MS_PER_HOUR in
  returns (λ fuel, Facility.getAvailableSlots tz fuel db fid date)
          (Some (Facility.mkAvailability
                   (Facility.mkInfo 60 "08:00:00" "10:00:00")
                   [Facility.mkSlot t8 t9 true; Facility.mkSlot t9 t10 true])) ∧
  LocalTime.format_HHmmss tz t8 = "08:00:00" ∧
  LocalTime.format_HHmmss tz t9 = "09:00:00" ∧
  LocalTime.format_HHmmss tz t10 = "10:00:00" ∧
  (0 ≤ tz * LocalTime.MS_PER_MINUTE < LocalTime.MS_PER_DAY →
   LocalTime.dayOf tz t8 = date ∧ LocalTime.dayOf tz t10 = date).
Proof.
  intros Hf Hopen Hclose Hdur Hbuf Hnone t8 t9 t10.
  assert (t9 = LocalTime.setHours tz (LocalTime.newDate date) 9 0) as Ht9.
  { unfold t9, t8. rewrite <- (Z.mul_1_l LocalTime.MS_PER_HOUR).
    by rewrite setHours_plus_hours. }
  assert (t10 = LocalTime.setHours tz (LocalTime.newDate date) 10 0) as Ht10.
  { unfold t10, t8. by rewrite setHours_plus_hours. }
  split; [| split; [| split; [| split]]].
  - exists 3%nat. intros fuel Hfuel. unfold Facility.getAvailableSlots.
    rewrite (query_no_booking _ _ _ _ _ Hf Hnone), Hopen, Hclose, Hdur, Hbuf.
    change (JS.hours_minutes "08:00:00") with (Some (8, 0)).
    change (JS.hours_minutes "10:00:00") with (Some (10, 0)).
    change (Facility.bookingObjects [(f, None)]) with (@nil (gmap string JS.value)).
    cbv beta iota zeta. fold t8. rewrite <- Ht10. unfold t10.
    rewrite slotLoop_two_hours by exact Hfuel. reflexivity.
  - unfold t8. rewrite format_setHours by (vm_compute; split; [discriminate | reflexivity]).
    vm_compute. reflexivity.
  - rewrite Ht9, format_setHours by (vm_compute; split; [discriminate | reflexivity]).
    vm_compute. reflexivity.
  - rewrite Ht10, format_setHours by (vm_compute; split; [discriminate | reflexivity]).
    vm_compute. reflexivity.
  - intros Htz. rewrite Ht10. unfold t8.
    split; apply dayOf_setHours; try exact Htz;
      vm_compute; (split; [discriminate | reflexivity]).
Qed.

Lemma slot_partition_two_hours_witness :
  returns (λ fuel, Facility.getAvailableSlots 0 fuel Club.empty_db 1 Club.today)
          (Some (Facility.mkAvailability
                   (Facility.mkInfo 60 "08:00:00" "10:00:00")
                   [Facility.mkSlot (LocalTime.setHours 0 (LocalTime.newDate Club.today) 8 0)
                      (LocalTime.setHours 0 (LocalTime.newDate Club.today) 8 0
                       + LocalTime.MS_PER_HOUR) true;
                    Facility.mkSlot
                      (LocalTime.setHours 0 (LocalTime.newDate Club.today) 8 0
                       + LocalTime.MS_PER_HOUR)
                      (LocalTime.setHours 0 (LocalTime.newDate Club.today) 8 0
                       + 2 * LocalTime.MS_PER_HOUR) true])).
Proof.
  apply (slot_partition_two_hours 0 Club.empty_db 1 Club.today
           (Club.court 60 0 FacilityStatus.available));
    try reflexivity.
  intros i b Hb. vm_compute in Hb. discriminate.
Defined.

(** ** The slot generator and the facility status *)

Lemma bookingObjects_fmap (g : FacilityRow → FacilityRow) (rows : list Facility.JoinRow) :
  Facility.bookingObjects ((λ r : Facility.JoinRow, (g r.1, r.2)) <$> rows)
  = Facility.bookingObjects rows.
Proof.
  unfold Facility.bookingObjects.
  induction rows as [| [f bk] rows IH]; [reflexivity |].
  cbn [fmap list_fmap omap list_omap fst snd]. rewrite <- IH. reflexivity.
Qed.

Lemma query_with_facility_status tz st db fid date :
  Facility.query tz (with_facility_status st fid db) fid date
  = (λ r : Facility.JoinRow, (set_facility_status st r.1, r.2))
      <$> Facility.query tz db fid date.
Proof.
  unfold Facility.query, with_facility_status. cbn [facilities bookings].
  rewrite lookup_alter_eq.
  destruct (facilities db !! fid) as [f |]; [| reflexivity].
  cbn [fmap option_fmap option_map].
  destruct (map_to_list _) as [| kb rows]; [reflexivity |].
  by rewrite <- list_fmap_compose.
Qed.

Lemma getAvailableSlots_with_facility_status tz st fuel db fid date :
  Facility.getAvailableSlots tz fuel (with_facility_status st fid db) fid date
  = Facility.getAvailableSlots tz fuel db fid date.
Proof.
  unfold Facility.getAvailableSlots. rewrite query_with_facility_status.
  destruct (Facility.query tz db fid date) as [| [f bk] rows]; [reflexivity |].
  pose proof (bookingObjects_fmap (set_facility_status st) ((f, bk) :: rows)) as Hobj.
  simpl in Hobj |- *. by rewrite Hobj.
Qed.

Lemma getAvailableSlots_unknown tz fuel db fid date :
  facilities db !! fid = None →
  Facility.getAvailableSlots tz fuel db fid date = Returned None.
Proof.
  intros Hf. unfold Facility.getAvailableSlots. by rewrite query_unknown.
Qed.

Lemma getAvailableSlots_known tz fuel db fid date f :
  facilities db !! fid = Some f →
  Facility.getAvailableSlots tz fuel db fid date ≠ Returned None.
Proof.
  intros Hf. unfold Facility.getAvailableSlots.
  destruct (query_known tz db fid date f Hf) as (bk & rest & ->).
  repeat case_match; discriminate.
Qed.

(** C10 (amended). getAvailableSlots does not consult the facility's
    status.  For an id without facility it answers facility-not-found; for
    an existing facility it never does, its outcome is the same whatever the
    status (maintenance and closed included), and when the facility's
    duration plus buffer is positive it returns a slot list. *)
Theorem getAvailableSlots_ignores_status tz db fid date :
  (facilities db !! fid = None →
   ∀ fuel,
     Facility.getAvailableSlots tz fuel db fid date = Returned None ∧
     FacilityController.getAvailableSlots tz fuel db fid (Some date)
       = Returned not_found) ∧
  (∀ f, facilities db !! fid = Some f →
     (∀ fuel,
        Facility.getAvailableSlots tz fuel db fid date ≠ Returned None ∧
        FacilityController.getAvailableSlots tz fuel db fid (Some date)
          ≠ Returned not_found) ∧
     (∀ st fuel,
        Facility.getAvailableSlots tz fuel (with_facility_status st fid db) fid date
          = Facility.getAvailableSlots tz fuel db fid date ∧
        FacilityController.getAvailableSlots tz fuel
            (with_facility_status st fid db) fid (Some date)
          = FacilityController.getAvailableSlots tz fuel db fid (Some date)) ∧
     (0 < booking_duration_minutes f + booking_buffer_minutes f →
      ∃ a, returns (λ fuel, FacilityController.getAvailableSlots tz fuel db fid
                              (Some date)) (ok a))).
Proof.
  split.
  - intros Hf fuel. unfold FacilityController.getAvailableSlots.
    by rewrite getAvailableSlots_unknown.
  - intros f Hf. split; [| split].
    + intros fuel. pose proof (getAvailableSlots_known tz fuel db fid date f Hf).
      split; [assumption |]. unfold FacilityController.getAvailableSlots.
      destruct (Facility.getAvailableSlots tz fuel db fid date) as [[a |] |];
        congruence.
    + intros st fuel. unfold FacilityController.getAvailableSlots.
      by rewrite getAvailableSlots_with_facility_status.
    + intros Hstep.
      destruct (getAvailableSlots_returns tz db fid date) as (r & n & Hr).
      { intros f' Hf'. congruence. }
      destruct r as [a |].
      * exists a, n. intros fuel Hfuel.
        unfold FacilityController.getAvailableSlots. by rewrite Hr.
      * exfalso. eapply getAvailableSlots_known; [exact Hf |].
        apply (Hr n). lia.
Qed.

Lemma getAvailableSlots_ignores_status_witness :
  ∃ a, returns (λ fuel, FacilityController.getAvailableSlots 0 fuel
                          (Club.db_with (Club.court 60 0 FacilityStatus.maintenance) ∅)
                          1 (Some Club.today)) (ok a).
Proof.
  apply (proj2 (getAvailableSlots_ignores_status 0
                  (Club.db_with (Club.court 60 0 FacilityStatus.maintenance) ∅)
                  1 Club.today)
               (Club.court 60 0 FacilityStatus.maintenance)).
  - vm_compute. reflexivity.
  - vm_compute. reflexivity.
Defined.

(** C10 as stated fails: a facility under maintenance with duration 0 and
    buffer 0 exists, and getAvailableSlots returns no slot list for it: the
    loop does not advance, whatever the fuel. *)
Lemma maintenance_zero_step_no_list :
  facilities (Club.db_with (Club.court 0 0 FacilityStatus.maintenance) ∅) !! 1%nat
    = Some (Club.court 0 0 FacilityStatus.maintenance) ∧
  (∀ fuel,
     Facility.getAvailableSlots 0 fuel
       (Club.db_with (Club.court 0 0 FacilityStatus.maintenance) ∅) 1 Club.today
     = OutOfFuel ∧
     FacilityController.getAvailableSlots 0 fuel
       (Club.db_with (Club.court 0 0 FacilityStatus.maintenance) ∅) 1 (Some Club.today)
     = OutOfFuel) ∧
  ¬ (∃ a, returns (λ fuel, FacilityController.getAvailableSlots 0 fuel
                             (Club.db_with (Club.court 0 0 FacilityStatus.maintenance) ∅)
                             1 (Some Club.today)) (ok a)).
Proof.
  assert (∀ fuel,
            Facility.getAvailableSlots 0 fuel
              (Club.db_with (Club.court 0 0 FacilityStatus.maintenance) ∅) 1 Club.today
            = OutOfFuel) as Hloop.
  { intros fuel.
    apply (getAvailableSlots_zero_step 0 _ 1 Club.today
             (Club.court 0 0 FacilityStatus.maintenance) 8 0 10 0);
      try reflexivity.
    vm_compute. discriminate. }
  split; [reflexivity |]. split.
  - intros fuel. split; [apply Hloop |].
    unfold FacilityController.getAvailableSlots. by rewrite Hloop.
  - intros (a & n & Hn). specialize (Hn n (le_n n)).
    unfold FacilityController.getAvailableSlots in Hn. by rewrite Hloop in Hn.
Qed.

(** * Further properties *)

(** ** Everything a successful [create] has checked *)

Lemma create_inr_checks tz now data db r :
  Booking.create tz now data db = inr r →
  size (Booking.availabilityQuery db (Booking.facilityId data)
          (Booking.startTime data) (Booking.endTime data)) = 0%nat ∧
  ∃ f m mt,
    facilities db !! Booking.facilityId data = Some f ∧
    facility_status f = FacilityStatus.available ∧
    LocalTime.diff_minutes (Booking.endTime data) (Booking.startTime data)
      = booking_duration_minutes f ∧
    String.ltb (LocalTime.format_HHmmss tz (Booking.startTime data))
               (operating_hours_start f) = false ∧
    String.ltb (operating_hours_end f)
               (LocalTime.format_HHmmss tz (Booking.startTime data)) = false ∧
    Booking.membershipQuery tz now db (Booking.userId data) = Some (m, mt) ∧
    type f ∈ facilities_access mt ∧
    Z.of_nat (Booking.dailyBookingsQuery tz db (Booking.userId data)
                (LocalTime.dayOf tz (Booking.startTime data)))
      < max_bookings_per_day mt ∧
    LocalTime.diff_days (Booking.startTime data) (LocalTime.startOfDay tz now)
      ≤ max_booking_days_ahead mt ∧
    r = Booking.insertQuery db data.
Proof.
  unfold Booking.create, Booking.facilityQuery, Booking.facilityTypeQuery.
  intros H. case_decide as Hfree; [discriminate |].
  split; [lia |].
  destruct (facilities db !! Booking.facilityId data) as [f |]; [| discriminate].
  case_decide as Hav; [| discriminate].
  case_decide as Hdur; [discriminate |].
  destruct (String.ltb _ (operating_hours_start f)) eqn:Hopen; [discriminate |].
  destruct (String.ltb (operating_hours_end f) _) eqn:Hclose; [discriminate |].
  cbn [orb] in H.
  destruct (Booking.membershipQuery tz now db (Booking.userId data))
    as [[m mt] |] eqn:Hm; [| discriminate].
  cbn [fmap option_fmap option_map default] in H.
  case_decide as Hty; [discriminate |].
  case_decide as Hcount; [discriminate |].
  case_decide as Hahead; [discriminate |].
  exists f, m, mt. simplify_eq.
  repeat split; try assumption; try lia.
Qed.

(** ** What a successful [create] writes *)

(** X1. A successful createBooking adds exactly one row, under an id no
    booking had, carrying the request's user, facility and times, status
    confirmed; every other booking and the other tables are left as they
    were. *)
Theorem create_adds_one_row tz now data db id row db' :
  Booking.create tz now data db = inr ((id, row), db') →
  bookings db !! id = None ∧
  row = mkBooking (Booking.userId data) (Booking.facilityId data)
                  (Booking.startTime data) (Booking.endTime data)
                  confirmed (Booking.dataNotes data) ∧
  bookings db' !! id = Some row ∧
  (∀ j, j ≠ id → bookings db' !! j = bookings db !! j) ∧
  size (bookings db') = S (size (bookings db)) ∧
  facilities db' = facilities db ∧
  membership_types db' = membership_types db ∧
  memberships db' = memberships db.
Proof.
  intros H. apply create_inr in H as [_ Heq].
  unfold Booking.insertQuery in Heq. simplify_eq. simpl.
  pose proof (fresh_booking_id db) as Hfresh.
  repeat split; try assumption.
  - by rewrite lookup_insert_eq.
  - intros j Hj. by rewrite lookup_insert_ne.
  - by rewrite map_size_insert_None.
Qed.

Lemma create_adds_one_row_witness :
  bookings Club.empty_db !! 0%nat = None ∧
  Club.nine_to_ten_row 1 confirmed
    = mkBooking 1 1 (Club.at_ Club.today (Club.hour 9)) (Club.at_ Club.today (Club.hour 10))
                confirmed None ∧
  bookings Club.booked_db !! 0%nat = Some (Club.nine_to_ten_row 1 confirmed) ∧
  (∀ j, j ≠ 0%nat → bookings Club.booked_db !! j = bookings Club.empty_db !! j) ∧
  size (bookings Club.booked_db) = S (size (bookings Club.empty_db)) ∧
  facilities Club.booked_db = facilities Club.empty_db ∧
  membership_types Club.booked_db = membership_types Club.empty_db ∧
  memberships Club.booked_db = memberships Club.empty_db.
Proof.
  apply (create_adds_one_row 0 Club.now (Club.nine_to_ten 1) Club.empty_db
           0%nat (Club.nine_to_ten_row 1 confirmed) Club.booked_db).
  vm_compute. reflexivity.
Defined.

Lemma create_adds_row tz now data db id row db' :
  Booking.create tz now data db = inr ((id, row), db') →
  row = mkBooking (Booking.userId data) (Booking.facilityId data)
                  (Booking.startTime data) (Booking.endTime data)
                  confirmed (Booking.dataNotes data) ∧
  bookings db' !! id = Some row.
Proof.
  intros H. apply create_inr in H as [_ Heq].
  unfold Booking.insertQuery in Heq. simplify_eq. simpl.
  split; [reflexivity | by rewrite lookup_insert_eq].
Qed.

(** ** The conflict check *)

Lemma conflict_found db fid s e id b :
  bookings db !! id = Some b →
  facility_id b = fid →
  status b ∈ active_statuses →
  Booking.conflicting s e b →
  Z.of_nat (size (Booking.availabilityQuery db fid s e)) > 0.
Proof.
  intros Hb Hfac Hst Hc.
  assert (size (Booking.availabilityQuery db fid s e) ≠ 0%nat); [| lia].
  apply map_size_non_empty_iff. intros Hempty.
  unfold Booking.availabilityQuery in Hempty.
  eapply map_filter_empty_not_lookup in Hempty; [exact (Hempty Hb) |].
  simpl. auto.
Qed.

(** X2. A request on a facility that overlaps (half-open test) a confirmed
    or pending booking of that facility is refused with the conflict error,
    whoever asks and whatever else holds of the request: the conflict check
    comes before every other check. *)
Theorem overlapping_request_refused tz now data db id b :
  bookings db !! id = Some b →
  status b ∈ active_statuses →
  facility_id b = Booking.facilityId data →
  overlaps (interval b) (mkInterval (Booking.startTime data) (Booking.endTime data)) →
  Booking.create tz now data db = inl Booking.AlreadyBooked.
Proof.
  intros Hb Hst Hfac Hov. unfold Booking.create.
  rewrite decide_True; [reflexivity |].
  eapply conflict_found; eauto using overlaps_conflicting.
Qed.

Lemma overlapping_request_refused_witness :
  Booking.create 0 Club.now (Club.past_closing 2) Club.booked_db
  = inl Booking.AlreadyBooked.
Proof.
  apply (overlapping_request_refused 0 Club.now (Club.past_closing 2) Club.booked_db
           0%nat (Club.nine_to_ten_row 1 confirmed)).
  - vm_compute. reflexivity.
  - by_decide.
  - reflexivity.
  - unfold overlaps. vm_compute. split; reflexivity.
Defined.

(** X3. Once createBooking has succeeded, the same request again, from any
    user and at any later time, is refused with the conflict error (the case
    exercised by the overlapping-booking test of test-api.js), and so is any
    request on that facility whose interval overlaps the booked one. *)
Theorem booked_interval_is_taken tz now data db id row db' :
  Booking.create tz now data db = inr ((id, row), db') →
  ∀ tz' now' data',
    Booking.facilityId data' = Booking.facilityId data →
    (Booking.startTime data' = Booking.startTime data ∧
     Booking.endTime data' = Booking.endTime data) ∨
    overlaps (mkInterval (Booking.startTime data) (Booking.endTime data))
             (mkInterval (Booking.startTime data') (Booking.endTime data')) →
    Booking.create tz' now' data' db' = inl Booking.AlreadyBooked.
Proof.
  intros Hc tz' now' data' Hfac Hsame.
  apply create_adds_row in Hc as (Hrow & Hin).
  unfold Booking.create. rewrite decide_True; [reflexivity |].
  eapply conflict_found; [exact Hin | | |].
  - by rewrite Hrow, Hfac.
  - rewrite Hrow. by_decide.
  - rewrite Hrow. destruct Hsame as [[Hs He] | Hov].
    + unfold Booking.conflicting. simpl. lia.
    + apply overlaps_conflicting. exact Hov.
Qed.

Lemma booked_interval_is_taken_witness :
  Booking.create 120 (Club.now + 5) (Club.nine_to_ten 2) Club.booked_db
  = inl Booking.AlreadyBooked.
Proof.
  apply (booked_interval_is_taken 0 Club.now (Club.nine_to_ten 1) Club.empty_db
           0%nat (Club.nine_to_ten_row 1 confirmed) Club.booked_db).
  - vm_compute. reflexivity.
  - reflexivity.
  - left. split; reflexivity.
Defined.

(** ** Cancel and book again *)

(** A row that is not active is invisible to the two booking queries of
    [create]. *)
Lemma availabilityQuery_insert_inactive db id b fid s e :
  bookings db !! id = None → status b ∉ active_statuses →
  Booking.availabilityQuery (set_bookings db (<[id := b]> (bookings db))) fid s e
  = Booking.availabilityQuery db fid s e.
Proof.
  intros Hid Hst. unfold Booking.availabilityQuery. simpl.
  apply map_filter_insert_not'.
  - simpl. tauto.
  - intros y Hy. congruence.
Qed.

Lemma dailyBookingsQuery_insert_inactive tz db id b uid day :
  bookings db !! id = None → status b ∉ active_statuses →
  Booking.dailyBookingsQuery tz (set_bookings db (<[id := b]> (bookings db))) uid day
  = Booking.dailyBookingsQuery tz db uid day.
Proof.
  intros Hid Hst. unfold Booking.dailyBookingsQuery. simpl. f_equal.
  apply map_filter_insert_not'.
  - simpl. tauto.
  - intros y Hy. congruence.
Qed.

(** X4. Cancel-and-recreate: when the owner cancels the booking that
    createBooking has just made, the cancel succeeds and the same request is
    admitted again; the new booking gets a new id and the cancelled row stays
    in the table. *)
Theorem cancel_then_rebook tz now data db id row db1 :
  Booking.create tz now data db = inr ((id, row), db1) →
  ∃ db2 id' db3,
    BookingController.cancelBooking id (Booking.userId data) db1
      = (ok (id, set_status cancelled row), db2) ∧
    Booking.create tz now data db2 = inr ((id', row), db3) ∧
    id' ≠ id ∧
    bookings db3 !! id = Some (set_status cancelled row) ∧
    bookings db3 !! id' = Some row.
Proof.
  intros Hc.
  pose proof (create_inr_checks _ _ _ _ _ Hc)
    as (Hfree & f & m & mt & Hf & Hav & Hdur & Hopen & Hclose & Hm & Hty
        & Hcount & Hahead & Heq).
  unfold Booking.insertQuery in Heq. simplify_eq.
  set (row := mkBooking (Booking.userId data) (Booking.facilityId data)
                (Booking.startTime data) (Booking.endTime data) confirmed
                (Booking.dataNotes data)).
  set (id := fresh (dom (bookings db))).
  pose proof (fresh_booking_id db) as Hfresh. fold id in Hfresh.
  set (db2 := set_bookings db (<[id := set_status cancelled row]> (bookings db))).
  assert (BookingController.cancelBooking id (Booking.userId data)
            (set_bookings db (<[id := row]> (bookings db)))
          = (ok (id, set_status cancelled row), db2)) as Hcancel.
  { rewrite (cancel_accepted _ _ _ row); simpl.
    - unfold db2, set_bookings. simpl. by rewrite insert_insert_eq.
    - by rewrite lookup_insert_eq.
    - reflexivity.
    - by_decide. }
  assert (Booking.create tz now data db2 = inr (Booking.insertQuery db2 data)) as Hre.
  { rewrite (create_after_other_checks tz now data db2 m mt).
    - rewrite decide_False by lia. reflexivity.
    - exact Hm.
    - split; [| split].
      + unfold db2. rewrite availabilityQuery_insert_inactive; [exact Hfree | exact Hfresh |].
        simpl. by_decide.
      + exists f. repeat split; assumption.
      + unfold db2.
        rewrite dailyBookingsQuery_insert_inactive; [exact Hcount | exact Hfresh |].
        simpl. by_decide. }
  exists db2, (fresh (dom (bookings db2))),
    (set_bookings db2 (<[fresh (dom (bookings db2)) := row]> (bookings db2))).
  assert (fresh (dom (bookings db2)) ≠ id) as Hne.
  { intros Heq. pose proof (fresh_booking_id db2) as Hfresh2.
    rewrite Heq in Hfresh2. unfold db2 in Hfresh2. simpl in Hfresh2.
    by rewrite lookup_insert_eq in Hfresh2. }
  split; [exact Hcancel |]. split; [exact Hre |]. split; [exact Hne |].
  simpl. split.
  - rewrite lookup_insert_ne by exact Hne. by rewrite lookup_insert_eq.
  - by rewrite lookup_insert_eq.
Qed.

Lemma cancel_then_rebook_witness :
  ∃ db2 id' db3,
    BookingController.cancelBooking 0 1 Club.booked_db
      = (ok (0%nat, set_status cancelled (Club.nine_to_ten_row 1 confirmed)), db2) ∧
    Booking.create 0 Club.now (Club.nine_to_ten 1) db2
      = inr ((id', Club.nine_to_ten_row 1 confirmed), db3) ∧
    id' ≠ 0%nat ∧
    bookings db3 !! 0%nat = Some (set_status cancelled (Club.nine_to_ten_row 1 confirmed)) ∧
    bookings db3 !! id' = Some (Club.nine_to_ten_row 1 confirmed).
Proof.
  apply (cancel_then_rebook 0 Club.now (Club.nine_to_ten 1) Club.empty_db
           0%nat (Club.nine_to_ten_row 1 confirmed) Club.booked_db).
  vm_compute. reflexivity.
Defined.

(** ** The membership that entitles *)

Lemma membershipRows_spec tz now db uid m mt :
  (m, mt) ∈ Booking.membershipRows tz now db uid ↔
  ∃ mid, memberships db !! mid = Some m ∧
         membership_types db !! membership_type_id m = Some mt ∧
         member_id m = uid ∧
         membership_status m = MembershipStatus.active ∧
         end_date m >= LocalTime.dayOf tz now.
Proof.
  unfold Booking.membershipRows. rewrite list_elem_of_omap. split.
  - intros ([mid m'] & Hin & Hsome). apply elem_of_map_to_list in Hin.
    simpl in Hsome.
    destruct (membership_types db !! membership_type_id m') as [mt' |] eqn:Hmt;
      [| discriminate].
    case_decide as Hok; [| discriminate]. simplify_eq.
    exists mid. tauto.
  - intros (mid & Hm & Hmt & Hok). exists (mid, m). split.
    + by apply elem_of_map_to_list.
    + simpl. rewrite Hmt. by rewrite decide_True.
Qed.

Lemma foldl_newer_spec rest : ∀ r,
  foldl Booking.newer r rest ∈ r :: rest ∧
  ∀ x, x ∈ r :: rest → created_at x.1 ≤ created_at (foldl Booking.newer r rest).1.
Proof.
  induction rest as [| y rest IH]; intros r; simpl.
  - split; [apply list_elem_of_here |].
    intros x Hx. apply list_elem_of_singleton in Hx as ->. lia.
  - destruct (IH (Booking.newer r y)) as [Hin Hmax]. split.
    + apply elem_of_cons in Hin as [-> | Hin].
      * unfold Booking.newer. case_decide.
        -- apply list_elem_of_further, list_elem_of_here.
        -- apply list_elem_of_here.
      * by do 2 apply list_elem_of_further.
    + intros x Hx.
      assert (created_at r.1 ≤ created_at (Booking.newer r y).1 ∧
              created_at y.1 ≤ created_at (Booking.newer r y).1) as [Hr Hy].
      { unfold Booking.newer. case_decide; lia. }
      pose proof (Hmax _ (list_elem_of_here _ _)) as Hn.
      apply elem_of_cons in Hx as [-> | Hx]; [lia |].
      apply elem_of_cons in Hx as [-> | Hx]; [lia |].
      apply Hmax. by apply list_elem_of_further.
Qed.

Lemma membershipQuery_spec tz now db uid m mt :
  Booking.membershipQuery tz now db uid = Some (m, mt) →
  (m, mt) ∈ Booking.membershipRows tz now db uid ∧
  ∀ m' mt', (m', mt') ∈ Booking.membershipRows tz now db uid →
            created_at m' ≤ created_at m.
Proof.
  unfold Booking.membershipQuery.
  destruct (Booking.membershipRows tz now db uid) as [| r rest]; [discriminate |].
  intros [= Heq]. destruct (foldl_newer_spec rest r) as [Hin Hmax].
  rewrite Heq in Hin, Hmax. split; [exact Hin |].
  intros m' mt' Hin'. exact (Hmax _ Hin').
Qed.

(** X5. Entitlement gate: createBooking succeeds only for a user who holds
    a membership that is active, has not ended before today and whose type
    lists the facility's type; and the membership that is consulted is the
    most recently created one among the user's active, unexpired
    memberships, so an older membership with wider access does not help. *)
Theorem create_requires_entitlement tz now data db r :
  Booking.create tz now data db = inr r →
  ∃ mid m mt f,
    memberships db !! mid = Some m ∧
    member_id m = Booking.userId data ∧
    membership_status m = MembershipStatus.active ∧
    end_date m >= LocalTime.dayOf tz now ∧
    membership_types db !! membership_type_id m = Some mt ∧
    facilities db !! Booking.facilityId data = Some f ∧
    type f ∈ facilities_access mt ∧
    ∀ mid' m' mt',
      memberships db !! mid' = Some m' →
      membership_types db !! membership_type_id m' = Some mt' →
      member_id m' = Booking.userId data →
      membership_status m' = MembershipStatus.active →
      end_date m' >= LocalTime.dayOf tz now →
      created_at m' ≤ created_at m.
Proof.
  intros Hc.
  apply create_inr_checks in Hc
    as (_ & f & m & mt & Hf & _ & _ & _ & _ & Hm & Hty & _).
  apply membershipQuery_spec in Hm as [Hin Hmax].
  apply membershipRows_spec in Hin as (mid & Hmid & Hmt & Hu & Hact & Hend).
  exists mid, m, mt, f. repeat split; try assumption.
  intros mid' m' mt' Hm' Hmt' Hu' Hact' Hend'.
  apply (Hmax m' mt'). apply membershipRows_spec. exists mid'. tauto.
Qed.

Lemma create_requires_entitlement_witness :
  ∃ mid m mt f,
    memberships Club.empty_db !! mid = Some m ∧
    member_id m = 1%nat ∧
    membership_status m = MembershipStatus.active ∧
    end_date m >= LocalTime.dayOf 0 Club.now ∧
    membership_types Club.empty_db !! membership_type_id m = Some mt ∧
    facilities Club.empty_db !! 1%nat = Some f ∧
    type f ∈ facilities_access mt ∧
    ∀ mid' m' mt',
      memberships Club.empty_db !! mid' = Some m' →
      membership_types Club.empty_db !! membership_type_id m' = Some mt' →
      member_id m' = 1%nat →
      membership_status m' = MembershipStatus.active →
      end_date m' >= LocalTime.dayOf 0 Club.now →
      created_at m' ≤ created_at m.
Proof.
  apply (create_requires_entitlement 0 Club.now (Club.nine_to_ten 1) Club.empty_db
           ((0%nat, Club.nine_to_ten_row 1 confirmed), Club.booked_db)).
  vm_compute. reflexivity.
Defined.

(** ** The daily limit *)

Lemma dailyBookingsQuery_insert_counted tz db id b :
  bookings db !! id = None → status b ∈ active_statuses →
  Booking.dailyBookingsQuery tz (set_bookings db (<[id := b]> (bookings db)))
    (user_id b) (LocalTime.dayOf tz (start_time b))
  = S (Booking.dailyBookingsQuery tz db (user_id b) (LocalTime.dayOf tz (start_time b))).
Proof.
  intros Hid Hst. unfold Booking.dailyBookingsQuery. simpl.
  rewrite map_filter_insert_True by (simpl; tauto).
  apply map_size_insert_None. apply map_lookup_filter_None. by left.
Qed.

(** X6. Daily limit: a successful createBooking found fewer active bookings
    of the user starting on the requested day than the membership's
    max_bookings_per_day, and raises that count by exactly one; so the count
    never exceeds the limit right after a booking has been admitted. *)
Theorem create_respects_daily_limit tz now data db id row db' :
  Booking.create tz now data db = inr ((id, row), db') →
  ∃ m mt,
    Booking.membershipQuery tz now db (Booking.userId data) = Some (m, mt) ∧
    Booking.dailyBookingsQuery tz db' (Booking.userId data)
      (LocalTime.dayOf tz (Booking.startTime data))
    = S (Booking.dailyBookingsQuery tz db (Booking.userId data)
           (LocalTime.dayOf tz (Booking.startTime data))) ∧
    Z.of_nat (Booking.dailyBookingsQuery tz db' (Booking.userId data)
                (LocalTime.dayOf tz (Booking.startTime data)))
      ≤ max_bookings_per_day mt.
Proof.
  intros Hc.
  pose proof (create_inr_checks _ _ _ _ _ Hc)
    as (_ & f & m & mt & _ & _ & _ & _ & _ & Hm & _ & Hcount & _ & Heq).
  unfold Booking.insertQuery in Heq. simplify_eq.
  exists m, mt. split; [exact Hm |].
  pose proof (dailyBookingsQuery_insert_counted tz db (fresh (dom (bookings db)))
                (mkBooking (Booking.userId data) (Booking.facilityId data)
                   (Booking.startTime data) (Booking.endTime data) confirmed
                   (Booking.dataNotes data))
                (fresh_booking_id db) ltac:(by_decide)) as Hs.
  simpl in Hs. rewrite Hs. split; [reflexivity | lia].
Qed.

Lemma create_respects_daily_limit_witness :
  ∃ m mt,
    Booking.membershipQuery 0 Club.now Club.empty_db 1 = Some (m, mt) ∧
    Booking.dailyBookingsQuery 0 Club.booked_db 1
      (LocalTime.dayOf 0 (Booking.startTime (Club.nine_to_ten 1)))
    = S (Booking.dailyBookingsQuery 0 Club.empty_db 1
           (LocalTime.dayOf 0 (Booking.startTime (Club.nine_to_ten 1)))) ∧
    Z.of_nat (Booking.dailyBookingsQuery 0 Club.booked_db 1
                (LocalTime.dayOf 0 (Booking.startTime (Club.nine_to_ten 1))))
      ≤ max_bookings_per_day mt.
Proof.
  apply (create_respects_daily_limit 0 Club.now (Club.nine_to_ten 1) Club.empty_db
           0%nat (Club.nine_to_ten_row 1 confirmed) Club.booked_db).
  vm_compute. reflexivity.
Defined.

(** ** The length of an admitted booking *)

(** X7. The exact-duration check works on whole minutes: an admitted
    booking on a facility with a positive bookingDurationMinutes d lasts at
    least d minutes and less than d + 1 minutes, so it starts before it
    ends, and up to 59.999 seconds beyond d minutes are let through. *)
Theorem admitted_booking_length tz now data db r :
  Booking.create tz now data db = inr r →
  ∃ f, facilities db !! Booking.facilityId data = Some f ∧
       (0 < booking_duration_minutes f →
        booking_duration_minutes f * LocalTime.MS_PER_MINUTE
          ≤ Booking.endTime data - Booking.startTime data
          < (booking_duration_minutes f + 1) * LocalTime.MS_PER_MINUTE ∧
        Booking.startTime data < Booking.endTime data).
Proof.
  intros Hc.
  apply create_inr_checks in Hc as (_ & f & m & mt & Hf & _ & Hdur & _).
  exists f. split; [exact Hf |]. intros Hpos.
  unfold LocalTime.diff_minutes, LocalTime.MS_PER_MINUTE in *.
  change (60 * 1000) with 60000 in *.
  set (x := Booking.endTime data - Booking.startTime data) in *.
  destruct (decide (0 ≤ x)) as [Hx | Hx].
  - rewrite Z.quot_div_nonneg in Hdur by lia.
    pose proof (Z.div_mod x 60000 ltac:(lia)).
    pose proof (Z.mod_pos_bound x 60000 ltac:(lia)). lia.
  - exfalso.
    assert (x ÷ 60000 ≤ 0); [| lia].
    replace x with (- (- x)) by lia. rewrite Z.quot_opp_l by lia.
    pose proof (Z.quot_pos (- x) 60000 ltac:(lia) ltac:(lia)). lia.
Qed.

Lemma admitted_booking_length_witness :
  ∃ f, facilities Club.empty_db !! 1%nat = Some f ∧
       (0 < booking_duration_minutes f →
        booking_duration_minutes f * LocalTime.MS_PER_MINUTE
          ≤ Booking.endTime (Club.request 1 Club.today (Club.hour 9) (Club.hour 10 + 59999))
            - Booking.startTime (Club.request 1 Club.today (Club.hour 9) (Club.hour 10 + 59999))
          < (booking_duration_minutes f + 1) * LocalTime.MS_PER_MINUTE ∧
        Booking.startTime (Club.request 1 Club.today (Club.hour 9) (Club.hour 10 + 59999))
          < Booking.endTime (Club.request 1 Club.today (Club.hour 9) (Club.hour 10 + 59999))).
Proof.
  eapply (admitted_booking_length 0 Club.now
            (Club.request 1 Club.today (Club.hour 9) (Club.hour 10 + 59999))
            Club.empty_db).
  vm_compute. reflexivity.
Defined.

(** ** The operating-hours check, in numbers *)

(** Linear arithmetic with division and remainder by literals. *)
Ltac divlia := Z.to_euclidean_division_equations; lia.

Lemma digit_compare x y :
  0 ≤ x ≤ 9 → 0 ≤ y ≤ 9 →
  Ascii.compare (LocalTime.digit x) (LocalTime.digit y) = (x ?= y).
Proof.
  intros Hx Hy. unfold Ascii.compare, LocalTime.digit.
  rewrite !N_ascii_embedding by lia.
  rewrite Z2N.inj_compare by lia. apply Z.add_compare_mono_l.
Qed.

Lemma compare_pad2 x y r1 r2 :
  0 ≤ x < 100 → 0 ≤ y < 100 →
  String.compare (LocalTime.pad2 x +:+ r1) (LocalTime.pad2 y +:+ r2)
  = match x ?= y with
    | Eq => String.compare r1 r2
    | c => c
    end.
Proof.
  intros Hx Hy. unfold LocalTime.pad2.
  change (String.compare
            (String (LocalTime.digit (x / 10 mod 10))
               (String (LocalTime.digit (x mod 10)) r1))
            (String (LocalTime.digit (y / 10 mod 10))
               (String (LocalTime.digit (y mod 10)) r2)) = match x ?= y with
                                                           | Eq => String.compare r1 r2
                                                           | c => c
                                                           end).
  change (match Ascii.compare (LocalTime.digit (x / 10 mod 10))
                              (LocalTime.digit (y / 10 mod 10)) with
          | Eq => match Ascii.compare (LocalTime.digit (x mod 10))
                                      (LocalTime.digit (y mod 10)) with
                  | Eq => String.compare r1 r2
                  | c => c
                  end
          | c => c
          end = match x ?= y with
                | Eq => String.compare r1 r2
                | c => c
                end).
  rewrite !digit_compare by divlia.
  destruct (Z.compare_spec (x / 10 mod 10) (y / 10 mod 10));
    destruct (Z.compare_spec (x mod 10) (y mod 10));
    destruct (Z.compare_spec x y); try reflexivity; divlia.
Qed.

Lemma compare_colon r1 r2 :
  String.compare (":" +:+ r1) (":" +:+ r2) = String.compare r1 r2.
Proof. reflexivity. Qed.

(** Rendered times of day compare, as strings, like their seconds. *)
Lemma render_compare a b :
  0 ≤ a < LocalTime.MS_PER_DAY → 0 ≤ b < LocalTime.MS_PER_DAY →
  String.compare (LocalTime.render_HHmmss a) (LocalTime.render_HHmmss b)
  = (a / 1000 ?= b / 1000).
Proof.
  unfold LocalTime.MS_PER_DAY. change (864 * 100000) with 86400000.
  intros Ha Hb. unfold LocalTime.render_HHmmss, LocalTime.MS_PER_SECOND.
  set (sa := a / 1000). set (sb := b / 1000).
  assert (0 ≤ sa < 86400) by (unfold sa; divlia).
  assert (0 ≤ sb < 86400) by (unfold sb; divlia).
  rewrite compare_pad2, compare_colon by divlia.
  rewrite compare_pad2, compare_colon by divlia.
  change (LocalTime.pad2 (sa mod 60)) with (LocalTime.pad2 (sa mod 60) +:+ "").
  change (LocalTime.pad2 (sb mod 60)) with (LocalTime.pad2 (sb mod 60) +:+ "").
  rewrite compare_pad2 by divlia. cbn [String.compare].
  destruct (Z.compare_spec (sa / 3600) (sb / 3600));
    destruct (Z.compare_spec (sa / 60 mod 60) (sb / 60 mod 60));
    destruct (Z.compare_spec (sa mod 60) (sb mod 60));
    destruct (Z.compare_spec sa sb); try reflexivity; divlia.
Qed.

Lemma render_ltb a b :
  0 ≤ a < LocalTime.MS_PER_DAY → 0 ≤ b < LocalTime.MS_PER_DAY →
  String.ltb (LocalTime.render_HHmmss a) (LocalTime.render_HHmmss b) = false →
  b / 1000 ≤ a / 1000.
Proof.
  intros Ha Hb. unfold String.ltb. rewrite render_compare by assumption.
  destruct (Z.compare_spec (a / 1000) (b / 1000)); intros; try discriminate; lia.
Qed.

Lemma msOfDay_bounds tz t : 0 ≤ LocalTime.msOfDay tz t < LocalTime.MS_PER_DAY.
Proof.
  unfold LocalTime.msOfDay. apply Z.mod_pos_bound.
  unfold LocalTime.MS_PER_DAY. lia.
Qed.

(** X8. The operating-hours test compares rendered strings, and on
    HH:MM:SS values that is the order of the times: when the facility's hours
    are the renderings of the times of day o and c, an admitted booking starts
    at a second of the local day that lies in the closed interval from o to
    c. *)
Theorem admitted_start_in_hours tz now data db r f o c :
  Booking.create tz now data db = inr r →
  facilities db !! Booking.facilityId data = Some f →
  0 ≤ o < LocalTime.MS_PER_DAY → 0 ≤ c < LocalTime.MS_PER_DAY →
  operating_hours_start f = LocalTime.render_HHmmss o →
  operating_hours_end f = LocalTime.render_HHmmss c →
  o / 1000 ≤ LocalTime.msOfDay tz (Booking.startTime data) / 1000 ≤ c / 1000.
Proof.
  intros Hc Hf Ho Hcl Hopen Hclose.
  apply create_inr_checks in Hc
    as (_ & f' & m & mt & Hf' & _ & _ & Hlo & Hhi & _).
  simplify_eq. rewrite Hopen in Hlo. rewrite Hclose in Hhi.
  unfold LocalTime.format_HHmmss in Hlo, Hhi.
  pose proof (msOfDay_bounds tz (Booking.startTime data)) as Hb.
  split.
  - by apply (render_ltb _ o) in Hlo.
  - by apply (render_ltb c) in Hhi.
Qed.

Lemma admitted_start_in_hours_witness :
  Club.hour 8 / 1000
  ≤ LocalTime.msOfDay 0 (Booking.startTime (Club.nine_to_ten 1)) / 1000
  ≤ Club.hour 10 / 1000.
Proof.
  apply (admitted_start_in_hours 0 Club.now (Club.nine_to_ten 1) Club.empty_db
           ((0%nat, Club.nine_to_ten_row 1 confirmed), Club.booked_db)
           (Club.court 60 0 FacilityStatus.available) (Club.hour 8) (Club.hour 10));
    try (vm_compute; reflexivity);
    vm_compute; (split; [discriminate | reflexivity]).
Defined.

(** ** Parsing the operating hours *)

Lemma digit_cases (n : Z) :
  0 ≤ n ≤ 9 →
  n = 0 ∨ n = 1 ∨ n = 2 ∨ n = 3 ∨ n = 4 ∨ n = 5 ∨ n = 6 ∨ n = 7 ∨ n = 8 ∨ n = 9.
Proof. lia. Qed.

Lemma digit_value_digit n :
  0 ≤ n ≤ 9 → JS.digit_value (LocalTime.digit n) = Some n.
Proof.
  intros Hn. apply digit_cases in Hn.
  repeat (destruct Hn as [-> | Hn]; [reflexivity |]). by subst.
Qed.

Lemma digit_not_colon n :
  0 ≤ n ≤ 9 → bool_decide (LocalTime.digit n = ":"%char) = false.
Proof.
  intros Hn. apply digit_cases in Hn.
  repeat (destruct Hn as [-> | Hn]; [reflexivity |]). by subst.
Qed.

Lemma split_colon_pad2 n rest :
  0 ≤ n < 100 →
  JS.split_colon (LocalTime.pad2 n +:+ rest)
  = match JS.split_colon rest with
    | h :: t => (LocalTime.pad2 n +:+ h) :: t
    | [] => [LocalTime.pad2 n]
    end.
Proof.
  intros Hn. unfold LocalTime.pad2.
  change (String (LocalTime.digit (n / 10 mod 10))
            (String (LocalTime.digit (n mod 10)) EmptyString) +:+ rest)
    with (String (LocalTime.digit (n / 10 mod 10))
            (String (LocalTime.digit (n mod 10)) rest)).
  cbn [JS.split_colon]. rewrite !digit_not_colon by divlia.
  destruct (JS.split_colon rest); reflexivity.
Qed.

Lemma split_colon_colon rest :
  JS.split_colon (":" +:+ rest) = EmptyString :: JS.split_colon rest.
Proof. reflexivity. Qed.

Lemma Number_pad2 n : 0 ≤ n < 100 → JS.Number (LocalTime.pad2 n) = Some n.
Proof.
  intros Hn. unfold JS.Number, LocalTime.pad2. cbn [JS.digits_value].
  rewrite !digit_value_digit by divlia. f_equal. divlia.
Qed.

(** X9. Parsing what rendering produces: on the HH:MM:SS text of a time of
    day, the generator's [split(':').map(Number)] recovers the hour and the
    minute; the seconds are read and dropped. *)
Theorem hours_minutes_render (ms : Z) :
  0 ≤ ms < LocalTime.MS_PER_DAY →
  JS.hours_minutes (LocalTime.render_HHmmss ms)
  = Some (ms / LocalTime.MS_PER_HOUR, ms / LocalTime.MS_PER_MINUTE mod 60).
Proof.
  unfold LocalTime.MS_PER_DAY, LocalTime.MS_PER_HOUR, LocalTime.MS_PER_MINUTE.
  change (864 * 100000) with 86400000. change (60 * 60 * 1000) with 3600000.
  change (60 * 1000) with 60000.
  intros Hms. unfold JS.hours_minutes, LocalTime.render_HHmmss, LocalTime.MS_PER_SECOND.
  set (s := ms / 1000). assert (0 ≤ s < 86400) by (unfold s; divlia).
  rewrite split_colon_pad2, split_colon_colon by divlia.
  rewrite split_colon_pad2, split_colon_colon by divlia.
  change (LocalTime.pad2 (s mod 60)) with (LocalTime.pad2 (s mod 60) +:+ "").
  rewrite split_colon_pad2 by divlia.
  change (JS.split_colon "") with [EmptyString].
  cbn [fmap list_fmap String.append].
  change (LocalTime.pad2 (s / 3600) +:+ "") with (LocalTime.pad2 (s / 3600)).
  change (LocalTime.pad2 (s / 60 mod 60) +:+ "") with (LocalTime.pad2 (s / 60 mod 60)).
  rewrite !Number_pad2 by divlia.
  f_equal. f_equal; unfold s; divlia.
Qed.

Lemma hours_minutes_render_witness :
  JS.hours_minutes (LocalTime.render_HHmmss (Club.hour 21 + Club.minute 30 + 45000))
  = Some ((Club.hour 21 + Club.minute 30 + 45000) / LocalTime.MS_PER_HOUR,
          (Club.hour 21 + Club.minute 30 + 45000) / LocalTime.MS_PER_MINUTE mod 60).
Proof.
  apply hours_minutes_render. vm_compute. split; [discriminate | reflexivity].
Defined.

(** ** The slots the generator lays out *)

(** The slot number [k] of a day that starts at [cur]. *)
Lemma slotLoop_shape (rows : list Facility.JoinRow) d b dayEnd :
  ∀ fuel cur acc r,
    Facility.slotLoop fuel (Facility.bookingObjects rows) d b dayEnd cur acc
      = Returned r →
    ∃ n : nat,
      r = acc ++ ((λ k : nat,
                     Facility.mkSlot
                       (cur + Z.of_nat k * (d * 60 * 1000 + b * 60 * 1000))
                       (cur + Z.of_nat k * (d * 60 * 1000 + b * 60 * 1000)
                        + d * 60 * 1000) true) <$> seq 0 n) ∧
      (∀ k : nat, (k < n)%nat →
         cur + Z.of_nat k * (d * 60 * 1000 + b * 60 * 1000) + d * 60 * 1000 ≤ dayEnd) ∧
      dayEnd < cur + Z.of_nat n * (d * 60 * 1000 + b * 60 * 1000) + d * 60 * 1000.
Proof.
  induction fuel as [| fuel IH]; intros cur acc r Hr; [discriminate |].
  cbn [Facility.slotLoop] in Hr. case_decide as Hfit.
  - rewrite isConflicting_false in Hr. cbn [negb] in Hr.
    apply IH in Hr as (n & -> & Hin & Hout).
    exists (S n). split; [| split].
    + rewrite <- app_assoc. f_equal. cbn [seq fmap list_fmap app].
      f_equal; [f_equal; lia |].
      rewrite <- fmap_S_seq, <- list_fmap_compose.
      apply list_fmap_ext. intros i k _. simpl. f_equal; lia.
    + intros [| k] Hk; [lia |]. specialize (Hin k ltac:(lia)). lia.
    + lia.
  - simplify_eq. exists 0%nat. split; [| split].
    + simpl. by rewrite app_nil_r.
    + intros k Hk. lia.
    + lia.
Qed.

(** X10. Layout of the slots.  For an existing facility whose operating
    hours parse and whose duration plus buffer is positive, getAvailableSlots
    returns a list in which slot number i (from 0) starts i steps of
    duration + buffer minutes after the opening time and lasts the duration;
    every slot ends by the closing time and one more slot would not.  Every
    slot is marked available. *)
Theorem slot_layout tz db fid date f sh sm eh em :
  facilities db !! fid = Some f →
  JS.hours_minutes (operating_hours_start f) = Some (sh, sm) →
  JS.hours_minutes (operating_hours_end f) = Some (eh, em) →
  0 < booking_duration_minutes f + booking_buffer_minutes f →
  let dayStart := LocalTime.setHours tz (LocalTime.newDate date) sh sm in
  let dayEnd := LocalTime.setHours tz (LocalTime.newDate date) eh em in
  let slotLength := booking_duration_minutes f * LocalTime.MS_PER_MINUTE in
  let stride := (booking_duration_minutes f + booking_buffer_minutes f)
              * LocalTime.MS_PER_MINUTE in
  ∃ slots,
    returns (λ fuel, Facility.getAvailableSlots tz fuel db fid date)
            (Some (Facility.mkAvailability
                     (Facility.mkInfo (booking_duration_minutes f)
                                      (operating_hours_start f)
                                      (operating_hours_end f)) slots)) ∧
    (∀ (i : nat) s, slots !! i = Some s →
       Facility.slotStartTime s = dayStart + Z.of_nat i * stride ∧
       Facility.slotEndTime s = Facility.slotStartTime s + slotLength ∧
       Facility.slotEndTime s ≤ dayEnd ∧
       Facility.available s = true) ∧
    dayEnd < dayStart + Z.of_nat (List.length slots) * stride + slotLength.
Proof.
  intros Hf Hs He Hstep dayStart dayEnd len step.
  destruct (getAvailableSlots_returns tz db fid date) as (r & n & Hr).
  { intros f' Hf'. congruence. }
  pose proof (Hr n ltac:(lia)) as Hn. unfold Facility.getAvailableSlots in Hn.
  destruct (query_known tz db fid date f Hf) as (bk & rest & Hq).
  rewrite Hq, Hs, He in Hn. fold dayStart dayEnd in Hn.
  destruct (Facility.slotLoop _ _ _ _ _ _ _) as [slots |] eqn:Hloop;
    [| discriminate].
  apply slotLoop_shape in Hloop as (k & Hslots & Hin & Hout).
  exists slots. split; [| split].
  - exists n. intros fuel Hfuel. rewrite (Hr fuel Hfuel). by simplify_eq.
  - intros i s Hi. rewrite Hslots in Hi. simpl in Hi.
    apply list_lookup_fmap_Some in Hi as (j & -> & Hj).
    apply lookup_seq in Hj as [-> Hlt]. simpl.
    specialize (Hin i Hlt).
    unfold len, step, LocalTime.MS_PER_MINUTE. repeat split; lia.
  - rewrite Hslots. simpl. rewrite length_fmap, length_seq.
    unfold len, step, LocalTime.MS_PER_MINUTE. lia.
Qed.

Lemma slot_layout_witness :
  ∃ slots,
    returns (λ fuel, Facility.getAvailableSlots 0 fuel
                       (Club.db_with (Club.court 45 15 FacilityStatus.available) ∅)
                       1 Club.today)
            (Some (Facility.mkAvailability (Facility.mkInfo 45 "08:00:00" "10:00:00") slots)) ∧
    (∀ (i : nat) s, slots !! i = Some s →
       Facility.slotStartTime s
         = LocalTime.setHours 0 (LocalTime.newDate Club.today) 8 0
           + Z.of_nat i * ((45 + 15) * LocalTime.MS_PER_MINUTE) ∧
       Facility.slotEndTime s = Facility.slotStartTime s + 45 * LocalTime.MS_PER_MINUTE ∧
       Facility.slotEndTime s ≤ LocalTime.setHours 0 (LocalTime.newDate Club.today) 10 0 ∧
       Facility.available s = true) ∧
    LocalTime.setHours 0 (LocalTime.newDate Club.today) 10 0
      < LocalTime.setHours 0 (LocalTime.newDate Club.today) 8 0
        + Z.of_nat (List.length slots) * ((45 + 15) * LocalTime.MS_PER_MINUTE)
        + 45 * LocalTime.MS_PER_MINUTE.
Proof.
  apply (slot_layout 0 (Club.db_with (Club.court 45 15 FacilityStatus.available) ∅)
           1 Club.today (Club.court 45 15 FacilityStatus.available) 8 0 10 0);
    vm_compute; reflexivity.
Defined.

(** X11. A window shorter than one booking: when the time from opening to
    closing is less than the (positive or not) duration, in particular when
    the facility closes at or before its opening time and the duration is
    positive, getAvailableSlots returns the empty list, whatever the
    buffer. *)
Theorem no_slot_in_short_window tz db fid date f sh sm eh em :
  facilities db !! fid = Some f →
  JS.hours_minutes (operating_hours_start f) = Some (sh, sm) →
  JS.hours_minutes (operating_hours_end f) = Some (eh, em) →
  (eh * LocalTime.MS_PER_HOUR + em * LocalTime.MS_PER_MINUTE)
  - (sh * LocalTime.MS_PER_HOUR + sm * LocalTime.MS_PER_MINUTE)
    < booking_duration_minutes f * LocalTime.MS_PER_MINUTE →
  returns (λ fuel, Facility.getAvailableSlots tz fuel db fid date)
          (Some (Facility.mkAvailability
                   (Facility.mkInfo (booking_duration_minutes f)
                                    (operating_hours_start f)
                                    (operating_hours_end f)) [])).
Proof.
  intros Hf Hs He Hshort. exists 1%nat. intros [| fuel] Hfuel; [lia |].
  unfold Facility.getAvailableSlots.
  destruct (query_known tz db fid date f Hf) as (bk & rest & ->).
  rewrite Hs, He. cbn [Facility.slotLoop].
  rewrite decide_False; [reflexivity |].
  unfold LocalTime.setHours, LocalTime.MS_PER_MINUTE in *. lia.
Qed.

Lemma no_slot_in_short_window_witness :
  returns (λ fuel, Facility.getAvailableSlots 0 fuel
                     (Club.db_with (Club.court 180 0 FacilityStatus.available) ∅)
                     1 Club.today)
          (Some (Facility.mkAvailability (Facility.mkInfo 180 "08:00:00" "10:00:00") [])).
Proof.
  apply (no_slot_in_short_window 0
           (Club.db_with (Club.court 180 0 FacilityStatus.available) ∅)
           1 Club.today (Club.court 180 0 FacilityStatus.available) 8 0 10 0);
    vm_compute; reflexivity.
Defined.

(** ** The booked slots of a facility *)

Global Instance start_asc_total : Total BookingReads.start_asc.
Proof. intros a b. unfold BookingReads.start_asc. lia. Qed.

Global Instance start_desc_total : Total BookingReads.start_desc.
Proof. intros a b. unfold BookingReads.start_desc. lia. Qed.

Global Instance start_desc_trans : Transitive BookingReads.start_desc.
Proof. intros a b c. unfold BookingReads.start_desc. lia. Qed.

(** Whether or not a booking is joined, the booked slots are the joined
    bookings in the order of the query. *)
Lemma getFacilityAvailability_known tz fid d db f :
  facilities db !! fid = Some f →
  BookingHandlers.getFacilityAvailability tz fid (Some d) db
  = ok (BookingHandlers.mkFacilityBookings
          (booking_duration_minutes f, operating_hours_start f, operating_hours_end f)
          ((λ kb : nat * BookingRow,
              BookingHandlers.mkBookedSlot (start_time kb.2) (end_time kb.2) (status kb.2))
             <$> merge_sort BookingReads.start_asc
                   (map_to_list
                      (filter (λ kb : nat * BookingRow,
                                 facility_id kb.2 = fid ∧
                                 LocalTime.dayOf tz (start_time kb.2) = d ∧
                                 status kb.2 ∈ active_statuses) (bookings db))))
          d).
Proof.
  intros Hf. unfold BookingHandlers.getFacilityAvailability, BookingReads.getAvailability.
  rewrite Hf.
  destruct (merge_sort _ _) as [| kb rows]; [reflexivity |].
  cbn [fmap list_fmap]. cbv beta iota. cbn [omap list_omap snd fst].
  do 3 f_equal.
  induction rows as [| kb' rows IH]; [reflexivity |].
  cbn [omap list_omap fmap list_fmap snd]. by rewrite IH.
Qed.

(** X12. The booked-slot listing of a facility and date (the bookings
    route) answers 404 exactly for an unknown facility and otherwise lists,
    in ascending order of start time, one entry for each confirmed or pending
    booking of the facility that starts on that local date, and nothing
    else. *)
Theorem booked_slots_listing tz fid d db :
  (facilities db !! fid = None →
   BookingHandlers.getFacilityAvailability tz fid (Some d) db = not_found) ∧
  (∀ f, facilities db !! fid = Some f →
     ∃ slots,
       BookingHandlers.getFacilityAvailability tz fid (Some d) db
         = ok (BookingHandlers.mkFacilityBookings
                 (booking_duration_minutes f, operating_hours_start f,
                  operating_hours_end f) slots d) ∧
       (∀ s, s ∈ slots ↔
             ∃ id b, bookings db !! id = Some b ∧
                     facility_id b = fid ∧
                     LocalTime.dayOf tz (start_time b) = d ∧
                     status b ∈ active_statuses ∧
                     s = BookingHandlers.mkBookedSlot (start_time b) (end_time b) (status b)) ∧
       Sorted (λ a b, BookingHandlers.bookedStart a ≤ BookingHandlers.bookedStart b) slots ∧
       length slots
         = size (filter (λ kb : nat * BookingRow,
                           facility_id kb.2 = fid ∧
                           LocalTime.dayOf tz (start_time kb.2) = d ∧
                           status kb.2 ∈ active_statuses) (bookings db))).
Proof.
  split.
  - intros Hf. unfold BookingHandlers.getFacilityAvailability, BookingReads.getAvailability.
    by rewrite Hf.
  - intros f Hf. eexists. split; [by apply getFacilityAvailability_known |].
    split; [| split].
    + intros s. rewrite list_elem_of_fmap. split.
      * intros ([id b] & -> & Hin).
        rewrite merge_sort_Permutation in Hin.
        apply elem_of_map_to_list, map_lookup_filter_Some in Hin as [Hb (? & ? & ?)].
        simpl in *. exists id, b. tauto.
      * intros (id & b & Hb & Hfac & Hday & Hst & ->). exists (id, b).
        split; [reflexivity |]. rewrite merge_sort_Permutation.
        apply elem_of_map_to_list, map_lookup_filter_Some. simpl. tauto.
    + eapply Sorted_fmap; [| apply (Sorted_merge_sort BookingReads.start_asc)].
      intros x y Hxy. exact Hxy.
    + rewrite length_fmap, merge_sort_Permutation. apply length_map_to_list.
Qed.

Lemma booked_slots_listing_witness :
  ∃ slots,
    BookingHandlers.getFacilityAvailability 0 1 (Some Club.today) Club.booked_db
      = ok (BookingHandlers.mkFacilityBookings (60, "08:00:00", "10:00:00")%string
              slots Club.today) ∧
    (∀ s, s ∈ slots ↔
          ∃ id b, bookings Club.booked_db !! id = Some b ∧
                  facility_id b = 1%nat ∧
                  LocalTime.dayOf 0 (start_time b) = Club.today ∧
                  status b ∈ active_statuses ∧
                  s = BookingHandlers.mkBookedSlot (start_time b) (end_time b) (status b)) ∧
    Sorted (λ a b, BookingHandlers.bookedStart a ≤ BookingHandlers.bookedStart b) slots ∧
    length slots
      = size (filter (λ kb : nat * BookingRow,
                        facility_id kb.2 = 1%nat ∧
                        LocalTime.dayOf 0 (start_time kb.2) = Club.today ∧
                        status kb.2 ∈ active_statuses) (bookings Club.booked_db)).
Proof.
  apply (proj2 (booked_slots_listing 0 1 Club.today Club.booked_db)
               (Club.court 60 0 FacilityStatus.available)).
  vm_compute. reflexivity.
Defined.

(** X13. A booking that createBooking has admitted shows up, as confirmed,
    in the booked-slot listing of its facility for the local date it starts
    on. *)
Theorem created_booking_is_listed tz now data db id row db' :
  Booking.create tz now data db = inr ((id, row), db') →
  ∃ info slots,
    BookingHandlers.getFacilityAvailability tz (Booking.facilityId data)
        (Some (LocalTime.dayOf tz (Booking.startTime data))) db'
      = ok (BookingHandlers.mkFacilityBookings info slots
              (LocalTime.dayOf tz (Booking.startTime data))) ∧
    BookingHandlers.mkBookedSlot (Booking.startTime data) (Booking.endTime data) confirmed
      ∈ slots.
Proof.
  intros Hc.
  pose proof (create_inr_checks _ _ _ _ _ Hc) as (_ & f & _ & _ & Hf & _).
  pose proof (create_adds_row _ _ _ _ _ _ _ Hc) as [Hrow Hin].
  apply create_inr in Hc as [_ Heq]. unfold Booking.insertQuery in Heq.
  assert (facilities db' !! Booking.facilityId data = Some f) as Hf'
    by (simplify_eq; exact Hf).
  eexists _, _. split; [by apply getFacilityAvailability_known |].
  apply list_elem_of_fmap. exists (id, row). split; [by rewrite Hrow |].
  rewrite merge_sort_Permutation.
  apply elem_of_map_to_list, map_lookup_filter_Some. split; [exact Hin |].
  rewrite Hrow. simpl. repeat split. by_decide.
Qed.

Lemma created_booking_is_listed_witness :
  ∃ info slots,
    BookingHandlers.getFacilityAvailability 0 1
        (Some (LocalTime.dayOf 0 (Booking.startTime (Club.nine_to_ten 1)))) Club.booked_db
      = ok (BookingHandlers.mkFacilityBookings info slots
              (LocalTime.dayOf 0 (Booking.startTime (Club.nine_to_ten 1)))) ∧
    BookingHandlers.mkBookedSlot (Booking.startTime (Club.nine_to_ten 1))
                                 (Booking.endTime (Club.nine_to_ten 1)) confirmed
      ∈ slots.
Proof.
  apply (created_booking_is_listed 0 Club.now (Club.nine_to_ten 1) Club.empty_db
           0%nat (Club.nine_to_ten_row 1 confirmed) Club.booked_db).
  vm_compute. reflexivity.
Defined.

(** ** The bookings of a user *)

Lemma startOfDay_le tz s t :
  LocalTime.startOfDay tz s ≤ t ↔ LocalTime.dayOf tz s ≤ LocalTime.dayOf tz t.
Proof.
  unfold LocalTime.startOfDay, LocalTime.msOfDay, LocalTime.dayOf, LocalTime.localMs.
  change LocalTime.MS_PER_DAY with 86400000.
  generalize (tz * LocalTime.MS_PER_MINUTE). intros k. divlia.
Qed.

Lemma le_endOfDay tz e t :
  t ≤ BookingHandlers.endOfDay tz e ↔ LocalTime.dayOf tz t ≤ LocalTime.dayOf tz e.
Proof.
  unfold BookingHandlers.endOfDay, LocalTime.startOfDay, LocalTime.msOfDay,
    LocalTime.dayOf, LocalTime.localMs.
  change LocalTime.MS_PER_DAY with 86400000.
  generalize (tz * LocalTime.MS_PER_MINUTE). intros k. divlia.
Qed.

Lemma selected_shown tz uid st sd ed lim off db id b :
  (bookings db !! id = Some b ∧
   is_Some (facilities db !! facility_id b) ∧
   BookingReads.selected uid
     (BookingReads.mkFilters st (LocalTime.startOfDay tz <$> sd)
        (BookingHandlers.endOfDay tz <$> ed) lim off) b)
  ↔ shown tz uid st sd ed db id b.
Proof.
  unfold shown, BookingReads.selected. cbn [BookingReads.statusFilter
    BookingReads.startDate BookingReads.endDate].
  assert ((if decide (BookingReads.truthy_string st)
           then Some (BookingReads.status_name (status b)) = st else True)
          ↔ (∀ v, st = Some v → v ≠ EmptyString →
                  BookingReads.status_name (status b) = v)) as Hst.
  { case_decide as Ht.
    - destruct st as [v |]; [| done]. simpl in Ht. split.
      + intros [= ->] v' [= <-] _. reflexivity.
      + intros H. f_equal. by apply H.
    - split; [| done]. intros _ v -> Hv. by destruct Ht. }
  assert (match LocalTime.startOfDay tz <$> sd with
          | Some s => start_time b >= s | None => True end
          ↔ (∀ s, sd = Some s →
                  LocalTime.dayOf tz s ≤ LocalTime.dayOf tz (start_time b))) as Hsd.
  { destruct sd as [s |]; simpl; [| split; [intros _ s [=] | done]]. split.
    - intros H s' [= <-]. apply startOfDay_le. lia.
    - intros H. specialize (H s eq_refl). apply startOfDay_le in H. lia. }
  assert (match BookingHandlers.endOfDay tz <$> ed with
          | Some e => start_time b ≤ e | None => True end
          ↔ (∀ e, ed = Some e →
                  LocalTime.dayOf tz (start_time b) ≤ LocalTime.dayOf tz e)) as Hed.
  { destruct ed as [e |]; simpl; [| split; [intros _ e [=] | done]]. split.
    - intros H e' [= <-]. by apply le_endOfDay.
    - intros H. by apply le_endOfDay, H. }
  tauto.
Qed.

(** Membership in the joined, filtered and ordered rows. *)
Lemma elem_of_userBookings db uid filters id b fn ft :
  ((id, b), (fn, ft)) ∈ BookingReads.userBookings db uid filters
  ↔ bookings db !! id = Some b ∧
    BookingReads.selected uid filters b ∧
    ∃ f, facilities db !! facility_id b = Some f ∧ fn = name f ∧ ft = type f.
Proof.
  unfold BookingReads.userBookings. rewrite list_elem_of_omap. split.
  - intros ([id' b'] & Hin & Hjoin).
    rewrite merge_sort_Permutation in Hin.
    apply elem_of_map_to_list, map_lookup_filter_Some in Hin as [Hb Hsel].
    simpl in *. destruct (facilities db !! facility_id b') as [f |] eqn:Hf;
      [| discriminate].
    simplify_eq. split; [done |]. split; [done |]. by exists f.
  - intros (Hb & Hsel & f & Hf & -> & ->). exists (id, b). split.
    + rewrite merge_sort_Permutation.
      by apply elem_of_map_to_list, map_lookup_filter_Some.
    + simpl. by rewrite Hf.
Qed.

Lemma StronglySorted_omap {A B} (R1 : relation A) (R2 : relation B) (f : A → option B) l :
  (∀ x y x' y', f x = Some x' → f y = Some y' → R1 x y → R2 x' y') →
  StronglySorted R1 l → StronglySorted R2 (omap f l).
Proof.
  intros HR. induction 1 as [| x l Hl IH Hx]; [constructor |].
  cbn [omap list_omap]. destruct (f x) as [x' |] eqn:Hfx; [| exact IH].
  constructor; [exact IH |].
  apply Forall_forall. intros y' Hy'. apply list_elem_of_omap in Hy' as (y & Hy & Hfy).
  eapply HR; [exact Hfx | exact Hfy |]. by eapply Forall_forall in Hx.
Qed.

Lemma StronglySorted_take {A} (R : relation A) n l :
  StronglySorted R l → StronglySorted R (take n l).
Proof.
  intros H. rewrite <- (take_drop n l) in H. by apply StronglySorted_app_1_l in H.
Qed.

Lemma StronglySorted_drop {A} (R : relation A) n l :
  StronglySorted R l → StronglySorted R (drop n l).
Proof.
  intros H. rewrite <- (take_drop n l) in H. by apply StronglySorted_app_1_r in H.
Qed.

Lemma userBookings_sorted db uid filters :
  StronglySorted (λ x y : BookingReads.UserBookingRow,
                    start_time y.1.2 ≤ start_time x.1.2)
                 (BookingReads.userBookings db uid filters).
Proof.
  unfold BookingReads.userBookings.
  eapply StronglySorted_omap;
    [| apply (StronglySorted_merge_sort BookingReads.start_desc)].
  intros x y x' y' Hx Hy Hxy.
  destruct (facilities db !! facility_id x.2); [| discriminate].
  destruct (facilities db !! facility_id y.2); [| discriminate].
  simplify_eq. exact Hxy.
Qed.

(** Paging only removes rows and keeps their order. *)
Lemma findByUserId_Some db uid filters rows :
  BookingReads.findByUserId db uid filters = Some rows →
  rows ⊆ BookingReads.userBookings db uid filters ∧
  StronglySorted (λ x y : BookingReads.UserBookingRow,
                    start_time y.1.2 ≤ start_time x.1.2) rows ∧
  (∀ l, BookingReads.limit filters = Some l → 0 < l → Z.of_nat (length rows) ≤ l).
Proof.
  unfold BookingReads.findByUserId. intros H.
  pose proof (userBookings_sorted db uid filters) as Hs.
  set (all := BookingReads.userBookings db uid filters) in *.
  repeat case_decide; simplify_eq.
  - split; [| split].
    + etrans; [apply subseteq_take | apply subseteq_drop].
    + by apply StronglySorted_take, StronglySorted_drop.
    + intros l Hl Hpos. rewrite Hl. simpl. rewrite length_take. lia.
  - split; [| split].
    + apply subseteq_take.
    + by apply StronglySorted_take.
    + intros l Hl Hpos. rewrite Hl. simpl. rewrite length_take. lia.
  - split; [done | split; [done |]].
    intros l Hl Hpos. destruct (BookingReads.limit filters) as [v |]; [| done].
    simplify_eq. simpl in *. destruct (decide (l = 0)); [lia |]. tauto.
Qed.

(** X14. Whatever the query parameters, a page of [GET /bookings] holds only
    bookings of the caller: each row is a booking of the table that belongs
    to the caller, carries the name and type of its facility, has the asked
    status and starts within the asked local days; the rows are in descending
    order of start time, [total] is their number, and a positive limit bounds
    it. *)
Theorem own_bookings_page tz uid st sd ed pg lim db rows p :
  BookingHandlers.getBookings tz uid st sd ed pg lim db = ok (rows, p) →
  (∀ id b fn ft, ((id, b), (fn, ft)) ∈ rows →
     shown tz uid st sd ed db id b ∧
     ∃ f, facilities db !! facility_id b = Some f ∧ fn = name f ∧ ft = type f) ∧
  StronglySorted (λ x y : BookingReads.UserBookingRow,
                    start_time y.1.2 ≤ start_time x.1.2) rows ∧
  BookingHandlers.total p = length rows ∧
  (∀ l, BookingHandlers.parsed 20 lim = Some l → 0 < l → Z.of_nat (length rows) ≤ l).
Proof.
  unfold BookingHandlers.getBookings. intros H.
  destruct (BookingReads.findByUserId _ _ _) as [rows' |] eqn:Hfind; [| discriminate].
  simplify_eq. apply findByUserId_Some in Hfind as (Hsub & Hsorted & Hlen).
  split; [| split; [exact Hsorted | split; [reflexivity | exact Hlen]]].
  intros id b fn ft Hin. apply Hsub, elem_of_userBookings in Hin as (Hb & Hsel & f & Hf & -> & ->).
  split; [| by exists f]. eapply selected_shown. split; [exact Hb |].
  split; [by exists f | exact Hsel].
Qed.

Lemma own_bookings_page_witness :
  (∀ id b fn ft,
     ((id, b), (fn, ft)) ∈ [((0%nat, Club.nine_to_ten_row 1 confirmed),
                             ("Tennis Court 1", "tennis_court"))%string] →
     shown 0 1 None None None Club.booked_db id b ∧
     ∃ f, facilities Club.booked_db !! facility_id b = Some f ∧ fn = name f ∧ ft = type f) ∧
  StronglySorted (λ x y : BookingReads.UserBookingRow,
                    start_time y.1.2 ≤ start_time x.1.2)
    [((0%nat, Club.nine_to_ten_row 1 confirmed), ("Tennis Court 1", "tennis_court"))%string] ∧
  BookingHandlers.total (BookingHandlers.mkPagination (Some 1) (Some 20) 1) = 1%nat ∧
  (∀ l, BookingHandlers.parsed 20 None = Some l → 0 < l → Z.of_nat 1 ≤ l).
Proof.
  apply (own_bookings_page 0 1 None None None None None Club.booked_db
           [((0%nat, Club.nine_to_ten_row 1 confirmed), ("Tennis Court 1", "tennis_court"))%string]
           (BookingHandlers.mkPagination (Some 1) (Some 20) 1)).
  vm_compute. reflexivity.
Defined.

(** X15. A limit of 0, or one that does not parse as a number, switches
    paging off instead of giving an empty page: whatever the page number,
    the answer then holds every booking of the caller that has a facility,
    the asked status and a start within the asked local days. *)
Theorem zero_limit_lists_everything tz uid st sd ed pg lim db :
  lim = Some None ∨ lim = Some (Some 0) →
  ∃ rows p,
    BookingHandlers.getBookings tz uid st sd ed pg lim db = ok (rows, p) ∧
    ∀ id b, (∃ fn ft, ((id, b), (fn, ft)) ∈ rows) ↔ shown tz uid st sd ed db id b.
Proof.
  intros Hlim. unfold BookingHandlers.getBookings.
  assert (BookingReads.findByUserId db uid
            (BookingReads.mkFilters st (LocalTime.startOfDay tz <$> sd)
               (BookingHandlers.endOfDay tz <$> ed) (BookingHandlers.parsed 20 lim)
               match BookingHandlers.parsed 1 pg, BookingHandlers.parsed 20 lim with
               | Some p, Some l => Some ((p - 1) * l)
               | _, _ => None
               end)
          = Some (BookingReads.userBookings db uid
                    (BookingReads.mkFilters st (LocalTime.startOfDay tz <$> sd)
                       (BookingHandlers.endOfDay tz <$> ed) (BookingHandlers.parsed 20 lim)
                       match BookingHandlers.parsed 1 pg, BookingHandlers.parsed 20 lim with
                       | Some p, Some l => Some ((p - 1) * l)
                       | _, _ => None
                       end))) as ->.
  { unfold BookingReads.findByUserId. cbn [BookingReads.limit].
    case_decide as Ht; [| reflexivity].
    destruct Hlim as [-> | ->]; simpl in Ht; [done | lia]. }
  eexists _, _. split; [reflexivity |].
  intros id b. rewrite <- selected_shown. split.
  - intros (fn & ft & Hin). apply elem_of_userBookings in Hin as (Hb & Hsel & f & Hf & _).
    split; [exact Hb |]. split; [by exists f | exact Hsel].
  - intros (Hb & [f Hf] & Hsel). exists (name f), (type f).
    apply elem_of_userBookings. split; [exact Hb |]. split; [exact Hsel |]. by exists f.
Qed.

Lemma zero_limit_lists_everything_witness :
  ∃ rows p,
    BookingHandlers.getBookings 0 1 None None None (Some (Some 7)) (Some (Some 0))
        Club.booked_db = ok (rows, p) ∧
    ∀ id b, (∃ fn ft, ((id, b), (fn, ft)) ∈ rows)
            ↔ shown 0 1 None None None Club.booked_db id b.
Proof.
  apply (zero_limit_lists_everything 0 1 None None None (Some (Some 7)) (Some (Some 0))
           Club.booked_db).
  right. reflexivity.
Defined.

Lemma findByUserId_None db uid filters :
  BookingReads.findByUserId db uid filters = None
  ↔ ∃ n, BookingReads.limit filters = Some n ∧
         (n < 0 ∨ (0 < n ∧ ∃ k, BookingReads.offset filters = Some k ∧ k < 0)).
Proof.
  unfold BookingReads.findByUserId.
  destruct (BookingReads.limit filters) as [n |],
           (BookingReads.offset filters) as [k |]; simpl.
  - case_decide as Hn; [case_decide as Hneg; [| case_decide as Hk; [case_decide as Hlt |]] |].
    + split; [intros _ | reflexivity]. exists n. split; [reflexivity | by left].
    + split; [intros _ | reflexivity]. exists n. split; [reflexivity |].
      right. split; [lia |]. by exists k.
    + split; [discriminate |].
      intros (n' & [= <-] & [? | (? & k' & [= <-] & ?)]); lia.
    + split; [discriminate |].
      intros (n' & [= <-] & [? | (? & k' & [= <-] & ?)]); lia.
    + split; [discriminate |].
      intros (n' & [= <-] & [? | (? & _)]); lia.
  - repeat case_decide; try done;
      (split; [first [discriminate | intros _] | try reflexivity]).
    all: try (intros (n' & [= <-] & [? | (? & k' & [=] & ?)]); lia).
    all: try (intros (n' & [= <-] & [? | (? & _)]); lia).
    all: exists n; split; [reflexivity | by left].
  - split; [discriminate |]. intros (n' & [=] & _).
  - split; [discriminate |]. intros (n' & [=] & _).
Qed.

(** X16. [GET /bookings] answers 500 exactly when the limit is negative, or
    positive with a page number below 1 (the offset sent to the database is
    then negative); every other combination of parameters, missing or
    malformed ones included, is answered with a list.  The numbers are taken
    in the range where JavaScript computes the offset exactly. *)
Theorem bookings_page_error tz uid st sd ed pg lim db :
  (∀ l, BookingHandlers.parsed 20 lim = Some l →
        safe_integer l ∧
        ∀ p, BookingHandlers.parsed 1 pg = Some p →
             safe_integer p ∧ safe_integer ((p - 1) * l)) →
  (BookingHandlers.getBookings tz uid st sd ed pg lim db = server_error
   ↔ ∃ l, BookingHandlers.parsed 20 lim = Some l ∧
          (l < 0 ∨ (0 < l ∧ ∃ p, BookingHandlers.parsed 1 pg = Some p ∧ p < 1))).
Proof.
  intros _.
  unfold BookingHandlers.getBookings.
  destruct (BookingReads.findByUserId _ _ _) as [rows |] eqn:Hfind.
  - split; [discriminate |]. intros (l & Hl & Hcase).
    assert (BookingReads.findByUserId db uid
              (BookingReads.mkFilters st (LocalTime.startOfDay tz <$> sd)
                 (BookingHandlers.endOfDay tz <$> ed) (BookingHandlers.parsed 20 lim)
                 match BookingHandlers.parsed 1 pg, BookingHandlers.parsed 20 lim with
                 | Some p, Some l => Some ((p - 1) * l)
                 | _, _ => None
                 end) = None) as Hnone; [| congruence].
    apply findByUserId_None. cbn [BookingReads.limit BookingReads.offset].
    exists l. split; [exact Hl |]. destruct Hcase as [? | (? & p & Hp & ?)]; [by left |].
    right. split; [done |]. rewrite Hp, Hl. exists ((p - 1) * l). split; [reflexivity | nia].
  - split; [intros _ | reflexivity].
    apply findByUserId_None in Hfind as (l & Hl & Hcase).
    cbn [BookingReads.limit BookingReads.offset] in Hl, Hcase.
    exists l. split; [exact Hl |]. destruct Hcase as [? | (? & k & Hk & ?)]; [by left |].
    right. split; [done |]. rewrite Hl in Hk.
    destruct (BookingHandlers.parsed 1 pg) as [p |]; [| discriminate].
    exists p. split; [reflexivity |]. simplify_eq. nia.
Qed.

Lemma bookings_page_error_witness :
  BookingHandlers.getBookings 0 1 None None None (Some (Some 0)) None Club.booked_db
    = server_error.
Proof.
  apply (proj2 (bookings_page_error 0 1 None None None (Some (Some 0)) None Club.booked_db
                  ltac:(intros l [= <-]; split;
                          [vm_compute; split; reflexivity
                          | intros p [= <-]; vm_compute; repeat split; reflexivity]))).
  exists 20. split; [reflexivity |]. right. split; [lia |].
  exists 0. split; [reflexivity | lia].
Defined.


(** ** Staff updates of a booking's status *)

Lemma updateStatus_spec id s db :
  Booking.updateStatus id s db
  = match bookings db !! id with
    | Some b => (Some (id, set_status s b),
                 set_bookings db (<[id := set_status s b]> (bookings db)))
    | None => (None, db)
    end.
Proof. reflexivity. Qed.

(** X17. Whatever its answer, a status update leaves facilities, membership
    types, memberships and every other booking as they were.  Of the
    addressed booking either nothing is written, or the caller is staff or
    admin, the status is one of the four listed values, and the row keeps its
    owner, facility, start, end and notes and carries the new status.  An
    answer 200 carries exactly the row written, and comes only without
    notes. *)
Theorem status_update_frame role id s n db resp db' :
  BookingController.updateBookingStatus role id s n db = (resp, db') →
  facilities db' = facilities db ∧
  membership_types db' = membership_types db ∧
  memberships db' = memberships db ∧
  (∀ id', id' ≠ id → bookings db' !! id' = bookings db !! id') ∧
  (db' = db ∨
   ∃ b b' s', bookings db !! id = Some b ∧ bookings db' !! id = Some b' ∧
              s = Some s' ∧
              s' ∈ [confirmed; cancelled; completed; no_show] ∧
              (role = admin ∨ role = staff) ∧
              user_id b' = user_id b ∧ facility_id b' = facility_id b ∧
              start_time b' = start_time b ∧ end_time b' = end_time b ∧
              notes b' = notes b ∧ status b' = s') ∧
  (∀ body, resp = ok body →
     n = None ∧
     ∃ b', body = Some (id, b') ∧ bookings db' !! id = Some b' ∧
           s = Some (status b')).
Proof.
  unfold BookingController.updateBookingStatus. intros H.
  case_decide as Hrole; [by simplify_eq; repeat split; auto |].
  case_decide as Hschema; [| by simplify_eq; repeat split; auto].
  unfold Booking.findById in H.
  destruct (bookings db !! id) as [b |] eqn:Hb; cbn [fmap option_fmap option_map] in H;
    [| by simplify_eq; repeat split; auto].
  destruct s as [s' |]; [| by simplify_eq; repeat split; auto].
  rewrite updateStatus_spec, Hb in H.
  assert (role = admin ∨ role = staff) as Hstaff
    by (destruct role; auto; exfalso; apply Hrole; split; discriminate).
  destruct Hschema as [Hs' _].
  assert (db' = set_bookings db (<[id := set_status s' b]> (bookings db))) as ->
    by (destruct n; by simplify_eq).
  cbn [set_bookings facilities membership_types memberships bookings].
  split; [done |]. split; [done |]. split; [done |].
  split; [intros id' Hne; by rewrite lookup_insert_ne |].
  split.
  - right. exists b, (set_status s' b), s'. rewrite lookup_insert_eq.
    repeat split; auto.
  - intros body ->. destruct n; simplify_eq. split; [done |].
    exists (set_status s' b). by rewrite lookup_insert_eq.
Qed.

Lemma status_update_frame_witness :
  facilities (set_bookings Club.booked_db
                (<[0%nat := Club.nine_to_ten_row 1 completed]> (bookings Club.booked_db)))
    = facilities Club.booked_db ∧
  membership_types (set_bookings Club.booked_db
                (<[0%nat := Club.nine_to_ten_row 1 completed]> (bookings Club.booked_db)))
    = membership_types Club.booked_db ∧
  memberships (set_bookings Club.booked_db
                (<[0%nat := Club.nine_to_ten_row 1 completed]> (bookings Club.booked_db)))
    = memberships Club.booked_db ∧
  (∀ id', id' ≠ 0%nat →
     bookings (set_bookings Club.booked_db
                (<[0%nat := Club.nine_to_ten_row 1 completed]> (bookings Club.booked_db)))
       !! id' = bookings Club.booked_db !! id') ∧
  (set_bookings Club.booked_db
     (<[0%nat := Club.nine_to_ten_row 1 completed]> (bookings Club.booked_db))
     = Club.booked_db ∨
   ∃ b b' s',
     bookings Club.booked_db !! 0%nat = Some b ∧
     bookings (set_bookings Club.booked_db
                (<[0%nat := Club.nine_to_ten_row 1 completed]> (bookings Club.booked_db)))
       !! 0%nat = Some b' ∧
     Some completed = Some s' ∧
     s' ∈ [confirmed; cancelled; completed; no_show] ∧
     (staff = admin ∨ staff = staff) ∧
     user_id b' = user_id b ∧ facility_id b' = facility_id b ∧
     start_time b' = start_time b ∧ end_time b' = end_time b ∧
     notes b' = notes b ∧ status b' = s') ∧
  (∀ body, ok (Some (0%nat, Club.nine_to_ten_row 1 completed)) = ok body →
     (None : option string) = None ∧
     ∃ b', body = Some (0%nat, b') ∧
           bookings (set_bookings Club.booked_db
                (<[0%nat := Club.nine_to_ten_row 1 completed]> (bookings Club.booked_db)))
             !! 0%nat = Some b' ∧
           Some completed = Some (status b')).
Proof.
  apply (status_update_frame staff 0 (Some completed) None Club.booked_db
           (ok (Some (0%nat, Club.nine_to_ten_row 1 completed)))
           (set_bookings Club.booked_db
              (<[0%nat := Club.nine_to_ten_row 1 completed]> (bookings Club.booked_db)))).
  vm_compute. reflexivity.
Defined.

(** X18. A status update that also carries notes is never answered 200:
    for staff or an admin, an existing booking, a listed status and notes of
    1 to 500 characters, the answer is 500, and yet the status has been
    written; the notes have not. *)
Theorem status_update_with_notes role id s v db b :
  role = admin ∨ role = staff →
  bookings db !! id = Some b →
  s ∈ [confirmed; cancelled; completed; no_show] →
  (0 < String.length v ≤ 500)%nat →
  ∃ db', BookingController.updateBookingStatus role id (Some s) (Some v) db
           = (server_error, db') ∧
         bookings db' !! id = Some (set_status s b) ∧
         notes (set_status s b) = notes b.
Proof.
  intros Hrole Hb Hs Hv. unfold BookingController.updateBookingStatus.
  rewrite decide_False by (intros [? ?]; destruct Hrole; auto).
  rewrite decide_True by (split; assumption).
  unfold Booking.findById. rewrite Hb. cbn [fmap option_fmap option_map].
  rewrite updateStatus_spec, Hb. eexists. split; [reflexivity |].
  cbn [set_bookings bookings]. by rewrite lookup_insert_eq.
Qed.

Lemma status_update_with_notes_witness :
  ∃ db', BookingController.updateBookingStatus staff 0 (Some completed) (Some "late"%string)
           Club.booked_db = (server_error, db') ∧
         bookings db' !! 0%nat = Some (set_status completed (Club.nine_to_ten_row 1 confirmed)) ∧
         notes (set_status completed (Club.nine_to_ten_row 1 confirmed))
           = notes (Club.nine_to_ten_row 1 confirmed).
Proof.
  apply (status_update_with_notes staff 0 completed "late"%string Club.booked_db
           (Club.nine_to_ten_row 1 confirmed)).
  - right. reflexivity.
  - vm_compute. reflexivity.
  - by_decide.
  - simpl. lia.
Defined.

(** X19. Behind [staffMiddleware] the handler's own role check is dead: on
    the route [PUT /:id/status] a request without a user is stopped with
    401, a member or guest with 403 by the middleware, and for staff and
    admins the handler runs and never answers 403. *)
Theorem status_route_guard user id s n db :
  match BookingHandlers.putStatus user id s n db with
  | inl v =>
      (user = None ∧ v = Auth.unauthorized) ∨
      (∃ r, user = Some r ∧ (r = member ∨ r = guest) ∧ v = Auth.insufficient_permissions)
  | inr (resp, db') =>
      (∃ r, user = Some r ∧ (r = admin ∨ r = staff) ∧
            (resp, db') = BookingController.updateBookingStatus r id s n db) ∧
      resp ≠ forbidden
  end.
Proof.
  unfold BookingHandlers.putStatus, Auth.staffMiddleware, Auth.roleMiddleware.
  destruct user as [r |]; [| by left].
  case_decide as Hr.
  - right. exists r. split; [done |]. split; [| done].
    destruct r; [exfalso; apply Hr; by_decide | exfalso; apply Hr; by_decide
                | by left | by right].
  - destruct (BookingController.updateBookingStatus r id s n db) as [resp db'] eqn:Hup.
    assert (r = admin ∨ r = staff) as Hstaff.
    { destruct r; auto; exfalso; revert Hr; by_decide. }
    split; [by exists r |].
    unfold BookingController.updateBookingStatus in Hup.
    rewrite decide_False in Hup by (intros [? ?]; destruct Hstaff; auto).
    case_decide; [| by simplify_eq].
    destruct (Booking.findById id db); [| by simplify_eq].
    destruct s as [s' |]; [| by simplify_eq].
    destruct (Booking.updateStatus id s' db), n; by simplify_eq.
Qed.

(** X20. The three role gates are nested: what passes the admin gate
    passes the staff gate, what passes the staff gate passes the member
    gate, and a guest or a request without a user passes none. *)
Theorem role_gates_nested user :
  (Auth.adminMiddleware user = Auth.next → Auth.staffMiddleware user = Auth.next) ∧
  (Auth.staffMiddleware user = Auth.next → Auth.memberMiddleware user = Auth.next) ∧
  (Auth.memberMiddleware user = Auth.next ↔
     user = Some admin ∨ user = Some staff ∨ user = Some member).
Proof.
  destruct user as [[] |]; vm_compute;
    (split; [| split; [| split]]); intros H; try discriminate; try reflexivity; auto;
    destruct H as [H | [H | H]]; discriminate.
Qed.

Lemma role_gates_nested_witness : Auth.memberMiddleware (Some staff) = Auth.next.
Proof.
  apply (proj1 (proj2 (role_gates_nested (Some staff)))). vm_compute. reflexivity.
Defined.

(** ** Reading and cancelling one booking *)

(** X21. A user can cancel only what the same user can read: when
    [cancelBooking] succeeds, [getBooking] by that user answered 200 before,
    for any role, and answers 200 with the cancelled row afterwards; and a
    booking of somebody else, which [getBooking] answers 403 for a member,
    is answered 404 by [cancelBooking], with nothing written. *)
Theorem cancel_within_read_access role uid id db :
  (∀ bk db', BookingController.cancelBooking id uid db = (ok bk, db') →
     (∃ b, BookingHandlers.getBooking role uid id db = ok (id, b) ∧
           bk = (id, set_status cancelled b)) ∧
     BookingHandlers.getBooking role uid id db' = ok bk) ∧
  (BookingHandlers.getBooking role uid id db = forbidden →
     BookingController.cancelBooking id uid db = (not_found, db)) ∧
  (BookingHandlers.getBooking role uid id db = not_found →
     BookingController.cancelBooking id uid db = (not_found, db)).
Proof.
  unfold BookingController.cancelBooking, Booking.cancel, BookingHandlers.getBooking,
    Booking.findById.
  destruct (bookings db !! id) as [b |] eqn:Hb; cbn [fmap option_fmap option_map].
  - split; [| split].
    + intros bk db' H. case_decide as Hown; [| discriminate]. simplify_eq.
      destruct Hown as [Hown _].
      cbn [set_bookings bookings]. rewrite lookup_insert_eq.
      cbn [fmap option_fmap option_map snd set_status user_id].
      split; [exists b; split; [| reflexivity] |];
        repeat case_decide; try reflexivity; simpl in *; congruence.
    + intros H. rewrite decide_False; [reflexivity |].
      intros [Hown _]. repeat case_decide; simpl in *; congruence.
    + intros H. repeat case_decide; discriminate.
  - split; [| split]; [intros bk db' H; discriminate | done | done].
Qed.

Lemma cancel_within_read_access_witness :
  BookingController.cancelBooking 0 2 Club.booked_db = (not_found, Club.booked_db).
Proof.
  apply (proj1 (proj2 (cancel_within_read_access member 2 0 Club.booked_db))).
  vm_compute. reflexivity.
Defined.

(** ** Taking a facility out of service *)

Lemma updateFacilityStatus_ok id st db f db' :
  FacilityAdmin.updateFacilityStatus id (Some st) db = (ok f, db') →
  ∃ f0, facilities db !! id = Some f0 ∧ f = set_facility_status st f0 ∧
        db' = with_facility_status st id db.
Proof.
  unfold FacilityAdmin.updateFacilityStatus, FacilityAdmin.updateStatus.
  destruct (facilities db !! id) as [f0 |]; intros H; [| discriminate].
  simplify_eq. by exists f0.
Qed.

Lemma facilityQuery_out_of_service st id db :
  st ≠ FacilityStatus.available →
  Booking.facilityQuery (with_facility_status st id db) id = None.
Proof.
  intros Hst. unfold Booking.facilityQuery. cbn [with_facility_status facilities].
  rewrite lookup_alter_eq. destruct (facilities db !! id) as [f0 |]; [| reflexivity].
  cbn [fmap option_fmap option_map set_facility_status facility_status].
  by rewrite decide_False.
Qed.

(** X22. Once a facility has been set to maintenance or closed, no booking
    request for it is admitted, whoever asks and whenever: every request is
    refused, as already booked or as facility not available.  The bookings
    that exist are left as they are. *)
Theorem out_of_service_refuses_bookings id st db f db' :
  FacilityAdmin.updateFacilityStatus id (Some st) db = (ok f, db') →
  st ≠ FacilityStatus.available →
  bookings db' = bookings db ∧
  ∀ tz now data,
    Booking.facilityId data = id →
    Booking.create tz now data db' = inl Booking.AlreadyBooked ∨
    Booking.create tz now data db' = inl Booking.FacilityNotAvailable.
Proof.
  intros Hup Hst. apply updateFacilityStatus_ok in Hup as (f0 & Hf0 & -> & ->).
  split; [reflexivity |]. intros tz now data <-.
  unfold Booking.create. case_decide; [by left |].
  rewrite facilityQuery_out_of_service by exact Hst. by right.
Qed.

Lemma out_of_service_refuses_bookings_witness :
  bookings (with_facility_status FacilityStatus.maintenance 1 Club.booked_db)
    = bookings Club.booked_db ∧
  ∀ tz now data,
    Booking.facilityId data = 1%nat →
    Booking.create tz now data
        (with_facility_status FacilityStatus.maintenance 1 Club.booked_db)
      = inl Booking.AlreadyBooked ∨
    Booking.create tz now data
        (with_facility_status FacilityStatus.maintenance 1 Club.booked_db)
      = inl Booking.FacilityNotAvailable.
Proof.
  apply (out_of_service_refuses_bookings 1 FacilityStatus.maintenance Club.booked_db
           (set_facility_status FacilityStatus.maintenance
              (Club.court 60 0 FacilityStatus.available))).
  - vm_compute. reflexivity.
  - discriminate.
Defined.

Lemma set_facility_status_id f :
  set_facility_status (facility_status f) f = f.
Proof. by destruct f. Qed.

(** X23. Taking a facility out of service and putting it back restores
    the service: for a facility that was available, setting any status and
    then available again is answered 200 both times; afterwards the
    facility has the name, type, operating hours, duration, buffer and status
    it had, the other facilities, the bookings and the memberships are as
    they were, and so every booking request gets the answer it would have
    got before, and every slot query too. *)
Theorem reopen_restores id st db f0 f1 db1 :
  facilities db !! id = Some f0 →
  facility_status f0 = FacilityStatus.available →
  FacilityAdmin.updateFacilityStatus id (Some st) db = (ok f1, db1) →
  ∃ f2 db2,
    FacilityAdmin.updateFacilityStatus id (Some FacilityStatus.available) db1
      = (ok f2, db2) ∧
    facilities db2 !! id = Some f2 ∧
    name f2 = name f0 ∧ type f2 = type f0 ∧
    operating_hours_start f2 = operating_hours_start f0 ∧
    operating_hours_end f2 = operating_hours_end f0 ∧
    booking_duration_minutes f2 = booking_duration_minutes f0 ∧
    booking_buffer_minutes f2 = booking_buffer_minutes f0 ∧
    facility_status f2 = FacilityStatus.available ∧
    (∀ id', id' ≠ id → facilities db2 !! id' = facilities db !! id') ∧
    bookings db2 = bookings db ∧
    memberships db2 = memberships db ∧
    membership_types db2 = membership_types db ∧
    (∀ tz now data,
       answer (Booking.create tz now data db2) = answer (Booking.create tz now data db)) ∧
    (∀ tz fuel fid date,
       Facility.getAvailableSlots tz fuel db2 fid date
       = Facility.getAvailableSlots tz fuel db fid date).
Proof.
  intros Hf0 Havail Hup.
  apply updateFacilityStatus_ok in Hup as (f0' & Hf0' & -> & ->). simplify_eq.
  assert (set_facility_status FacilityStatus.available (set_facility_status st f0) = f0)
    as Hback by (rewrite <- Havail; by destruct f0).
  assert (with_facility_status FacilityStatus.available id (with_facility_status st id db)
          = db) as Hdb.
  { destruct db as [fs mts ms bs]. unfold with_facility_status. cbn in *. f_equal.
    apply map_eq. intros i. destruct (decide (i = id)) as [-> | Hne].
    - rewrite !lookup_alter_eq, Hf0. cbn. by rewrite Hback.
    - by rewrite !lookup_alter_ne. }
  exists f0, db. split.
  - unfold FacilityAdmin.updateFacilityStatus, FacilityAdmin.updateStatus.
    cbn [with_facility_status facilities]. rewrite lookup_alter_eq, Hf0.
    cbn [fmap option_fmap option_map]. by rewrite Hback, Hdb.
  - repeat split; auto.
Qed.

Lemma reopen_restores_witness :
  ∃ f2 db2,
    FacilityAdmin.updateFacilityStatus 1 (Some FacilityStatus.available)
      (with_facility_status FacilityStatus.closed 1 Club.booked_db)
      = (ok f2, db2) ∧
    facilities db2 !! 1%nat = Some f2 ∧
    name f2 = name (Club.court 60 0 FacilityStatus.available) ∧
    type f2 = type (Club.court 60 0 FacilityStatus.available) ∧
    operating_hours_start f2
      = operating_hours_start (Club.court 60 0 FacilityStatus.available) ∧
    operating_hours_end f2
      = operating_hours_end (Club.court 60 0 FacilityStatus.available) ∧
    booking_duration_minutes f2
      = booking_duration_minutes (Club.court 60 0 FacilityStatus.available) ∧
    booking_buffer_minutes f2
      = booking_buffer_minutes (Club.court 60 0 FacilityStatus.available) ∧
    facility_status f2 = FacilityStatus.available ∧
    (∀ id', id' ≠ 1%nat → facilities db2 !! id' = facilities Club.booked_db !! id') ∧
    bookings db2 = bookings Club.booked_db ∧
    memberships db2 = memberships Club.booked_db ∧
    membership_types db2 = membership_types Club.booked_db ∧
    (∀ tz now data,
       answer (Booking.create tz now data db2)
       = answer (Booking.create tz now data Club.booked_db)) ∧
    (∀ tz fuel fid date,
       Facility.getAvailableSlots tz fuel db2 fid date
       = Facility.getAvailableSlots tz fuel Club.booked_db fid date).
Proof.
  apply (reopen_restores 1 FacilityStatus.closed Club.booked_db
           (Club.court 60 0 FacilityStatus.available)
           (set_facility_status FacilityStatus.closed
              (Club.court 60 0 FacilityStatus.available))).
  - reflexivity.
  - reflexivity.
  - vm_compute. reflexivity.
Defined.

(** ** The booking request handler *)

(** X24. [createBooking] writes only when it answers 201: a request
    refused by the schema or by [Booking.create] leaves the database as it
    was.  A booking answered 201 belongs to the caller, is confirmed, is for
    the facility and the times of the body, and does not start before the
    moment of validation. *)
Theorem createBooking_writes_on_201 tz now txnow uid body db resp db' :
  BookingHandlers.createBooking tz now txnow uid body db = (resp, db') →
  match resp with
  | BookingHandlers.created (id, row) =>
      bookings db !! id = None ∧
      bookings db' !! id = Some row ∧
      user_id row = uid ∧
      facility_id row = BookingHandlers.facilityId body ∧
      start_time row = BookingHandlers.startTime body ∧
      end_time row = BookingHandlers.endTime body ∧
      status row = confirmed ∧
      now ≤ start_time row ≤ end_time row
  | _ => db' = db
  end.
Proof.
  unfold BookingHandlers.createBooking. intros H.
  case_decide as Hschema; [| by simplify_eq].
  destruct (Booking.create _ _ _ _) as [e | [[id row] db'']] eqn:Hc; simplify_eq;
    [reflexivity |].
  destruct Hschema as (Hnow & Hend & _).
  pose proof (create_adds_row _ _ _ _ _ _ _ Hc) as [Hrow Hin].
  pose proof (create_inr _ _ _ _ _ Hc) as [_ Heq].
  pose proof (fresh_booking_id db) as Hfresh.
  unfold Booking.insertQuery in Heq. simplify_eq.
  cbn [user_id facility_id start_time end_time status Booking.userId Booking.facilityId
       Booking.startTime Booking.endTime] in *.
  repeat split; try assumption; try reflexivity.
Qed.

Lemma createBooking_writes_on_201_witness :
  match BookingHandlers.created (0%nat, Club.nine_to_ten_row 1 confirmed) with
  | BookingHandlers.created (id, row) =>
      bookings Club.empty_db !! id = None ∧
      bookings Club.booked_db !! id = Some row ∧
      user_id row = 1%nat ∧
      facility_id row
        = BookingHandlers.facilityId
            (BookingHandlers.mkBody 1 (Club.at_ Club.today (Club.hour 9)) (Club.at_ Club.today (Club.hour 10)) None) ∧
      start_time row
        = BookingHandlers.startTime
            (BookingHandlers.mkBody 1 (Club.at_ Club.today (Club.hour 9)) (Club.at_ Club.today (Club.hour 10)) None) ∧
      end_time row
        = BookingHandlers.endTime
            (BookingHandlers.mkBody 1 (Club.at_ Club.today (Club.hour 9)) (Club.at_ Club.today (Club.hour 10)) None) ∧
      status row = confirmed ∧
      Club.now ≤ start_time row ≤ end_time row
  | _ => Club.booked_db = Club.empty_db
  end.
Proof.
  apply (createBooking_writes_on_201 0 Club.now Club.now 1
           (BookingHandlers.mkBody 1 (Club.at_ Club.today (Club.hour 9)) (Club.at_ Club.today (Club.hour 10)) None) Club.empty_db
           (BookingHandlers.created (0%nat, Club.nine_to_ten_row 1 confirmed))
           Club.booked_db).
  vm_compute. reflexivity.
Defined.

(** ** What no request does *)

(** The bookings of two databases agree up to status, and the other tables
    are equal. *)
Lemma step_keeps tz db op :
  facilities (step tz db op) = facilities db ∧
  membership_types (step tz db op) = membership_types db ∧
  memberships (step tz db op) = memberships db ∧
  ∀ id b, bookings db !! id = Some b →
    ∃ s, bookings (step tz db op) !! id = Some (set_status s b).
Proof.
  assert (∀ b : BookingRow, b = set_status (status b) b) as Hsame by (by intros []).
  destruct op as [now data | id uid | role id s n]; cbn [step].
  - destruct (Booking.create tz now data db) as [e | [[id row] db']] eqn:Hc.
    + repeat split; try reflexivity. intros id b Hb. exists (status b). by rewrite <- Hsame.
    + apply create_inr in Hc as [_ Heq]. unfold Booking.insertQuery in Heq.
      simplify_eq. cbn [set_bookings facilities membership_types memberships bookings].
      repeat split; try reflexivity. intros id b Hb. exists (status b).
      rewrite <- Hsame, lookup_insert_ne; [exact Hb |].
      intros <-. by rewrite fresh_booking_id in Hb.
  - unfold BookingController.cancelBooking, Booking.cancel.
    destruct (bookings db !! id) as [b0 |] eqn:Hb0;
      [case_decide |]; cbn [snd set_bookings facilities membership_types memberships bookings];
      repeat split; try reflexivity; intros id' b Hb.
    + destruct (decide (id' = id)) as [-> | Hne].
      * exists cancelled. rewrite lookup_insert_eq. congruence.
      * exists (status b). by rewrite <- Hsame, lookup_insert_ne.
    + exists (status b). by rewrite <- Hsame.
    + exists (status b). by rewrite <- Hsame.
  - destruct (BookingController.updateBookingStatus role id s n db) as [resp db'] eqn:Hup.
    cbn [snd]. unfold BookingController.updateBookingStatus in Hup.
    assert (db' = db ∨ ∃ b0 s', bookings db !! id = Some b0 ∧
              db' = set_bookings db (<[id := set_status s' b0]> (bookings db))) as Hdb'.
    { repeat case_decide; try (left; congruence).
      unfold Booking.findById, Booking.updateStatus in Hup.
      destruct (bookings db !! id) as [b0 |] eqn:Hb0; cbn in Hup; [| left; congruence].
      destruct s as [s' |]; [| left; congruence].
      right. exists b0, s'. split; [reflexivity |]. destruct n; congruence. }
    destruct Hdb' as [-> | (b0 & s' & Hb0 & ->)].
    + repeat split; try reflexivity. intros id' b Hb. exists (status b). by rewrite <- Hsame.
    + cbn [set_bookings facilities membership_types memberships bookings].
      repeat split; try reflexivity. intros id' b Hb.
      destruct (decide (id' = id)) as [-> | Hne].
      * exists s'. rewrite lookup_insert_eq. congruence.
      * exists (status b). by rewrite <- Hsame, lookup_insert_ne.
Qed.

(** X25. No sequence of booking requests (create, cancel, staff status
    update) removes a booking or changes its owner, facility, times or
    notes: a booking of the table is still there afterwards, the same up to
    its status; and facilities, membership types and memberships are left
    untouched. *)
Theorem bookings_only_change_status tz ops db :
  facilities (run tz ops db) = facilities db ∧
  membership_types (run tz ops db) = membership_types db ∧
  memberships (run tz ops db) = memberships db ∧
  ∀ id b, bookings db !! id = Some b →
    ∃ s, bookings (run tz ops db) !! id = Some (set_status s b).
Proof.
  unfold run. revert db. induction ops as [| op ops IH]; intros db; cbn [foldl].
  - repeat split; try reflexivity. intros id [] Hb. by eexists.
  - destruct (step_keeps tz db op) as (Hf & Ht & Hm & Hb).
    destruct (IH (step tz db op)) as (Hf' & Ht' & Hm' & Hb').
    split; [congruence |]. split; [congruence |]. split; [congruence |].
    intros id b Hid. destruct (Hb id b Hid) as [s Hs].
    destruct (Hb' id _ Hs) as [s' Hs']. exists s'. rewrite Hs'. by destruct b.
Qed.

Lemma bookings_only_change_status_witness :
  ∃ s, bookings (run 0 [CancelBooking 0 1; CreateBooking Club.now (Club.nine_to_ten 2)]
                     Club.booked_db) !! 0%nat
       = Some (set_status s (Club.nine_to_ten_row 1 confirmed)).
Proof.
  apply (proj2 (proj2 (proj2 (bookings_only_change_status 0
           [CancelBooking 0 1; CreateBooking Club.now (Club.nine_to_ten 2)]
           Club.booked_db)))).
  vm_compute. reflexivity.
Defined.

(** The statuses the requests write. *)
Lemma step_statuses tz db op id b :
  bookings (step tz db op) !! id = Some b →
  bookings db !! id = Some b ∨
  status b ∈ [confirmed; cancelled; completed; no_show].
Proof.
  destruct op as [now data | id0 uid | role id0 s n]; cbn [step].
  - destruct (Booking.create tz now data db) as [e | [[id' row] db']] eqn:Hc; [by left |].
    pose proof (create_adds_row _ _ _ _ _ _ _ Hc) as [Hrow _].
    apply create_inr in Hc as [_ Heq]. unfold Booking.insertQuery in Heq.
    simplify_eq. cbn [set_bookings bookings]. intros Hb.
    apply lookup_insert_Some in Hb as [[_ <-] | [_ Hb]]; [right; by_decide | by left].
  - unfold BookingController.cancelBooking, Booking.cancel.
    destruct (bookings db !! id0) as [b0 |] eqn:Hb0; [case_decide |];
      cbn [snd set_bookings bookings]; intros Hb; try (by left).
    apply lookup_insert_Some in Hb as [[_ <-] | [_ Hb]]; [right; by_decide | by left].
  - destruct (BookingController.updateBookingStatus role id0 s n db) as [resp db'] eqn:Hup.
    cbn [snd]. unfold BookingController.updateBookingStatus in Hup.
    case_decide; [simplify_eq; by left |].
    case_decide as Hschema; [| simplify_eq; by left].
    unfold Booking.findById, Booking.updateStatus in Hup.
    destruct (bookings db !! id0) as [b0 |] eqn:Hb0; cbn in Hup; [| simplify_eq; by left].
    destruct s as [s' |]; [| simplify_eq; by left].
    destruct Hschema as [Hs' _].
    assert (db' = set_bookings db (<[id0 := set_status s' b0]> (bookings db))) as ->
      by (destruct n; congruence).
    cbn [set_bookings bookings]. intros Hb.
    apply lookup_insert_Some in Hb as [[_ <-] | [_ Hb]]; [by right | by left].
Qed.

(** X26. No request writes the status pending: in a table without pending
    bookings, no sequence of requests produces one, so every booking stays
    confirmed, cancelled, completed or no-show. *)
Theorem pending_never_written tz ops db :
  (∀ id b, bookings db !! id = Some b → status b ≠ pending) →
  ∀ id b, bookings (run tz ops db) !! id = Some b → status b ≠ pending.
Proof.
  unfold run. revert db. induction ops as [| op ops IH]; intros db Hdb; cbn [foldl];
    [exact Hdb |].
  apply IH. intros id b Hb. apply step_statuses in Hb as [Hb | Hs]; [by eapply Hdb |].
  intros Hp. rewrite Hp in Hs. revert Hs. by_decide.
Qed.

Lemma pending_never_written_witness :
  bookings (run 0 [CancelBooking 0 1; CreateBooking Club.now (Club.nine_to_ten 2)]
                Club.booked_db) !! 0%nat
    = Some (Club.nine_to_ten_row 1 cancelled) ∧
  status (Club.nine_to_ten_row 1 cancelled) ≠ pending.
Proof.
  split; [vm_compute; reflexivity |].
  apply (pending_never_written 0
           [CancelBooking 0 1; CreateBooking Club.now (Club.nine_to_ten 2)]
           Club.booked_db) with (id := 0%nat); [| vm_compute; reflexivity].
  intros id b Hb. change (bookings Club.booked_db)
    with ({[ 0%nat := Club.nine_to_ten_row 1 confirmed ]} : gmap nat BookingRow) in Hb.
  apply lookup_singleton_Some in Hb as [_ <-]. discriminate.
Defined.

(** ** The column names of a facility update *)

Lemma dbField_cons c rest :
  FacilityFields.dbField (String c rest)
  = if FacilityFields.is_upper c
    then String "_" (String (FacilityFields.toLowerCase_unit c) (FacilityFields.dbField rest))
    else String (FacilityFields.toLowerCase_unit c) (FacilityFields.dbField rest).
Proof.
  unfold FacilityFields.dbField. cbn [FacilityFields.replace_upper].
  destruct (FacilityFields.is_upper c); reflexivity.
Qed.

Lemma lower_identifier_unit c :
  FacilityFields.identifier_unit c = true →
  FacilityFields.is_upper c = false →
  FacilityFields.toLowerCase_unit c = c ∧ c ≠ "_"%char.
Proof.
  destruct c as [[] [] [] [] [] [] [] []]; vm_compute; intros H1 H2;
    try discriminate; split; try reflexivity; discriminate.
Qed.

Lemma lower_upper_unit c :
  FacilityFields.is_upper c = true →
  ascii_of_N (N_of_ascii (FacilityFields.toLowerCase_unit c) - 32) = c.
Proof.
  destruct c as [[] [] [] [] [] [] [] []]; vm_compute; intros H;
    try discriminate; reflexivity.
Qed.

Lemma dbField_inj k1 k2 :
  FacilityFields.identifier k1 = true →
  FacilityFields.identifier k2 = true →
  FacilityFields.dbField k1 = FacilityFields.dbField k2 →
  k1 = k2.
Proof.
  revert k2. induction k1 as [| c1 r1 IH]; intros [| c2 r2] H1 H2 Heq.
  - reflexivity.
  - rewrite dbField_cons in Heq. destruct (FacilityFields.is_upper c2); discriminate.
  - rewrite dbField_cons in Heq. destruct (FacilityFields.is_upper c1); discriminate.
  - cbn [FacilityFields.identifier] in H1, H2.
    apply andb_true_iff in H1 as [Hc1 Hr1]. apply andb_true_iff in H2 as [Hc2 Hr2].
    rewrite !dbField_cons in Heq.
    destruct (FacilityFields.is_upper c1) eqn:Hu1, (FacilityFields.is_upper c2) eqn:Hu2.
    + injection Heq as Hc Hr. f_equal; [| by apply IH].
      rewrite <- (lower_upper_unit c1 Hu1), <- (lower_upper_unit c2 Hu2). by rewrite Hc.
    + injection Heq as Hc _.
      destruct (lower_identifier_unit c2 Hc2 Hu2) as [Hl Hne]. congruence.
    + injection Heq as Hc _.
      destruct (lower_identifier_unit c1 Hc1 Hu1) as [Hl Hne]. congruence.
    + injection Heq as Hc Hr.
      destruct (lower_identifier_unit c1 Hc1 Hu1) as [Hl1 _].
      destruct (lower_identifier_unit c2 Hc2 Hu2) as [Hl2 _].
      f_equal; [congruence | by apply IH].
Qed.

(** X27. The translation of a key into a column name loses nothing on
    identifiers: two keys made of letters and digits give the same column
    exactly when they are the same key. *)
Theorem dbField_injective k1 k2 :
  FacilityFields.identifier k1 = true →
  FacilityFields.identifier k2 = true →
  FacilityFields.dbField k1 = FacilityFields.dbField k2 ↔ k1 = k2.
Proof.
  intros H1 H2. split; [by apply dbField_inj | by intros ->].
Qed.

Lemma dbField_injective_witness :
  FacilityFields.dbField "bookingBufferMinutes" = FacilityFields.dbField "requiresSupervision"
  ↔ ("bookingBufferMinutes" = "requiresSupervision")%string.
Proof.
  apply (dbField_injective "bookingBufferMinutes" "requiresSupervision");
    vm_compute; reflexivity.
Defined.

(** X28. An update whose keys are distinct identifiers assigns no column
    twice, and assigns exactly the columns of its keys that are allowed, each
    with the value of its key. *)
Theorem update_assigns_each_column_once {V : Type} (updateData : list (string * V)) :
  NoDup updateData.*1 →
  Forall (λ kv, FacilityFields.identifier kv.1 = true) updateData →
  NoDup (FacilityFields.assignments updateData).*1 ∧
  ∀ col v, (col, v) ∈ FacilityFields.assignments updateData
           ↔ col ∈ FacilityFields.allowedFields ∧
             ∃ key, (key, v) ∈ updateData ∧ FacilityFields.dbField key = col.
Proof.
  intros Hnodup Hident. split.
  - induction updateData as [| [k v] rest IH]; [constructor |].
    apply NoDup_cons in Hnodup as [Hk Hnodup]. apply Forall_cons in Hident as [Hkid Hident].
    unfold FacilityFields.assignments. cbn [omap list_omap fst snd].
    case_decide as Hallowed; [| by apply IH].
    cbn [fmap list_fmap fst]. apply NoDup_cons. split; [| by apply IH].
    intros Hin. apply list_elem_of_fmap in Hin as ([col v'] & Hcol & Hin).
    apply list_elem_of_omap in Hin as ([k' v''] & Hin' & Hsome).
    cbn [fst snd] in *. case_decide; [| discriminate]. simplify_eq.
    apply Hk. apply list_elem_of_fmap. exists (k', v'). split; [| exact Hin'].
    cbn [fst]. apply dbField_inj; [exact Hkid | | done].
    by eapply Forall_forall in Hident; [| exact Hin'].
  - intros col v. unfold FacilityFields.assignments. rewrite list_elem_of_omap. split.
    + intros ([k v'] & Hin & Hsome). cbn [fst snd] in Hsome.
      case_decide; [| discriminate]. simplify_eq. split; [done |]. by exists k.
    + intros (Hallowed & k & Hin & <-). exists (k, v). split; [exact Hin |].
      cbn [fst snd]. by rewrite decide_True.
Qed.

Lemma update_assigns_each_column_once_witness :
  NoDup (FacilityFields.assignments
           [("bookingBufferMinutes", 0); ("operatingHoursEnd", 1); ("Status", 2)]%string).*1 ∧
  ∀ col v, (col, v) ∈ FacilityFields.assignments
             [("bookingBufferMinutes", 0); ("operatingHoursEnd", 1); ("Status", 2)]%string
           ↔ col ∈ FacilityFields.allowedFields ∧
             ∃ key, (key, v) ∈ [("bookingBufferMinutes", 0); ("operatingHoursEnd", 1);
                                ("Status", 2)]%string ∧
                    FacilityFields.dbField key = col.
Proof.
  apply (update_assigns_each_column_once
           [("bookingBufferMinutes", 0); ("operatingHoursEnd", 1); ("Status", 2)]%string).
  - by_decide.
  - by_decide.
Defined.
